(** * TerpMeter device control loop (Cores3_Arduino_Cloud.ino)

    A shallow embedding of the firmware's control loop: the touch
    dispatcher [handleTouch], the settings menu [handleSettingsTouch],
    the emissivity modal [adjustEmissivity] and the temperature block of
    [loop].

    - C++ [float] is IEEE binary32 and [double] is binary64, both taken
      from the Standard Library's [SpecFloat], with the promotions and
      conversions of the C++ expressions written out.  [abs] on a [float]
      is the absolute value in [float].
    - [int] is [Z]; screen coordinates stay far from the 32-bit bounds, and
      where a stored value takes part in arithmetic ([brightness]) the
      wrap-around is written out.  An integer division by zero is a
      [Fault].
    - The [Preferences] key-value store is a [gmap] from key strings to
      typed values.
    - The hardware is a list of frames still to come: every call of
      [CoreS3.update()] makes the next one current.  The two blocking loops
      of the modal take their frames from the same list, and a loop that
      finds it empty is [Starved].
    - Calls into collaborators (display, speaker, sensor LED, serial port)
      are recorded in a trace, at the granularity of the source-level
      routine that issues them.  [delay], the watchdog reset and
      [ArduinoCloud.update()] touch none of the state modelled here and
      are left out; [setup] is represented by [boot], and its sensor
      start-up loops by [count_readings] and [connect]. *)

From Stdlib Require Import ZArith Lia Bool List.
From Stdlib Require Import Floats.SpecFloat.
From stdpp Require Import base gmap strings.
Import ListNotations.

Open Scope string_scope.
Open Scope Z_scope.

(** ** Floating point *)

(** [float] values are [spec_float]s that satisfy [valid_binary 24 128];
    [double] values satisfy [valid_binary 53 1024]. *)
Module F32.
Definition prec : Z := 24.
Definition emax : Z := 128.
Definition valid (x : spec_float) : bool := valid_binary prec emax x.
Definition of_Z (z : Z) : spec_float := binary_normalize prec emax z 0 false.
Definition add : spec_float -> spec_float -> spec_float := SFadd prec emax.
Definition sub : spec_float -> spec_float -> spec_float := SFsub prec emax.
Definition div : spec_float -> spec_float -> spec_float := SFdiv prec emax.
(** Conversion [double -> float] (round to nearest, ties to even). *)
Definition of_double (x : spec_float) : spec_float :=
  match x with
  | S754_finite s m e => binary_normalize prec emax (cond_Zopp s (Zpos m)) e s
  | _ => x
  end.
End F32.

Module F64.
Definition prec : Z := 53.
Definition emax : Z := 1024.
Definition of_Z (z : Z) : spec_float := binary_normalize prec emax z 0 false.
Definition add : spec_float -> spec_float -> spec_float := SFadd prec emax.
Definition mul : spec_float -> spec_float -> spec_float := SFmul prec emax.
Definition div : spec_float -> spec_float -> spec_float := SFdiv prec emax.
(** Promotion [float -> double] (exact). *)
Definition of_float (x : spec_float) : spec_float :=
  match x with
  | S754_finite s m e => binary_normalize prec emax (cond_Zopp s (Zpos m)) e s
  | _ => x
  end.
End F64.

(** The C++ comparison operators on floating-point values: every one of
    them is false when an operand is NaN, except [!=]. *)
Definition fabs : spec_float -> spec_float := SFabs.
Definition flt (x y : spec_float) : bool := SFltb x y.
Definition fgt (x y : spec_float) : bool := SFltb y x.
Definition fle (x y : spec_float) : bool := SFleb x y.
Definition fge (x y : spec_float) : bool := SFleb y x.
Definition feq (x y : spec_float) : bool := SFeqb x y.
Definition fne (x y : spec_float) : bool := negb (SFeqb x y).
Definition is_nan (x : spec_float) : bool :=
  match x with S754_nan => true | _ => false end.

(** ** Integers *)

(** Two's complement wrap-around of a 32-bit [int]. *)
Definition wrap_int (z : Z) : Z := (z + 2 ^ 31) mod 2 ^ 32 - 2 ^ 31.
(** Wrap-around of a 32-bit [unsigned long]. *)
Definition wrap_ulong (z : Z) : Z := z mod 2 ^ 32.

(** ** namespace Config *)
Module Config.
Module Display.
(** [TFT_BLACK] and [TFT_WHITE] are the display library's constants. *)
Definition COLOR_BACKGROUND : Z := 0x0000.
Definition COLOR_TEXT : Z := 0xFFFF.
Definition COLOR_PRIMARY : Z := 0x3CD070.
Definition COLOR_SECONDARY : Z := 0x1B3358.
Definition COLOR_WARNING : Z := 0xFFB627.
Definition COLOR_ERROR : Z := 0xFF0F7B.
Definition COLOR_SUCCESS : Z := 0x3CD070.
Definition COLOR_READY : Z := 0x00FF00.
Definition HEADER_HEIGHT : Z := 30.
Definition FOOTER_HEIGHT : Z := 40.
Definition STATUS_HEIGHT : Z := 40.
Definition MARGIN : Z := 10.
Definition BUTTON_HEIGHT : Z := 50.
End Display.
Module Temperature.
Definition MIN_TEMP_C : spec_float := F32.of_Z (-20).
Definition MAX_TEMP_C : spec_float := F32.of_Z 400.
Definition DEFAULT_TARGET_C : spec_float := F32.of_Z 180.
Definition DEFAULT_TOLERANCE_C : spec_float := F32.of_Z 5.
Definition UPDATE_INTERVAL_MS : Z := 2000.
End Temperature.
Module System.
Definition BATTERY_CHECK_INTERVAL_MS : Z := 5000.
Definition DEFAULT_BRIGHTNESS : Z := 128.
(** [0.87] is a [double] literal converted to [float]. *)
Definition DEFAULT_EMISSIVITY : spec_float :=
  F32.of_double (F64.div (F64.of_Z 87) (F64.of_Z 100)).
End System.
End Config.

(** ** Data model *)

Record Settings := mkSettings {
  useCelsius : bool;
  soundEnabled : bool;
  brightness : Z;
  emissivity : spec_float;
  targetTemp : spec_float;
  tempTolerance : spec_float
}.

Inductive Screen := MAIN | SETTINGS.

Record SystemState := mkSystemState {
  isMonitoring : bool;
  currentTemp : spec_float;
  lastTempUpdate : Z;
  lastSerialUpdate : Z;
  lastBatteryCheck : Z;
  lowBatteryWarning : bool;
  statusMessage : string;
  statusColor : Z;
  currentScreen : Screen
}.

Record SettingsMenu := mkSettingsMenu {
  isOpen : bool;
  selectedItem : Z
}.

Definition numItems : Z := 6.

Record Button := mkButton {
  x : Z; y : Z; width : Z; height : Z;
  label : string;
  enabled : bool;
  pressed : bool;
  isToggle : bool;
  toggleState : bool
}.

(** The [Button] constructor: [pressed] and [toggleState] start false. *)
Definition newButton (_x _y _w _h : Z) (_label : string)
    (_enabled _isToggle : bool) : Button :=
  mkButton _x _y _w _h _label _enabled false _isToggle false.

(** A value held under a key of the [Preferences] store. *)
Inductive PrefValue :=
| PBool (b : bool)
| PInt (z : Z)
| PFloat (f : spec_float).

(** What [CoreS3.Touch.getCount()] and [getDetail()] report for one
    polled frame. *)
Record TouchDetail := mkTouch {
  count : Z;
  wasPressed : bool;
  wasReleased : bool;
  touch_x : Z;
  touch_y : Z
}.

(** What the hardware presents while one frame is current: the touch
    sample latched by [CoreS3.update()], [millis()], the sensor's
    [getTempValue()] and the power readings. *)
Record Frame := mkFrame {
  touch : TouchDetail;
  millis : Z;
  tempValue : spec_float;
  batteryLevel : Z;
  isCharging : bool
}.

(** Calls into the collaborators. *)
Inductive Effect :=
| Tone (frequency duration : Z)
| ButtonDrawn (b : Button) (fill : Z)
| ContentCleared
| ScreenCleared
| HeaderDrawn
| FooterDrawn
| MainDisplayDrawn
| TemperatureDrawn (displayTemp : spec_float) (celsius : bool)
    (emis : spec_float)
| SettingsMenuDrawn
| StatusDrawn (message : string) (color : Z)
| DisplayBrightness (b : Z)
| SensorLED (color : Z)
| SensorEmissivity (e : spec_float)
| SerialReport (tempC : spec_float)
| ModalScreenDrawn
| ModalValueDrawn (e : spec_float)
| ConfirmScreenDrawn (oldE newE : spec_float).

(** The whole machine: the globals of the sketch, the two [static] locals
    of [handleTouch], the cloud property [temperature], the display size,
    the current frame, the frames still to come, and the trace (newest
    effect first). *)
Record World := mkWorld {
  settings : Settings;
  state : SystemState;
  settingsMenu : SettingsMenu;
  preferences : gmap string PrefValue;
  lastPressedButton : option Button;
  touchProcessed : bool;
  temperature : spec_float;
  display_width : Z;
  display_height : Z;
  frame : Frame;
  pending : list Frame;
  trace : list Effect
}.

(** What a call can come to.  [Returned]: it returned, with a value.
    [Restarted]: [ESP.restart()] was reached.  [Starved]: [CoreS3.update()]
    was called with no frame left in [pending] (the recorded input ends
    there).  [Fault]: an integer division by zero. *)
Inductive Result (A : Type) :=
| Returned (a : A) (w : World)
| Restarted (w : World)
| Starved (w : World)
| Fault (w : World).
Arguments Returned {A} a w.
Arguments Restarted {A} w.
Arguments Starved {A} w.
Arguments Fault {A} w.

(** Sequencing: the rest of the routine runs only after a call that
    returned. *)
Definition bind {A B : Type} (c : Result A) (k : A -> World -> Result B)
    : Result B :=
  match c with
  | Returned a w => k a w
  | Restarted w => Restarted w
  | Starved w => Starved w
  | Fault w => Fault w
  end.

Notation "'let*' ( a , w ) ':=' c 'in' k" :=
  (bind c (fun a w => k))
  (at level 10, a name, w name, c at level 100, k at level 200).

Definition final_world {A : Type} (r : Result A) : World :=
  match r with
  | Returned _ w | Restarted w | Starved w | Fault w => w
  end.

(** *** Field updates *)
Definition with_settings (s : Settings) (w : World) : World :=
  mkWorld s (state w) (settingsMenu w) (preferences w) (lastPressedButton w)
    (touchProcessed w) (temperature w) (display_width w) (display_height w)
    (frame w) (pending w) (trace w).
Definition with_state (s : SystemState) (w : World) : World :=
  mkWorld (settings w) s (settingsMenu w) (preferences w) (lastPressedButton w)
    (touchProcessed w) (temperature w) (display_width w) (display_height w)
    (frame w) (pending w) (trace w).
Definition with_settingsMenu (m : SettingsMenu) (w : World) : World :=
  mkWorld (settings w) (state w) m (preferences w) (lastPressedButton w)
    (touchProcessed w) (temperature w) (display_width w) (display_height w)
    (frame w) (pending w) (trace w).
Definition with_preferences (p : gmap string PrefValue) (w : World) : World :=
  mkWorld (settings w) (state w) (settingsMenu w) p (lastPressedButton w)
    (touchProcessed w) (temperature w) (display_width w) (display_height w)
    (frame w) (pending w) (trace w).
Definition with_lastPressedButton (b : option Button) (w : World) : World :=
  mkWorld (settings w) (state w) (settingsMenu w) (preferences w) b
    (touchProcessed w) (temperature w) (display_width w) (display_height w)
    (frame w) (pending w) (trace w).
Definition with_touchProcessed (b : bool) (w : World) : World :=
  mkWorld (settings w) (state w) (settingsMenu w) (preferences w)
    (lastPressedButton w) b (temperature w) (display_width w)
    (display_height w) (frame w) (pending w) (trace w).
Definition with_temperature (t : spec_float) (w : World) : World :=
  mkWorld (settings w) (state w) (settingsMenu w) (preferences w)
    (lastPressedButton w) (touchProcessed w) t (display_width w)
    (display_height w) (frame w) (pending w) (trace w).
Definition with_input (f : Frame) (fs : list Frame) (w : World) : World :=
  mkWorld (settings w) (state w) (settingsMenu w) (preferences w)
    (lastPressedButton w) (touchProcessed w) (temperature w) (display_width w)
    (display_height w) f fs (trace w).
Definition emit (e : Effect) (w : World) : World :=
  mkWorld (settings w) (state w) (settingsMenu w) (preferences w)
    (lastPressedButton w) (touchProcessed w) (temperature w) (display_width w)
    (display_height w) (frame w) (pending w) (e :: trace w).

Definition set_useCelsius (b : bool) (s : Settings) : Settings :=
  mkSettings b (soundEnabled s) (brightness s) (emissivity s) (targetTemp s)
    (tempTolerance s).
Definition set_soundEnabled (b : bool) (s : Settings) : Settings :=
  mkSettings (useCelsius s) b (brightness s) (emissivity s) (targetTemp s)
    (tempTolerance s).
Definition set_brightness (b : Z) (s : Settings) : Settings :=
  mkSettings (useCelsius s) (soundEnabled s) b (emissivity s) (targetTemp s)
    (tempTolerance s).
Definition set_emissivity (e : spec_float) (s : Settings) : Settings :=
  mkSettings (useCelsius s) (soundEnabled s) (brightness s) e (targetTemp s)
    (tempTolerance s).
Definition set_targetTemp (t : spec_float) (s : Settings) : Settings :=
  mkSettings (useCelsius s) (soundEnabled s) (brightness s) (emissivity s) t
    (tempTolerance s).
Definition set_tempTolerance (t : spec_float) (s : Settings) : Settings :=
  mkSettings (useCelsius s) (soundEnabled s) (brightness s) (emissivity s)
    (targetTemp s) t.

Definition set_isMonitoring (b : bool) (s : SystemState) : SystemState :=
  mkSystemState b (currentTemp s) (lastTempUpdate s) (lastSerialUpdate s)
    (lastBatteryCheck s) (lowBatteryWarning s) (statusMessage s)
    (statusColor s) (currentScreen s).
Definition set_currentTemp (t : spec_float) (s : SystemState) : SystemState :=
  mkSystemState (isMonitoring s) t (lastTempUpdate s) (lastSerialUpdate s)
    (lastBatteryCheck s) (lowBatteryWarning s) (statusMessage s)
    (statusColor s) (currentScreen s).
Definition set_lastTempUpdate (t : Z) (s : SystemState) : SystemState :=
  mkSystemState (isMonitoring s) (currentTemp s) t (lastSerialUpdate s)
    (lastBatteryCheck s) (lowBatteryWarning s) (statusMessage s)
    (statusColor s) (currentScreen s).
Definition set_lastSerialUpdate (t : Z) (s : SystemState) : SystemState :=
  mkSystemState (isMonitoring s) (currentTemp s) (lastTempUpdate s) t
    (lastBatteryCheck s) (lowBatteryWarning s) (statusMessage s)
    (statusColor s) (currentScreen s).
Definition set_lastBatteryCheck (t : Z) (s : SystemState) : SystemState :=
  mkSystemState (isMonitoring s) (currentTemp s) (lastTempUpdate s)
    (lastSerialUpdate s) t (lowBatteryWarning s) (statusMessage s)
    (statusColor s) (currentScreen s).
Definition set_lowBatteryWarning (b : bool) (s : SystemState) : SystemState :=
  mkSystemState (isMonitoring s) (currentTemp s) (lastTempUpdate s)
    (lastSerialUpdate s) (lastBatteryCheck s) b (statusMessage s)
    (statusColor s) (currentScreen s).
Definition set_status (m : string) (c : Z) (s : SystemState) : SystemState :=
  mkSystemState (isMonitoring s) (currentTemp s) (lastTempUpdate s)
    (lastSerialUpdate s) (lastBatteryCheck s) (lowBatteryWarning s) m c
    (currentScreen s).
Definition set_currentScreen (c : Screen) (s : SystemState) : SystemState :=
  mkSystemState (isMonitoring s) (currentTemp s) (lastTempUpdate s)
    (lastSerialUpdate s) (lastBatteryCheck s) (lowBatteryWarning s)
    (statusMessage s) (statusColor s) c.

Definition set_pressed (p : bool) (b : Button) : Button :=
  mkButton (x b) (y b) (width b) (height b) (label b) (enabled b) p
    (isToggle b) (toggleState b).
Definition set_toggleState (t : bool) (b : Button) : Button :=
  mkButton (x b) (y b) (width b) (height b) (label b) (enabled b) (pressed b)
    (isToggle b) t.

(** ** The [Preferences] store *)

(** [getBool], [getInt] and [getFloat] of the store library: the value
    under the key when there is one of the asked type, otherwise the
    default given by the caller. *)
Definition getBool (p : gmap string PrefValue) (key : string) (d : bool) : bool :=
  match p !! key with Some (PBool b) => b | _ => d end.
Definition getInt (p : gmap string PrefValue) (key : string) (d : Z) : Z :=
  match p !! key with Some (PInt z) => z | _ => d end.
Definition getFloat (p : gmap string PrefValue) (key : string)
    (d : spec_float) : spec_float :=
  match p !! key with Some (PFloat f) => f | _ => d end.

(** [Settings::load] *)
Definition load (w : World) : World :=
  let p := preferences w in
  with_settings
    (mkSettings
       (getBool p "useCelsius" true)
       (getBool p "soundEnabled" true)
       (getInt p "brightness" Config.System.DEFAULT_BRIGHTNESS)
       (getFloat p "emissivity" Config.System.DEFAULT_EMISSIVITY)
       (getFloat p "targetTemp" Config.Temperature.DEFAULT_TARGET_C)
       (getFloat p "tolerance" Config.Temperature.DEFAULT_TOLERANCE_C)) w.

(** [Settings::save] *)
Definition save (w : World) : World :=
  let s := settings w in
  let p := preferences w in
  let p := <["useCelsius" := PBool (useCelsius s)]> p in
  let p := <["soundEnabled" := PBool (soundEnabled s)]> p in
  let p := <["brightness" := PInt (brightness s)]> p in
  let p := <["emissivity" := PFloat (emissivity s)]> p in
  let p := <["targetTemp" := PFloat (targetTemp s)]> p in
  let p := <["tolerance" := PFloat (tempTolerance s)]> p in
  with_preferences p w.

(** ** Helpers of the sketch *)

(** [isValidTemperature] *)
Definition isValidTemperature (temp : spec_float) : bool :=
  fgt temp (F32.of_Z (-2000)) && flt temp (F32.of_Z 20000).

(** [playSound] *)
Definition playSound (success : bool) (w : World) : World :=
  if negb (soundEnabled (settings w)) then w
  else emit (Tone (if success then 1000 else 500) (if success then 50 else 100)) w.

(** [Button::contains] *)
Definition contains (b : Button) (tx ty : Z) : bool :=
  enabled b
  && (x b <=? tx) && (tx <? x b + width b)
  && (y b <=? ty) && (ty <? y b + height b).

(** [Button::draw] *)
Definition draw (b : Button) (color : Z) (w : World) : World :=
  let color :=
    if negb (enabled b) then Config.Display.COLOR_SECONDARY
    else if isToggle b && toggleState b then Config.Display.COLOR_PRIMARY
    else color in
  if pressed b then
    let pressedColor :=
      if color =? Config.Display.COLOR_PRIMARY
      then Config.Display.COLOR_READY else Config.Display.COLOR_WARNING in
    emit (ButtonDrawn b pressedColor) w
  else emit (ButtonDrawn b color) w.

(** [Button::setPressed]: the button after the call, and the world. *)
Definition setPressed (b : Button) (isPressed : bool) (w : World)
    : Button * World :=
  if negb (Bool.eqb (pressed b) isPressed) then
    let b := set_pressed isPressed b in
    let w := if pressed b && soundEnabled (settings w)
             then playSound true w else w in
    (b, draw b (if isToggle b && toggleState b
                then Config.Display.COLOR_PRIMARY
                else Config.Display.COLOR_SECONDARY) w)
  else (b, w).

(** [updateStatus] *)
Definition updateStatus (message : string) (color : Z) (w : World) : World :=
  if negb (String.eqb message (statusMessage (state w)))
     || negb (color =? statusColor (state w))
  then emit (StatusDrawn message color)
         (with_state (set_status message color (state w)) w)
  else w.

(** [readTemperature]: the raw value is divided by the [double] 100.0 and
    the quotient is stored in a [float]. *)
Definition celsius_of_raw (rawTemp : spec_float) : spec_float :=
  F32.of_double (F64.div (F64.of_float rawTemp) (F64.of_Z 100)).
Definition readTemperature (w : World) : spec_float :=
  celsius_of_raw (tempValue (frame w)).

(** [(t * 9.0 / 5.0) + 32.0], computed in [double], stored in a [float]. *)
Definition fahrenheit (t : spec_float) : spec_float :=
  F32.of_double
    (F64.add (F64.div (F64.mul (F64.of_float t) (F64.of_Z 9)) (F64.of_Z 5))
       (F64.of_Z 32)).

(** The two footer buttons, as [handleTouch] and [drawFooter] build them. *)
Definition footerY (w : World) : Z :=
  display_height w - Config.Display.FOOTER_HEIGHT.
Definition buttonWidth (w : World) : Z :=
  Z.quot (display_width w - 3 * Config.Display.MARGIN) 2.
Definition monitorBtn (w : World) : Button :=
  set_toggleState (isMonitoring (state w))
    (newButton Config.Display.MARGIN
       (footerY w
        + Z.quot (Config.Display.FOOTER_HEIGHT - Config.Display.BUTTON_HEIGHT) 2)
       (buttonWidth w)
       (Config.Display.BUTTON_HEIGHT - 4)
       (if isMonitoring (state w) then "Stop" else "Monitor")
       true true).
Definition settingsBtn (w : World) : Button :=
  newButton (display_width w - buttonWidth w - Config.Display.MARGIN)
    (footerY w
     + Z.quot (Config.Display.FOOTER_HEIGHT - Config.Display.BUTTON_HEIGHT) 2)
    (buttonWidth w)
    (Config.Display.BUTTON_HEIGHT - 4)
    (if isOpen (settingsMenu w) then "Back" else "Settings")
    true false.

(** [drawHeader], [drawFooter], [drawMainDisplay], [drawTemperature],
    [drawSettingsMenu], [updateDisplay] *)
Definition drawHeader (w : World) : World := emit HeaderDrawn w.

Definition drawFooter (w : World) : World :=
  let w := emit FooterDrawn w in
  let w := if negb (isOpen (settingsMenu w))
           then draw (monitorBtn w) Config.Display.COLOR_SECONDARY w else w in
  draw (settingsBtn w) Config.Display.COLOR_SECONDARY w.

Definition drawMainDisplay (w : World) : World := emit MainDisplayDrawn w.

Definition drawTemperature (w : World) : World :=
  if isOpen (settingsMenu w) then w
  else
    let tempC := currentTemp (state w) in
    let tempF := fahrenheit tempC in
    let displayTemp := if useCelsius (settings w) then tempC else tempF in
    emit (TemperatureDrawn displayTemp (useCelsius (settings w))
            (emissivity (settings w))) w.

Definition drawSettingsMenu (w : World) : World := emit SettingsMenuDrawn w.

Definition updateDisplay (w : World) : World :=
  let w := emit ContentCleared w in
  let w := drawHeader w in
  let w := drawFooter w in
  if isOpen (settingsMenu w) then drawSettingsMenu w
  else drawTemperature (drawMainDisplay w).

(** [checkBattery] *)
Definition checkBattery (w : World) : World :=
  if (batteryLevel (frame w) <=? 10) && negb (isCharging (frame w)) then
    if negb (lowBatteryWarning (state w)) then
      let w := updateStatus "Low Battery!" Config.Display.COLOR_WARNING w in
      with_state (set_lowBatteryWarning true (state w)) w
    else w
  else with_state (set_lowBatteryWarning false (state w)) w.

(** [CoreS3.update()]: the next recorded frame becomes current. *)
Definition CoreS3_update (w : World) : option World :=
  match pending w with
  | [] => None
  | f :: fs => Some (with_input f fs w)
  end.

(** ** The emissivity modal: [adjustEmissivity] *)

Definition EMISSIVITY_MIN : spec_float := F32.div (F32.of_Z 65) (F32.of_Z 100).
Definition EMISSIVITY_MAX : spec_float := F32.of_Z 1.
Definition EMISSIVITY_STEP : spec_float := F32.div (F32.of_Z 1) (F32.of_Z 100).

Definition upBtn : Button := newButton 220 60 80 60 "+" true false.
Definition downBtn : Button := newButton 220 140 80 60 "-" true false.
Definition doneBtn : Button := newButton 10 180 100 50 "Done" true false.
Definition confirmBtn : Button := newButton 10 190 145 50 "Restart" true false.
Definition cancelBtn : Button := newButton 165 190 145 50 "Cancel" true false.

(** The entry clamp on the staged value. *)
Definition clamp_emissivity (e : spec_float) : spec_float :=
  let e := if flt e EMISSIVITY_MIN then EMISSIVITY_MIN else e in
  if fgt e EMISSIVITY_MAX then EMISSIVITY_MAX else e.

(** The bodies of the two guarded steps, [+] and [-]. *)
Definition step_up (tempEmissivity : spec_float) : spec_float :=
  let t := F32.add tempEmissivity EMISSIVITY_STEP in
  if fgt t EMISSIVITY_MAX then EMISSIVITY_MAX else t.
Definition step_down (tempEmissivity : spec_float) : spec_float :=
  let t := F32.sub tempEmissivity EMISSIVITY_STEP in
  if flt t EMISSIVITY_MIN then EMISSIVITY_MIN else t.

(** [while (adjusting)]: one iteration per frame taken by [CoreS3.update()];
    the frames still to come are the recursion argument.  Returns the
    staged value and [valueChanged]. *)
Fixpoint adjust_loop (frames : list Frame)
    (originalEmissivity tempEmissivity lastDrawnValue : spec_float)
    (valueChanged : bool) (w : World) : Result (spec_float * bool) :=
  let w := if fne tempEmissivity lastDrawnValue
           then emit (ModalValueDrawn tempEmissivity) w else w in
  let lastDrawnValue := if fne tempEmissivity lastDrawnValue
                        then tempEmissivity else lastDrawnValue in
  match frames with
  | [] => Starved w
  | f :: frames =>
    let w := with_input f frames w in
    let touched := touch f in
    if negb (count touched =? 0) && wasPressed touched then
      if contains upBtn (touch_x touched) (touch_y touched) then
        if flt tempEmissivity EMISSIVITY_MAX then
          let tempEmissivity := step_up tempEmissivity in
          adjust_loop frames originalEmissivity tempEmissivity lastDrawnValue
            (fne tempEmissivity originalEmissivity) (playSound true w)
        else
          adjust_loop frames originalEmissivity tempEmissivity lastDrawnValue
            valueChanged w
      else if contains downBtn (touch_x touched) (touch_y touched) then
        if fgt tempEmissivity EMISSIVITY_MIN then
          let tempEmissivity := step_down tempEmissivity in
          adjust_loop frames originalEmissivity tempEmissivity lastDrawnValue
            (fne tempEmissivity originalEmissivity) (playSound true w)
        else
          adjust_loop frames originalEmissivity tempEmissivity lastDrawnValue
            valueChanged w
      else if contains doneBtn (touch_x touched) (touch_y touched) then
        Returned (tempEmissivity, valueChanged) (playSound true w)
      else
        adjust_loop frames originalEmissivity tempEmissivity lastDrawnValue
          valueChanged w
    else
      adjust_loop frames originalEmissivity tempEmissivity lastDrawnValue
        valueChanged w
  end.

(** [while (waiting)] of the confirmation screen. *)
Fixpoint confirm_loop (frames : list Frame) (tempEmissivity : spec_float)
    (w : World) : Result unit :=
  match frames with
  | [] => Starved w
  | f :: frames =>
    let w := with_input f frames w in
    let touched := touch f in
    if negb (count touched =? 0) && wasPressed touched then
      if contains confirmBtn (touch_x touched) (touch_y touched) then
        let w := with_settings (set_emissivity tempEmissivity (settings w)) w in
        let w := save w in
        let w := emit (SensorEmissivity (emissivity (settings w))) w in
        let w := playSound true w in
        Restarted w
      else if contains cancelBtn (touch_x touched) (touch_y touched) then
        Returned tt (playSound true w)
      else confirm_loop frames tempEmissivity w
    else confirm_loop frames tempEmissivity w
  end.

Definition adjustEmissivity (w : World) : Result unit :=
  let originalEmissivity := emissivity (settings w) in
  let tempEmissivity := clamp_emissivity (emissivity (settings w)) in
  let w := emit ModalScreenDrawn w in
  let w := draw upBtn Config.Display.COLOR_SECONDARY w in
  let w := draw downBtn Config.Display.COLOR_SECONDARY w in
  let w := draw doneBtn Config.Display.COLOR_SECONDARY w in
  let* (r, w) := adjust_loop (pending w) originalEmissivity tempEmissivity
                   (F32.of_Z (-1)) false w in
  let tempEmissivity := fst r in
  let valueChanged := snd r in
  let* (_, w) :=
    if valueChanged then
      let w := emit (ConfirmScreenDrawn originalEmissivity tempEmissivity) w in
      let w := draw confirmBtn Config.Display.COLOR_SUCCESS w in
      let w := draw cancelBtn Config.Display.COLOR_ERROR w in
      confirm_loop (pending w) tempEmissivity w
    else Returned tt w in
  let w := drawMainDisplay w in
  let w := drawTemperature w in
  Returned tt (updateDisplay w).

(** ** The settings menu: [handleSettingsTouch] *)

(** The [switch (touchedItem)] of [handleSettingsTouch]. *)
Definition handleItemSelection (touchedItem : Z) (w : World) : Result unit :=
  let s := settings w in
  match touchedItem with
  | 0 => Returned tt (with_settings (set_useCelsius (negb (useCelsius s)) s) w)
  | 1 =>
    let w := with_settings (set_soundEnabled (negb (soundEnabled s)) s) w in
    Returned tt (if soundEnabled (settings w) then playSound true w else w)
  | 2 =>
    let b := Z.rem (wrap_int (brightness s + 64)) 256 in
    let w := with_settings (set_brightness b s) w in
    Returned tt (emit (DisplayBrightness (brightness (settings w))) w)
  | 3 => adjustEmissivity w
  | 4 =>
    let t := F32.add (targetTemp s)
               (if useCelsius s then F32.of_Z 5 else F32.of_Z 10) in
    let t := if fgt t Config.Temperature.MAX_TEMP_C
             then Config.Temperature.MIN_TEMP_C else t in
    Returned tt (with_settings (set_targetTemp t s) w)
  | 5 =>
    let t := F32.add (tempTolerance s)
               (if useCelsius s then F32.div (F32.of_Z 1) (F32.of_Z 2)
                else F32.of_Z 1) in
    let t := if fgt t (F32.of_Z 20) then F32.of_Z 1 else t in
    Returned tt (with_settings (set_tempTolerance t s) w)
  | _ => Returned tt w
  end.

Definition handleSettingsTouch (tx ty : Z) (w : World) : Result unit :=
  let menuY := Config.Display.HEADER_HEIGHT + Config.Display.MARGIN in
  let menuHeight :=
    display_height w - Config.Display.HEADER_HEIGHT
    - Config.Display.FOOTER_HEIGHT - 2 * Config.Display.MARGIN in
  let itemHeight := Z.quot menuHeight numItems in
  let* (_, w) :=
    if (Config.Display.MARGIN <=? tx)
       && (tx <=? display_width w - Config.Display.MARGIN)
       && (menuY <=? ty) && (ty <=? menuY + menuHeight)
    then
      if itemHeight =? 0 then Fault w
      else
        let touchedItem := Z.quot (ty - menuY) itemHeight in
        if (0 <=? touchedItem) && (touchedItem <? numItems) then
          let w := with_settingsMenu
                     (mkSettingsMenu (isOpen (settingsMenu w)) touchedItem) w in
          let* (_, w) := handleItemSelection touchedItem w in
          let w := save w in
          let w := if soundEnabled (settings w) then playSound true w else w in
          Returned tt (drawSettingsMenu (emit ContentCleared w))
        else Returned tt w
    else Returned tt w in
  if display_height w - Config.Display.FOOTER_HEIGHT <? ty then
    let w := with_settingsMenu
               (mkSettingsMenu false (selectedItem (settingsMenu w))) w in
    let w := save w in
    Returned tt (updateDisplay (emit ScreenCleared w))
  else Returned tt w.

(** ** The touch dispatcher: [handleTouch] *)

Definition handleTouch (w : World) : Result unit :=
  let t := touch (frame w) in
  if negb (count t =? 0) then
    if wasPressed t && negb (touchProcessed w) then
      let w := with_touchProcessed true w in
      if footerY w <=? touch_y t then
        if negb (isOpen (settingsMenu w))
           && (Config.Display.MARGIN <=? touch_x t)
           && (touch_x t <? Config.Display.MARGIN + buttonWidth w)
        then
          let '(b, w) := setPressed (monitorBtn w) true w in
          Returned tt (with_lastPressedButton (Some b) w)
        else if (display_width w - buttonWidth w - Config.Display.MARGIN
                   <=? touch_x t)
                && (touch_x t <? display_width w - Config.Display.MARGIN)
        then
          let '(b, w) := setPressed (settingsBtn w) true w in
          Returned tt (with_lastPressedButton (Some b) w)
        else Returned tt w
      else if isOpen (settingsMenu w) then
        handleSettingsTouch (touch_x t) (touch_y t) w
      else Returned tt w
    else
      match lastPressedButton w with
      | Some lp =>
        if wasReleased t && touchProcessed w then
          let w := with_touchProcessed false w in
          let w :=
            if contains lp (touch_x t) (touch_y t) then
              if String.eqb (label lp) "Monitor" || String.eqb (label lp) "Stop"
              then
                let w := with_state
                           (set_isMonitoring (negb (isMonitoring (state w)))
                              (state w)) w in
                emit (SensorLED (if isMonitoring (state w) then 0xFFFFFF else 0)) w
              else if String.eqb (label lp) "Settings"
                      || String.eqb (label lp) "Back"
              then
                let w := with_settingsMenu
                           (mkSettingsMenu (negb (isOpen (settingsMenu w)))
                              (selectedItem (settingsMenu w))) w in
                with_state
                  (set_currentScreen
                     (if isOpen (settingsMenu w) then SETTINGS else MAIN)
                     (state w)) w
              else w
            else w in
          let '(_, w) := setPressed lp false w in
          let w := with_lastPressedButton None w in
          Returned tt (updateDisplay w)
        else Returned tt w
      | None => Returned tt w
      end
  else
    let w := with_touchProcessed false w in
    match lastPressedButton w with
    | Some lp =>
      let '(_, w) := setPressed lp false w in
      Returned tt (with_lastPressedButton None w)
    | None => Returned tt w
    end.

(** ** The control loop: [loop] *)

(** The serial report, on its own timer. *)
Definition serial_update (currentMillis : Z) (temp : spec_float) (w : World)
    : World :=
  if Config.Temperature.UPDATE_INTERVAL_MS
       <=? wrap_ulong (currentMillis - lastSerialUpdate (state w))
  then
    let w := emit (SerialReport temp) w in
    with_state (set_lastSerialUpdate currentMillis (state w)) w
  else w.

(** The test that opens the temperature block:
    [abs(temp - state.currentTemp) >= 1.0 || state.currentTemp == 0]. *)
Definition significant (temp currentTemp : spec_float) : bool :=
  fge (F64.of_float (fabs (F32.sub temp currentTemp))) (F64.of_Z 1)
  || feq currentTemp (F32.of_Z 0).

(** The temperature block of [loop]: "Update display only on significant
    changes". *)
Definition ingest (currentMillis : Z) (temp : spec_float) (w : World) : World :=
  if significant temp (currentTemp (state w)) then
    let w := with_state (set_currentTemp temp (state w)) w in
    let w := with_state (set_lastTempUpdate currentMillis (state w)) w in
    let w :=
      if isMonitoring (state w) then
        let diff := fabs (F32.sub temp (targetTemp (settings w))) in
        if fgt diff (tempTolerance (settings w)) then
          let w := updateStatus "Temperature Out of Range!"
                     Config.Display.COLOR_WARNING w in
          if soundEnabled (settings w) then playSound false w else w
        else updateStatus "Monitoring" Config.Display.COLOR_SUCCESS w
      else w in
    let tempF := fahrenheit temp in
    let w := with_temperature tempF w in
    if negb (isOpen (settingsMenu w)) then drawTemperature w else w
  else w.

(** The battery check, on its own timer. *)
Definition battery_update (currentMillis : Z) (w : World) : World :=
  if Config.System.BATTERY_CHECK_INTERVAL_MS
       <=? wrap_ulong (currentMillis - lastBatteryCheck (state w))
  then
    let w := checkBattery w in
    with_state (set_lastBatteryCheck currentMillis (state w)) w
  else w.

Definition loop (w : World) : Result unit :=
  match CoreS3_update w with
  | None => Starved w
  | Some w =>
    let currentMillis := millis (frame w) in
    let* (_, w) := handleTouch w in
    let temp := readTemperature w in
    let w := serial_update currentMillis temp w in
    let w := ingest currentMillis temp w in
    let w := battery_update currentMillis w in
    Returned tt w
  end.

(** [checkTemperature]: defined by the sketch, called from nowhere. *)
Definition checkTemperature (w : World) : World :=
  let temp := readTemperature w in
  if isValidTemperature temp
  then with_state (set_currentTemp temp (state w)) w
  else w.

(** [n] passes of [loop], stopping at the first that does not return. *)
Fixpoint run (n : nat) (w : World) : Result unit :=
  match n with
  | O => Returned tt w
  | S n => let* (_, w) := loop w in run n w
  end.

(** ** Sensor start-up: the probing loops of [setup] *)

(** What the sensor answers during one connection attempt: whether
    [ncir2.begin] succeeds, and the value each successive call of
    [ncir2.getTempValue()] returns. *)
Record Attempt := mkAttempt {
  begin_ok : bool;
  getTempValue : nat -> spec_float
}.

Definition requiredValidReadings : Z := 3.

(** The [for] loop of an attempt, at its [i]-th reading with [n] readings
    still allowed (ten in all): the [validReadingCount] it ends with.  The
    strings it draws, its serial prints and its delays are left out. *)
Fixpoint count_readings (getTempValue : nat -> spec_float) (n i : nat)
    (validReadingCount : Z) : Z :=
  match n with
  | O => validReadingCount
  | S n =>
    if validReadingCount <? requiredValidReadings then
      let temp := getTempValue i in
      let validReadingCount :=
        if isValidTemperature temp then validReadingCount + 1 else 0 in
      count_readings getTempValue n (S i) validReadingCount
    else validReadingCount
  end.

(** The [while (!sensorInitialized && retryCount < 5)] loop, with [n]
    attempts still allowed (five in all): [sensorInitialized] and
    [retryCount] when it ends.  The attempt made is the [retryCount]-th. *)
Fixpoint connect (sensor : nat -> Attempt) (n retryCount : nat) : bool * nat :=
  match n with
  | O => (false, retryCount)
  | S n =>
    let a := sensor retryCount in
    let sensorInitialized :=
      if begin_ok a then
        let validReadingCount := count_readings (getTempValue a) 10 0 0 in
        requiredValidReadings <=? validReadingCount
      else false in
    if sensorInitialized then (true, retryCount)
    else connect sensor n (S retryCount)
  end.

(** The sensor part of [setup]. *)
Definition sensor_init (sensor : nat -> Attempt) : bool * nat :=
  connect sensor 5 0.

(** ** Concrete worlds *)

Definition default_settings : Settings :=
  mkSettings true true Config.System.DEFAULT_BRIGHTNESS
    Config.System.DEFAULT_EMISSIVITY Config.Temperature.DEFAULT_TARGET_C
    Config.Temperature.DEFAULT_TOLERANCE_C.

(** [SystemState] as its member initialisers leave it. *)
Definition initial_state : SystemState :=
  mkSystemState false (S754_zero false) 0 0 0 false ""
    Config.Display.COLOR_TEXT MAIN.

Definition no_touch : TouchDetail := mkTouch 0 false false 0 0.
Definition press (tx ty : Z) : TouchDetail := mkTouch 1 true false tx ty.
Definition release (tx ty : Z) : TouchDetail := mkTouch 1 false true tx ty.

(** A frame at time [ms] with touch sample [t] and raw sensor value [raw]
    (hundredths of a degree), on a charged battery. *)
Definition frame_at (ms : Z) (t : TouchDetail) (raw : Z) : Frame :=
  mkFrame t ms (F32.of_Z raw) 100 false.

(** The device after [settings.load()] on store [p], with a 320 x 240
    display and the frames [fs] ahead of it. *)
Definition boot (p : gmap string PrefValue) (fs : list Frame) : World :=
  load (mkWorld default_settings initial_state (mkSettingsMenu false 0) p
          None false (S754_zero false) 320 240
          (frame_at 0 no_touch 0) fs []).

(** * Notions the statements use *)

(** ** Views of the machine *)

(** The parts of the [World] a routine can be shown to leave alone. *)

(** What a call leaves alone when it only draws, beeps and polls. *)
Definition core (w : World) :=
  (settings w, state w, settingsMenu w, preferences w, lastPressedButton w,
   touchProcessed w, temperature w, display_width w, display_height w).

(** What the menu and the modal leave alone even when they change the
    settings. *)
Definition shell (w : World) :=
  (state w, settingsMenu w, lastPressedButton w, touchProcessed w,
   display_width w, display_height w).

(** What the sensor half of [loop] leaves alone. *)
Definition fixed (w : World) :=
  (settings w, settingsMenu w, preferences w, lastPressedButton w,
   touchProcessed w, isMonitoring (state w), currentScreen (state w)).

(** What the navigation claims watch: the monitoring flag and the screen. *)
Definition controls (w : World) :=
  (isMonitoring (state w), currentScreen (state w), isOpen (settingsMenu w)).

#[global] Instance Screen_eq_dec : EqDecision Screen.
Proof. solve_decision. Defined.

(** ** The menu rows *)

(** The world after the action of one menu row. *)
Definition select (item : Z) (w : World) : World :=
  final_world (handleItemSelection item w).

(** The row a touch selects, as [handleSettingsTouch] computes it. *)
Definition menuY : Z := Config.Display.HEADER_HEIGHT + Config.Display.MARGIN.
Definition menuHeight (w : World) : Z :=
  display_height w - Config.Display.HEADER_HEIGHT
  - Config.Display.FOOTER_HEIGHT - 2 * Config.Display.MARGIN.
Definition itemHeight (w : World) : Z := Z.quot (menuHeight w) numItems.
Definition inMenu (tx ty : Z) (w : World) : bool :=
  (Config.Display.MARGIN <=? tx)
  && (tx <=? display_width w - Config.Display.MARGIN)
  && (menuY <=? ty) && (ty <=? menuY + menuHeight w).
Definition touchedItem (ty : Z) (w : World) : Z :=
  Z.quot (ty - menuY) (itemHeight w).

(** ** The emissivity band *)

Definition in_band (e : spec_float) : bool :=
  fle EMISSIVITY_MIN e && fle e EMISSIVITY_MAX.




(** Values the modal draws: every [ModalValueDrawn] added to the trace
    satisfies [P]. *)
Definition drawn_with (P : spec_float -> Prop) (old new : list Effect) : Prop :=
  forall v, In (ModalValueDrawn v) new -> In (ModalValueDrawn v) old \/ P v.


(** ** The emissivity modal *)

(** The modal screen as [adjustEmissivity] draws it before it starts to
    adjust. *)
Definition modal_opened (w : World) : World :=
  draw doneBtn Config.Display.COLOR_SECONDARY
    (draw downBtn Config.Display.COLOR_SECONDARY
       (draw upBtn Config.Display.COLOR_SECONDARY (emit ModalScreenDrawn w))).

(** The adjusting loop of the modal, as [adjustEmissivity] enters it. *)
Definition adjusting (w : World) : Result (spec_float * bool) :=
  adjust_loop (pending (modal_opened w)) (emissivity (settings w))
    (clamp_emissivity (emissivity (settings w))) (F32.of_Z (-1)) false
    (modal_opened w).

(** A frame that reports a press inside button [b]. *)
Definition pressed_in (b : Button) (f : Frame) : bool :=
  negb (count (touch f) =? 0) && wasPressed (touch f)
  && contains b (touch_x (touch f)) (touch_y (touch f)).

(** A frame that decides nothing on the confirmation screen: no press
    inside Restart and none inside Cancel. *)
Definition undecided (f : Frame) : bool :=
  negb (pressed_in confirmBtn f) && negb (pressed_in cancelBtn f).

(** ** Settings in step with the store *)

(** What [load] reads back under the emissivity key. *)
Definition stored_emissivity (p : gmap string PrefValue) : spec_float :=
  getFloat p "emissivity" Config.System.DEFAULT_EMISSIVITY.

(** [Settings.emissivity] is what the store would give back. *)
Definition in_step (w : World) : Prop :=
  emissivity (settings w) = stored_emissivity (preferences w).

(** ** Scenario worlds *)

(** A device with the settings menu open. *)
Definition open_menu (w : World) : World :=
  with_state (set_currentScreen SETTINGS (state w))
    (with_settingsMenu (mkSettingsMenu true (selectedItem (settingsMenu w))) w).

(** A device that is monitoring. *)
Definition monitoring (w : World) : World :=
  with_state (set_isMonitoring true (state w)) w.

(** The current frame replaced by [f]. *)
Definition at_frame (f : Frame) (w : World) : World :=
  with_input f (pending w) w.

(** A device whose target is 398 degrees. *)
Definition near_max_world : World :=
  with_settings (set_targetTemp (F32.of_Z 398) default_settings) (boot ∅ []).

(** A device in the settings menu, default settings on an empty store,
    with three presses ahead: [+], Done, and a last one at [(tx, 200)],
    which is Restart for [tx = 50] and Cancel for [tx = 200]. *)
Definition modal_world (tx : Z) : World :=
  open_menu
    (boot ∅ [frame_at 10 (press 250 80) 2500;
             frame_at 20 (press 50 200) 2500;
             frame_at 30 (press tx 200) 2500]).



(** A device with one press on the Settings button ahead of it, then a
    frame without contact. *)
Definition lost_contact_world : World :=
  boot ∅ [frame_at 10 (press 300 220) 2500; frame_at 20 no_touch 2500].

(** A device in the settings menu whose current frame is a press on the
    brightness row. *)
Definition row_press_world : World :=
  at_frame (frame_at 10 (press 100 100) 2500) (open_menu (boot ∅ [])).

(** A fresh device (empty store) on which the operator taps Settings and
    then Back: press and release on the right footer button, twice. *)
Definition back_world : World :=
  boot ∅ [frame_at 10 (press 300 220) 2500;
          frame_at 20 (release 300 220) 2500;
          frame_at 30 (press 300 220) 2500;
          frame_at 40 (release 300 220) 2500].

(** A monitoring device that reads 178 degrees and then 30 degrees below
    zero (raw -3000, rejected by [isValidTemperature] and below the
    [-20, 400] band). *)
Definition cold_world : World :=
  monitoring
    (boot ∅ [frame_at 10 no_touch 17800; frame_at 20 no_touch (-3000)]).

(** Zeroed state, Celsius, target 338, tolerance 5, monitoring on, and
    the samples 330, 332 and 345 degrees ahead. *)
Definition scenario_world : World :=
  monitoring
    (with_settings
       (set_tempTolerance (F32.of_Z 5)
          (set_targetTemp (F32.of_Z 338) default_settings))
       (boot ∅ [frame_at 10 no_touch 33000;
                frame_at 20 no_touch 33200;
                frame_at 30 no_touch 34500])).

(** ** The settings record and the store *)

(** The six keys [Settings::save] writes. *)
Definition setting_keys : list string :=
  ["useCelsius"; "soundEnabled"; "brightness"; "emissivity"; "targetTemp";
   "tolerance"].

(** The store holds the settings: [load] would give them back. *)
Definition persisted (w : World) : Prop := settings (load w) = settings w.

(** What a call did to the settings and the store: nothing, or it left
    them as a [save] leaves them. *)
Definition kept (w w' : World) : Prop :=
  settings w' = settings w /\ preferences w' = preferences w.
Definition saved (w' : World) : Prop :=
  exists w1, settings w' = settings w1 /\ preferences w' = preferences (save w1).

(** ** What the touch half of [loop] leaves alone *)

Definition sensed (w : World) :=
  (currentTemp (state w), lastTempUpdate (state w),
   lastSerialUpdate (state w), lastBatteryCheck (state w),
   lowBatteryWarning (state w), statusMessage (state w),
   statusColor (state w), temperature w, display_width w, display_height w).

(** The cloud property is the Fahrenheit value of the recorded sample. *)
Definition telemetry_in_step (w : World) : Prop :=
  temperature w = fahrenheit (currentTemp (state w)).

(** ** Finite ranges settled by computation *)

#[global] Instance spec_float_eq_dec : EqDecision spec_float.
Proof. solve_decision. Defined.

(** [P] holds at each of the [n] integers from [lo] on. *)
Fixpoint holds_on (P : Z -> bool) (lo : Z) (n : nat) : bool :=
  match n with
  | O => true
  | S n => P lo && holds_on P (lo + 1) n
  end.

(** ** Sensor start-up *)

(** Three valid readings in a row among the first ten. *)
Definition three_in_a_row (g : nat -> spec_float) : Prop :=
  exists i, (i <= 7)%nat
            /\ isValidTemperature (g i) = true
            /\ isValidTemperature (g (S i)) = true
            /\ isValidTemperature (g (S (S i))) = true.

(** An attempt on which the sensor answers and gives three valid readings
    in a row. *)
Definition attempt_succeeds (a : Attempt) : Prop :=
  begin_ok a = true /\ three_in_a_row (getTempValue a).

(** ** Touch *)

(** The recorded input: the current frame and the frames to come. *)
Definition input (w : World) := (frame w, pending w).

(** The screen shown is the settings screen exactly when the menu is
    open. *)
Definition screen_matches (w : World) : Prop :=
  currentScreen (state w)
  = if isOpen (settingsMenu w) then SETTINGS else MAIN.

(** A frame with a finger on the panel. *)
Definition contact (f : Frame) : Prop := count (touch f) <> 0.

(** A fresh device on which the operator taps the footer at column [tx]:
    a press and, on the next pass, a release at the same point. *)
Definition tap_world (tx : Z) : World :=
  boot ∅ [frame_at 10 (press tx 220) 2500; frame_at 20 (release tx 220) 2500].

(** A device in the settings menu on which a finger comes down on the
    brightness row and stays there for two more frames. *)
Definition held_world : World :=
  open_menu
    (boot ∅ [frame_at 10 (press 100 100) 2500;
             frame_at 20 (press 100 100) 2500;
             frame_at 30 (press 100 101) 2500]).

(** ** The status line and the battery *)

(** The verdict of the monitor on a sample: the status line it asks for. *)
Definition verdict (temp : spec_float) (s : Settings) : string * Z :=
  if fgt (fabs (F32.sub temp (targetTemp s))) (tempTolerance s)
  then ("Temperature Out of Range!", Config.Display.COLOR_WARNING)
  else ("Monitoring", Config.Display.COLOR_SUCCESS).

(** The status line. *)
Definition status (w : World) : string * Z :=
  (statusMessage (state w), statusColor (state w)).

(** The battery is low: at most 10 percent and not charging. *)
Definition battery_low (w : World) : bool :=
  (batteryLevel (frame w) <=? 10) && negb (isCharging (frame w)).

(** A device whose store holds a brightness of -200. *)
Definition dim_world : World := boot {["brightness" := PInt (-200)]} [].

(** ** Presses in the emissivity modal *)

(** One press of [+] on the staged value, as the adjusting loop takes it:
    the step, under its guard. *)
Definition press_up (tempEmissivity : spec_float) : spec_float :=
  if flt tempEmissivity EMISSIVITY_MAX then step_up tempEmissivity
  else tempEmissivity.

(** One press of [-]. *)
Definition press_down (tempEmissivity : spec_float) : spec_float :=
  if fgt tempEmissivity EMISSIVITY_MIN then step_down tempEmissivity
  else tempEmissivity.

(** ** Sound *)

(** The tones sounded so far, newest first. *)
Definition is_tone (e : Effect) : bool :=
  match e with Tone _ _ => true | _ => false end.
Definition tones (w : World) : list Effect := List.filter is_tone (trace w).

(** The sound switch is off. *)
Definition muted (w : World) : Prop := soundEnabled (settings w) = false.

(** A monitoring device with the sound switched off in its store, and
    ahead of it a press on the Monitor button together with a sample of
    330 degrees, far from the target. *)
Definition muted_world : World :=
  monitoring
    (boot {["soundEnabled" := PBool false]}
       [frame_at 10 (press 50 220) 33000]).

(** ** The armed button *)

(** The labels of the two footer buttons. *)
Definition footer_label (l : string) : Prop :=
  l = "Monitor" \/ l = "Stop" \/ l = "Settings" \/ l = "Back".

(** What is armed is a footer button, drawn pressed, in a touch that is
    still in progress. *)
Definition armed_ok (w : World) : Prop :=
  match lastPressedButton w with
  | None => True
  | Some b =>
      touchProcessed w = true /\ pressed b = true /\ footer_label (label b)
  end.

(** * Lemmas *)

(** ** Frame lemmas: drawing, sound and polling leave the core alone *)

Lemma core_emit e w : core (emit e w) = core w.
Proof. reflexivity. Qed.

Lemma core_with_input f fs w : core (with_input f fs w) = core w.
Proof. reflexivity. Qed.

Lemma core_playSound b w : core (playSound b w) = core w.
Proof. unfold playSound. destruct (negb _); reflexivity. Qed.

Lemma core_draw b c w : core (draw b c w) = core w.
Proof. unfold draw. destruct (pressed b); reflexivity. Qed.

Lemma core_setPressed b p w : core (snd (setPressed b p w)) = core w.
Proof.
  unfold setPressed. destruct (negb _); [|reflexivity].
  cbn [snd]. rewrite core_draw.
  destruct (_ && _); [apply core_playSound|reflexivity].
Qed.

Lemma core_drawFooter w : core (drawFooter w) = core w.
Proof.
  unfold drawFooter. rewrite core_draw.
  destruct (negb _); [rewrite core_draw|]; reflexivity.
Qed.

Lemma core_drawTemperature w : core (drawTemperature w) = core w.
Proof. unfold drawTemperature. destruct (isOpen _); reflexivity. Qed.

Lemma core_updateDisplay w : core (updateDisplay w) = core w.
Proof.
  unfold updateDisplay, drawHeader, drawSettingsMenu, drawMainDisplay.
  destruct (isOpen _).
  - rewrite core_emit, core_drawFooter. reflexivity.
  - rewrite core_drawTemperature, core_emit, core_drawFooter. reflexivity.
Qed.

Create Rewrite HintDb frame.
#[local] Hint Rewrite core_emit core_with_input core_playSound core_draw
  core_drawFooter core_drawTemperature core_updateDisplay : frame.

(** Projections of [core]. *)
Lemma core_eq w w' :
  core w' = core w ->
  settings w' = settings w /\ state w' = state w
  /\ settingsMenu w' = settingsMenu w /\ preferences w' = preferences w
  /\ lastPressedButton w' = lastPressedButton w
  /\ touchProcessed w' = touchProcessed w
  /\ display_width w' = display_width w
  /\ display_height w' = display_height w.
Proof. unfold core. intros H. injection H as -> -> -> -> -> -> _ -> ->. tauto. Qed.

Lemma shell_core w w' : core w' = core w -> shell w' = shell w.
Proof.
  intros H. unfold shell.
  apply core_eq in H as (_ & -> & -> & _ & -> & -> & -> & ->).
  reflexivity.
Qed.

Lemma shell_eq w w' :
  shell w' = shell w ->
  state w' = state w /\ settingsMenu w' = settingsMenu w
  /\ lastPressedButton w' = lastPressedButton w
  /\ touchProcessed w' = touchProcessed w
  /\ display_width w' = display_width w
  /\ display_height w' = display_height w.
Proof. unfold shell. intros H. injection H as -> -> -> -> -> ->. tauto. Qed.

(** ** The modal loops *)

(** The adjusting loop never writes to the core: the staged value lives in
    its locals. *)
Lemma adjust_loop_core frames : forall orig t l c w,
  core (final_world (adjust_loop frames orig t l c w)) = core w.
Proof.
  induction frames as [|f frames IH]; intros orig t l c w; cbn [adjust_loop].
  - destruct (fne t l); reflexivity.
  - assert (Hw : core (if fne t l then emit (ModalValueDrawn t) w else w) = core w)
      by (destruct (fne t l); reflexivity).
    set (w0 := if fne t l then emit (ModalValueDrawn t) w else w) in *.
    repeat case_match; rewrite ?IH; cbn [final_world];
      autorewrite with frame; exact Hw.
Qed.

(** The confirmation loop leaves the core alone unless it restarts. *)
Lemma confirm_loop_core frames : forall t w,
  match confirm_loop frames t w with
  | Restarted w' =>
      settings w' = set_emissivity t (settings w)
      /\ preferences w'
         = preferences (save (with_settings (set_emissivity t (settings w)) w))
      /\ shell w' = shell w
  | r => core (final_world r) = core w
  end.
Proof.
  induction frames as [|f frames IH]; intros t w; cbn [confirm_loop].
  - reflexivity.
  - pose proof (IH t (with_input f frames w)) as IHw.
    destruct (negb (count (touch f) =? 0) && wasPressed (touch f)).
    + destruct (contains confirmBtn _ _).
      * unfold playSound. destruct (negb _); cbn; auto.
      * destruct (contains cancelBtn _ _).
        -- cbn [final_world]. rewrite core_playSound. reflexivity.
        -- exact IHw.
    + exact IHw.
Qed.

(** [adjustEmissivity] as a whole: it never faults; unless it restarts the
    core is as on entry; when it restarts, the value written to
    [Settings.emissivity] and saved is one the adjusting loop returned
    with [valueChanged] set. *)
Lemma adjustEmissivity_cases w :
  match adjustEmissivity w with
  | Returned _ w' => core w' = core w
  | Starved w' => core w' = core w
  | Restarted w' =>
      exists frames w0 staged w1,
        core w0 = core w
        /\ adjust_loop frames (emissivity (settings w))
             (clamp_emissivity (emissivity (settings w))) (F32.of_Z (-1))
             false w0 = Returned (staged, true) w1
        /\ settings w' = set_emissivity staged (settings w)
        /\ preferences w'
           = preferences
               (save (with_settings (set_emissivity staged (settings w)) w))
        /\ shell w' = shell w
  | Fault _ => False
  end.
Proof.
  unfold adjustEmissivity.
  set (w0 := draw doneBtn _ (draw downBtn _ (draw upBtn _ (emit _ w)))).
  assert (Hw0 : core w0 = core w)
    by (unfold w0; autorewrite with frame; reflexivity).
  pose proof (adjust_loop_core (pending w0) (emissivity (settings w))
                (clamp_emissivity (emissivity (settings w)))
                (F32.of_Z (-1)) false w0) as Hl.
  assert (Hnf : forall frames orig t l c w1 wf,
             adjust_loop frames orig t l c w1 <> Fault wf
             /\ adjust_loop frames orig t l c w1 <> Restarted wf).
  { clear. induction frames as [|f frames IH]; intros; cbn [adjust_loop].
    - split; discriminate.
    - repeat case_match; try apply IH; split; discriminate. }
  destruct (adjust_loop _ _ _ _ _ _) as [[staged changed] w1|w1|w1|w1] eqn:E;
    cbn [bind final_world] in *.
  - cbn [fst snd]. destruct changed.
    + set (w2 := draw cancelBtn _ (draw confirmBtn _ (emit _ w1))).
      assert (Hw2 : core w2 = core w)
        by (unfold w2; autorewrite with frame; rewrite Hl; exact Hw0).
      pose proof (confirm_loop_core (pending w2) staged w2) as Hc.
      assert (Hcf : forall frames t wc wf, confirm_loop frames t wc <> Fault wf).
      { clear. induction frames as [|f frames IH]; intros; cbn [confirm_loop].
        - discriminate.
        - repeat case_match; try apply IH; discriminate. }
      destruct (confirm_loop _ _ _) as [[] w3|w3|w3|w3] eqn:E2;
        cbn [bind final_world] in *.
      * rewrite core_updateDisplay, core_drawTemperature.
        unfold drawMainDisplay. rewrite core_emit, Hc. exact Hw2.
      * pose proof (shell_core _ _ Hw2) as Hsh.
        apply core_eq in Hw2 as (Hs & _).
        exists (pending w0), w0, staged, w1.
        destruct Hc as (-> & -> & ->).
        rewrite Hs. repeat split; try assumption.
        pose proof (core_eq _ _ Hl) as (_ & _ & _ & Hp1 & _).
        pose proof (core_eq _ _ Hw0) as (_ & _ & _ & Hp0 & _).
        unfold save, with_settings. cbn. rewrite Hp1, Hp0. reflexivity.
      * rewrite Hc. exact Hw2.
      * exact (Hcf _ _ _ _ E2).
    + cbn [bind]. rewrite core_updateDisplay, core_drawTemperature.
      unfold drawMainDisplay. rewrite core_emit, Hl. exact Hw0.
  - destruct (proj2 (Hnf _ _ _ _ _ _ _) E).
  - rewrite Hl. exact Hw0.
  - exact (proj1 (Hnf _ _ _ _ _ _ _) E).
Qed.

(** ** The settings menu *)

Lemma controls_shell w w' : shell w' = shell w -> controls w' = controls w.
Proof.
  intros H. apply shell_eq in H as (Hs & Hm & _).
  unfold controls. rewrite Hs, Hm. reflexivity.
Qed.

Lemma shell_playSound b w : shell (playSound b w) = shell w.
Proof. apply shell_core, core_playSound. Qed.

Lemma handleItemSelection_default item w :
  item < 0 \/ 5 < item -> handleItemSelection item w = Returned tt w.
Proof.
  intros H. destruct item as [|p|p]; [lia| |reflexivity].
  repeat (destruct p as [p|p|]; try reflexivity; try lia).
Qed.

(** An item action changes nothing but the settings (and, through a
    restart of the modal, the store), and never faults. *)
Lemma handleItemSelection_frame item w :
  shell (select item w) = shell w
  /\ (forall wf, handleItemSelection item w <> Fault wf).
Proof.
  unfold select.
  destruct (Z_lt_le_dec item 0) as [Hlo|Hlo];
    [rewrite handleItemSelection_default by lia; split; [reflexivity|discriminate]|].
  destruct (Z_lt_le_dec 5 item) as [Hhi|Hhi];
    [rewrite handleItemSelection_default by lia; split; [reflexivity|discriminate]|].
  assert (Hi : item = 0 \/ item = 1 \/ item = 2 \/ item = 3 \/ item = 4
               \/ item = 5) by lia.
  destruct Hi as [->|[->|[->|[->|[->| ->]]]]]; cbn [handleItemSelection].
  - split; [reflexivity|discriminate].
  - split; [|discriminate]. cbn [final_world].
    destruct (soundEnabled _); [rewrite shell_playSound|]; reflexivity.
  - split; [reflexivity|discriminate].
  - pose proof (adjustEmissivity_cases w) as H.
    destruct (adjustEmissivity w) as [[] w'|w'|w'|w']; cbn [final_world].
    + split; [apply shell_core, H|discriminate].
    + destruct H as (_ & _ & _ & _ & _ & _ & _ & _ & H).
      split; [exact H|discriminate].
    + split; [apply shell_core, H|discriminate].
    + destruct H.
  - split; [reflexivity|discriminate].
  - split; [reflexivity|discriminate].
Qed.

(** What [handleSettingsTouch] does after a row's action: save, beep,
    redraw. *)
Lemma after_item_frame w :
  let w' := drawSettingsMenu
              (emit ContentCleared
                 (if soundEnabled (settings (save w))
                  then playSound true (save w) else save w)) in
  shell w' = shell w /\ settings w' = settings w
  /\ preferences w' = preferences (save w).
Proof.
  cbn zeta. unfold drawSettingsMenu.
  destruct (soundEnabled _); [|repeat split].
  unfold playSound. destruct (negb _); repeat split.
Qed.

(** Above the footer line, [handleSettingsTouch] never reaches its "back
    button" branch: the menu stays open and nothing but the selected row,
    the settings and the store can change. *)
Lemma handleSettingsTouch_above_footer tx ty w :
  ty <= display_height w - Config.Display.FOOTER_HEIGHT ->
  let w' := final_world (handleSettingsTouch tx ty w) in
  state w' = state w
  /\ isOpen (settingsMenu w') = isOpen (settingsMenu w)
  /\ lastPressedButton w' = lastPressedButton w
  /\ touchProcessed w' = touchProcessed w.
Proof.
  intros Hy. cbn zeta. unfold handleSettingsTouch.
  fold menuY. fold (menuHeight w). fold (itemHeight w). fold (inMenu tx ty w).
  fold (touchedItem ty w).
  assert (Hnb : forall w1 : World, display_height w1 = display_height w ->
            (display_height w1 - Config.Display.FOOTER_HEIGHT <? ty) = false)
    by (intros w1 ->; apply Z.ltb_ge; exact Hy).
  destruct (inMenu tx ty w); cbn [bind].
  - destruct (itemHeight w =? 0); [cbn; tauto|].
    destruct ((0 <=? touchedItem ty w) && (touchedItem ty w <? numItems));
      cbn [bind].
    + set (w1 := with_settingsMenu _ w).
      destruct (handleItemSelection_frame (touchedItem ty w) w1) as (Hsh & Hf).
      unfold select in Hsh.
      destruct (handleItemSelection _ w1) as [[] w2|w2|w2|w2];
        cbn [bind final_world] in *.
      * destruct (after_item_frame w2) as (Hsh2 & _). cbn zeta in Hsh2.
        rewrite Hsh in Hsh2.
        apply shell_eq in Hsh2 as (Hs & Hm & Hl & Ht & _ & Hh).
        rewrite Hnb by exact Hh. cbn [final_world].
        rewrite Hs, Hm, Hl, Ht. repeat split.
      * apply shell_eq in Hsh as (Hs & Hm & Hl & Ht & _).
        rewrite Hs, Hm, Hl, Ht. repeat split.
      * apply shell_eq in Hsh as (Hs & Hm & Hl & Ht & _).
        rewrite Hs, Hm, Hl, Ht. repeat split.
      * destruct (Hf w2 eq_refl).
    + rewrite Hnb by reflexivity. cbn; tauto.
  - rewrite Hnb by reflexivity. cbn; tauto.
Qed.

(** On a row other than the emissivity row, [handleSettingsTouch] returns,
    and the settings it leaves are those of the row's action, saved. *)
Lemma handleSettingsTouch_applies tx ty w :
  ty <= display_height w - Config.Display.FOOTER_HEIGHT ->
  inMenu tx ty w = true ->
  itemHeight w <> 0 ->
  0 <= touchedItem ty w < numItems ->
  touchedItem ty w <> 3 ->
  exists w',
    handleSettingsTouch tx ty w = Returned tt w'
    /\ settings w' = settings (select (touchedItem ty w) w)
    /\ preferences w' = preferences (save (select (touchedItem ty w) w)).
Proof.
  intros Hy Hin Hih Hit H3. unfold handleSettingsTouch.
  fold menuY. fold (menuHeight w). fold (itemHeight w). fold (inMenu tx ty w).
  fold (touchedItem ty w).
  rewrite Hin. cbn [bind].
  destruct (Z.eqb_spec (itemHeight w) 0) as [|_]; [contradiction|].
  replace ((0 <=? touchedItem ty w) && (touchedItem ty w <? numItems))
    with true by (symmetry; apply andb_true_iff; split;
                  [apply Z.leb_le|apply Z.ltb_lt]; lia).
  cbn [bind]. set (w1 := with_settingsMenu _ w).
  assert (Hsel : exists w2, handleItemSelection (touchedItem ty w) w1 = Returned tt w2
                   /\ settings w2 = settings (select (touchedItem ty w) w)
                   /\ preferences w2 = preferences (select (touchedItem ty w) w)
                   /\ display_height w2 = display_height w).
  { unfold select, numItems in *.
    assert (Hi : touchedItem ty w = 0 \/ touchedItem ty w = 1
                 \/ touchedItem ty w = 2 \/ touchedItem ty w = 4
                 \/ touchedItem ty w = 5) by lia.
    destruct Hi as [->|[->|[->|[->| ->]]]]; cbn [handleItemSelection];
      eexists; (split; [reflexivity|]); cbn [final_world];
      try (repeat split; reflexivity).
    cbn [with_settings settings soundEnabled set_soundEnabled w1
           with_settingsMenu].
    destruct (negb (soundEnabled (settings w))); [|repeat split].
    unfold playSound. cbn. repeat split. }
  destruct Hsel as (w2 & -> & Hs & Hp & Hh). cbn [bind].
  destruct (after_item_frame w2) as (Hsh & Hs2 & Hp2). cbn zeta in *.
  apply shell_eq in Hsh as (_ & _ & _ & _ & _ & Hh2).
  replace (_ <? ty) with false
    by (symmetry; apply Z.ltb_ge; rewrite Hh2, Hh; exact Hy).
  eexists. split; [reflexivity|]. rewrite Hs2, Hp2, Hs.
  split; [reflexivity|]. unfold save. cbn. rewrite Hs, Hp. reflexivity.
Qed.

(** ** The touch dispatcher *)

(** With no contact, [handleTouch] returns with nothing armed. *)
Lemma handleTouch_no_contact w :
  count (touch (frame w)) = 0 ->
  exists w',
    handleTouch w = Returned tt w'
    /\ lastPressedButton w' = None /\ touchProcessed w' = false
    /\ settings w' = settings w /\ state w' = state w
    /\ settingsMenu w' = settingsMenu w /\ preferences w' = preferences w.
Proof.
  intros H0. unfold handleTouch. rewrite H0. cbn [Z.eqb negb].
  cbn [lastPressedButton with_touchProcessed].
  destruct (lastPressedButton w) as [lp|] eqn:El.
  - destruct (setPressed lp false _) as [b w1] eqn:E.
    pose proof (core_setPressed lp false (with_touchProcessed false w)) as Hc.
    rewrite E in Hc. cbn [snd] in Hc.
    apply core_eq in Hc as (Hs & Hst & Hm & Hp & _ & Ht & _).
    eexists. split; [reflexivity|]. cbn. rewrite Hs, Hst, Hm, Hp, Ht.
    repeat split.
  - eexists. split; [reflexivity|]. cbn. rewrite El. repeat split.
Qed.

(** The monitoring flag and the screen change only where a release is
    processed inside the armed button. *)
Lemma handleTouch_controls w :
  controls (final_world (handleTouch w)) <> controls w ->
  wasPressed (touch (frame w)) && negb (touchProcessed w) = false
  /\ wasReleased (touch (frame w)) = true
  /\ exists lp,
       lastPressedButton w = Some lp
       /\ contains lp (touch_x (touch (frame w))) (touch_y (touch (frame w)))
          = true.
Proof.
  intros H.
  destruct (Z.eq_dec (count (touch (frame w))) 0) as [H0|H0].
  { destruct (handleTouch_no_contact w H0) as (w' & E & _ & _ & _ & Hs & Hm & _).
    rewrite E in H. cbn [final_world] in H. exfalso. apply H.
    unfold controls. rewrite Hs, Hm. reflexivity. }
  revert H. unfold handleTouch.
  destruct (Z.eqb_spec (count (touch (frame w))) 0) as [|_]; [contradiction|].
  cbn [negb].
  destruct (wasPressed (touch (frame w)) && negb (touchProcessed w)) eqn:Ep.
  - (* a press: arms a footer button or goes to the menu *)
    intros H. exfalso. apply H. clear H.
    set (w1 := with_touchProcessed true w).
    destruct (footerY w1 <=? touch_y (touch (frame w))) eqn:Ef.
    + destruct (negb (isOpen (settingsMenu w1)) && _ && _).
      * destruct (setPressed (monitorBtn w1) true w1) as [b w2] eqn:E.
        pose proof (core_setPressed (monitorBtn w1) true w1) as Hc.
        rewrite E in Hc. cbn [snd] in Hc.
        cbn [final_world]. apply shell_core, controls_shell in Hc. exact Hc.
      * destruct ((display_width w1 - _ - _ <=? _) && _).
        -- destruct (setPressed (settingsBtn w1) true w1) as [b w2] eqn:E.
           pose proof (core_setPressed (settingsBtn w1) true w1) as Hc.
           rewrite E in Hc. cbn [snd] in Hc.
           cbn [final_world]. apply shell_core, controls_shell in Hc. exact Hc.
        -- reflexivity.
    + destruct (isOpen (settingsMenu w1)); [|reflexivity].
      apply Z.leb_gt in Ef. unfold footerY in Ef.
      destruct (handleSettingsTouch_above_footer
                  (touch_x (touch (frame w))) (touch_y (touch (frame w))) w1)
        as (Hs & Hm & _); [lia|].
      unfold controls. rewrite Hs, Hm. reflexivity.
  - destruct (lastPressedButton w) as [lp|]; [|intros H; destruct (H eq_refl)].
    destruct (wasReleased (touch (frame w)) && touchProcessed w) eqn:Er;
      [|intros H; destruct (H eq_refl)].
    apply andb_true_iff in Er as [Er _].
    destruct (contains lp _ _) eqn:Ec.
    + intros _. split; [reflexivity|]. split; [exact Er|].
      exists lp. split; [reflexivity|exact Ec].
    + intros H. exfalso. apply H. clear H.
      set (w1 := with_touchProcessed false w).
      destruct (setPressed lp false w1) as [b w2] eqn:E.
      pose proof (core_setPressed lp false w1) as Hc.
      rewrite E in Hc. cbn [snd] in Hc. cbn [final_world].
      rewrite (controls_shell _ _ (shell_core _ _ (core_updateDisplay _))).
      apply shell_core, controls_shell in Hc. exact Hc.
Qed.

(** A frame that is not a fresh press leaves the settings and the store
    as they are: the release branch of [handleTouch] does not save. *)
Lemma handleTouch_not_press w :
  wasPressed (touch (frame w)) && negb (touchProcessed w) = false ->
  exists w',
    handleTouch w = Returned tt w'
    /\ settings w' = settings w /\ preferences w' = preferences w.
Proof.
  intros Ep.
  destruct (Z.eq_dec (count (touch (frame w))) 0) as [H0|H0].
  { destruct (handleTouch_no_contact w H0) as (w' & E & _ & _ & Hs & _ & _ & Hp).
    eauto. }
  unfold handleTouch.
  destruct (Z.eqb_spec (count (touch (frame w))) 0) as [|_]; [contradiction|].
  cbn [negb]. rewrite Ep.
  destruct (lastPressedButton w) as [lp|]; [|eauto].
  destruct (wasReleased (touch (frame w)) && touchProcessed w); [|eauto].
  set (w1 := if contains lp _ _ then _ else _).
  assert (H1 : settings w1 = settings w /\ preferences w1 = preferences w).
  { unfold w1. repeat case_match; split; reflexivity. }
  destruct (setPressed lp false w1) as [b w2] eqn:E.
  pose proof (core_setPressed lp false w1) as Hc.
  rewrite E in Hc. cbn [snd] in Hc.
  eexists. split; [reflexivity|].
  pose proof (core_updateDisplay (with_lastPressedButton None w2)) as Hu.
  apply core_eq in Hu as (-> & _ & _ & -> & _).
  apply core_eq in Hc as (Hs & _ & _ & Hp & _). cbn.
  rewrite Hs, Hp. exact H1.
Qed.

(** ** The rest of [loop] *)

Lemma fixed_core w w' : core w' = core w -> fixed w' = fixed w.
Proof.
  intros H. unfold fixed.
  apply core_eq in H as (-> & -> & -> & -> & -> & -> & _). reflexivity.
Qed.

Lemma fixed_updateStatus m c w : fixed (updateStatus m c w) = fixed w.
Proof. unfold updateStatus. destruct (_ || _); reflexivity. Qed.

Lemma fixed_serial_update ms temp w : fixed (serial_update ms temp w) = fixed w.
Proof. unfold serial_update. destruct (_ <=? _); reflexivity. Qed.

Lemma fixed_ingest ms temp w : fixed (ingest ms temp w) = fixed w.
Proof.
  unfold ingest. destruct (significant _ _); [|reflexivity].
  set (w1 := with_state _ (with_state _ w)).
  assert (H1 : fixed w1 = fixed w) by reflexivity.
  set (w2 := if isMonitoring (state w1) then _ else w1).
  assert (H2 : fixed w2 = fixed w).
  { unfold w2. destruct (isMonitoring (state w1)); [|exact H1].
    destruct (fgt _ _).
    - destruct (soundEnabled _).
      + rewrite (fixed_core _ _ (core_playSound _ _)), fixed_updateStatus.
        exact H1.
      + rewrite fixed_updateStatus. exact H1.
    - rewrite fixed_updateStatus. exact H1. }
  destruct (negb _).
  - rewrite (fixed_core _ _ (core_drawTemperature _)). exact H2.
  - exact H2.
Qed.

Lemma fixed_battery_update ms w : fixed (battery_update ms w) = fixed w.
Proof.
  unfold battery_update, checkBattery. destruct (_ <=? _); [|reflexivity].
  destruct (_ && _); [|reflexivity].
  destruct (negb _); [|reflexivity].
  change (fixed (updateStatus "Low Battery!" Config.Display.COLOR_WARNING w)
          = fixed w).
  apply fixed_updateStatus.
Qed.

Lemma fixed_sensor_half ms temp w :
  fixed (battery_update ms (ingest ms temp (serial_update ms temp w)))
  = fixed w.
Proof.
  rewrite fixed_battery_update, fixed_ingest. apply fixed_serial_update.
Qed.

Lemma fixed_eq w w' :
  fixed w' = fixed w ->
  settings w' = settings w /\ preferences w' = preferences w
  /\ lastPressedButton w' = lastPressedButton w
  /\ touchProcessed w' = touchProcessed w
  /\ controls w' = controls w.
Proof.
  unfold fixed, controls. intros H.
  injection H as -> -> -> -> -> -> ->. tauto.
Qed.

(** ** Order on floating-point values *)

Lemma SFcompare_antisym x y :
  SFcompare y x = option_map CompOpp (SFcompare x y).
Proof.
  destruct x as [sx|sx| |sx mx ex], y as [sy|sy| |sy my ey]; cbn;
    try reflexivity;
    try (destruct sx; reflexivity); try (destruct sy; reflexivity);
    try (destruct sx, sy; reflexivity).
  change (Pos.compare_cont Eq my mx) with (Pos.compare my mx).
  change (Pos.compare_cont Eq mx my) with (Pos.compare mx my).
  rewrite (Z.compare_antisym ex ey), (Pos.compare_antisym mx my).
  destruct sx, sy; try reflexivity;
    destruct (ex ?= ey); cbn; try reflexivity;
    destruct (mx ?= my)%positive; reflexivity.
Qed.

Lemma fgt_flt x y : fgt x y = flt y x.
Proof. reflexivity. Qed.

Lemma flt_not_fge x y : flt x y = true -> fge x y = false.
Proof.
  unfold flt, fge, SFltb, SFleb. rewrite (SFcompare_antisym x y).
  destruct (SFcompare x y) as [[]|]; cbn; congruence.
Qed.



(** ** Binary32 arithmetic on the two scales the menu adjusts *)

(** The number of binary digits of a positive, by its bounds. *)
Lemma digits2_pos_bounds p :
  2 ^ (Zpos (digits2_pos p) - 1) <= Zpos p < 2 ^ Zpos (digits2_pos p).
Proof.
  induction p as [p IH|p IH|]; cbn [digits2_pos].
  - rewrite Pos2Z.inj_succ.
    replace (Z.succ (Zpos (digits2_pos p)) - 1)
      with (Z.succ (Zpos (digits2_pos p) - 1)) by lia.
    rewrite !Z.pow_succ_r by lia. lia.
  - rewrite Pos2Z.inj_succ.
    replace (Z.succ (Zpos (digits2_pos p)) - 1)
      with (Z.succ (Zpos (digits2_pos p) - 1)) by lia.
    rewrite !Z.pow_succ_r by lia. lia.
  - cbn. lia.
Qed.

Lemma digits2_pos_eq p (n : positive) :
  2 ^ (Zpos n - 1) <= Zpos p < 2 ^ Zpos n -> digits2_pos p = n.
Proof.
  intros [Hlo Hhi]. pose proof (digits2_pos_bounds p) as [Dlo Dhi].
  destruct (Z.lt_trichotomy (Zpos (digits2_pos p)) (Zpos n)) as [H|[H|H]].
  - assert (2 ^ Zpos (digits2_pos p) <= 2 ^ (Zpos n - 1))
      by (apply Z.pow_le_mono_r; lia). lia.
  - congruence.
  - assert (2 ^ Zpos n <= 2 ^ (Zpos (digits2_pos p) - 1))
      by (apply Z.pow_le_mono_r; lia). lia.
Qed.

Lemma digits24 p : 8388608 <= Zpos p < 16777216 -> digits2_pos p = 24%positive.
Proof. intros H. apply digits2_pos_eq. exact H. Qed.

(** Comparison of two positive finite values. *)
Lemma fle_finite m1 e1 m2 e2 :
  fle (S754_finite false m1 e1) (S754_finite false m2 e2) = true
  <-> e1 < e2 \/ (e1 = e2 /\ Zpos m1 <= Zpos m2).
Proof.
  unfold fle, SFleb, SFcompare.
  change (Pos.compare_cont Eq m1 m2) with (Pos.compare m1 m2).
  destruct (Z.compare_spec e1 e2);
    [destruct (Pos.compare_spec m1 m2)| |];
    split; intros; try reflexivity; try discriminate; lia.
Qed.

Lemma flt_finite m1 e1 m2 e2 :
  flt (S754_finite false m1 e1) (S754_finite false m2 e2) = true
  <-> e1 < e2 \/ (e1 = e2 /\ Zpos m1 < Zpos m2).
Proof.
  unfold flt, SFltb, SFcompare.
  change (Pos.compare_cont Eq m1 m2) with (Pos.compare m1 m2).
  destruct (Z.compare_spec e1 e2);
    [destruct (Pos.compare_spec m1 m2)| |];
    split; intros; try reflexivity; try discriminate; lia.
Qed.

(** A valid binary32 value with 24 significant bits in reach. *)
Lemma valid_finite m e :
  F32.valid (S754_finite false m e) = true -> -149 < e ->
  8388608 <= Zpos m < 16777216.
Proof.
  unfold F32.valid, valid_binary, bounded, canonical_mantissa, fexp, emin,
    F32.prec, F32.emax.
  intros H He. apply andb_true_iff in H as [H _]. apply Z.eqb_eq in H.
  assert (Hd : Zpos (digits2_pos m) = 24) by lia.
  pose proof (digits2_pos_bounds m) as Hb. rewrite Hd in Hb.
  exact Hb.
Qed.

(** The constants, evaluated. *)
Lemma EMISSIVITY_MIN_eq : EMISSIVITY_MIN = S754_finite false 10905190 (-24).
Proof. vm_compute. reflexivity. Qed.
Lemma EMISSIVITY_MAX_eq : EMISSIVITY_MAX = S754_finite false 8388608 (-23).
Proof. vm_compute. reflexivity. Qed.
Lemma EMISSIVITY_STEP_eq : EMISSIVITY_STEP = S754_finite false 10737418 (-30).
Proof. vm_compute. reflexivity. Qed.
Lemma MAX_TEMP_C_eq :
  Config.Temperature.MAX_TEMP_C = S754_finite false 13107200 (-15).
Proof. vm_compute. reflexivity. Qed.
Lemma MIN_TEMP_C_eq :
  Config.Temperature.MIN_TEMP_C = S754_finite true 10485760 (-19).
Proof. vm_compute. reflexivity. Qed.

(** Values in the half-open band [[EMISSIVITY_MIN, EMISSIVITY_MAX)] lie in
    one binade. *)
Lemma below_max_shape t :
  F32.valid t = true ->
  fle EMISSIVITY_MIN t = true -> flt t EMISSIVITY_MAX = true ->
  exists m, t = S754_finite false m (-24)
            /\ 10905190 <= Zpos m < 16777216.
Proof.
  rewrite EMISSIVITY_MIN_eq, EMISSIVITY_MAX_eq. intros Hv Hlo Hhi.
  destruct t as [s|s| |s m e]; try discriminate;
    try (destruct s; discriminate).
  destruct s; [discriminate|].
  apply fle_finite in Hlo. apply flt_finite in Hhi.
  pose proof (valid_finite m e Hv ltac:(lia)) as Hm.
  exists m. assert (e = -24) as -> by lia. split; [reflexivity|lia].
Qed.

(** Values in [(EMISSIVITY_MIN, EMISSIVITY_MAX]]: the top of the band, or
    the same binade. *)
Lemma above_min_shape t :
  F32.valid t = true ->
  fgt t EMISSIVITY_MIN = true -> fle t EMISSIVITY_MAX = true ->
  t = EMISSIVITY_MAX
  \/ exists m, t = S754_finite false m (-24)
               /\ 10905190 < Zpos m < 16777216.
Proof.
  rewrite EMISSIVITY_MIN_eq, EMISSIVITY_MAX_eq. unfold fgt. intros Hv Hlo Hhi.
  destruct t as [s|s| |s m e]; try discriminate;
    try (destruct s; discriminate).
  destruct s; [discriminate|].
  apply (flt_finite 10905190 (-24) m e) in Hlo. apply fle_finite in Hhi.
  pose proof (valid_finite m e Hv ltac:(lia)) as Hm.
  destruct (Z.eq_dec e (-23)) as [->|He].
  - left. f_equal. lia.
  - right. exists m. assert (e = -24) as -> by lia. split; [reflexivity|lia].
Qed.

(** Rounding a positive mantissa that carries [n] bits too many: shift
    them out, round to nearest even on what fell off. *)
Lemma binary_round_shift (mx : positive) (ex : Z) (n : positive)
    (mrs : shr_record) (m' : positive) :
  Zpos (digits2_pos mx) = 24 + Zpos n ->
  -149 <= ex + Zpos n <= 104 ->
  SpecFloat.iter_pos shr_1 n (Build_shr_record (Zpos mx) false false) = mrs ->
  round_nearest_even (shr_m mrs) (loc_of_shr_record mrs) = Zpos m' ->
  digits2_pos m' = 24%positive ->
  binary_round 24 128 false mx ex = S754_finite false m' (ex + Zpos n).
Proof.
  intros Hd He Hs Hr Hd'.
  unfold binary_round, shl_align.
  assert (Hf : fexp 24 128 (Zpos (digits2_pos mx) + ex) = ex + Zpos n)
    by (unfold fexp, emin; lia).
  rewrite Hf.
  replace (ex + Zpos n - ex) with (Zpos n) by lia.
  unfold binary_round_aux, shr_fexp, Zdigits2. rewrite Hf.
  replace (ex + Zpos n - ex) with (Zpos n) by lia.
  unfold shr at 1. cbv beta iota.
  change (shr_record_of_loc (Zpos mx) loc_Exact)
    with (Build_shr_record (Zpos mx) false false).
  rewrite Hs, Hr, Hd'.
  replace (fexp 24 128 (24 + (ex + Zpos n)) - (ex + Zpos n)) with 0
    by (unfold fexp, emin; lia).
  unfold shr, shr_record_of_loc. cbv beta iota. unfold shr_m.
  replace (ex + Zpos n <=? 128 - 24) with true
    by (symmetry; apply Z.leb_le; lia).
  reflexivity.
Qed.

(** The side conditions of [binary_round_shift] for a mantissa [k] of 24
    bits followed by [n] known bits that leave the record [mrs]. *)
Ltac shift_out ex n mrs k :=
  apply (binary_round_shift _ ex n mrs);
  [ cbn [digits2_pos]; rewrite (digits24 k) by lia; reflexivity
  | lia
  | reflexivity
  | reflexivity
  | apply digits24; lia ].

(** One step up inside the binade is exact to the last place. *)
Lemma add_step_low m :
  8388608 <= Zpos m -> Zpos m + 167772 < 16777216 ->
  F32.add (S754_finite false m (-24)) EMISSIVITY_STEP
  = S754_finite false (m + 167772) (-24).
Proof.
  intros Hlo Hhi. rewrite EMISSIVITY_STEP_eq.
  change (F32.add (S754_finite false m (-24))
            (S754_finite false 10737418 (-30)))
    with (binary_round 24 128 false (m~0~0~0~0~0~0 + 10737418) (-30)).
  replace (m~0~0~0~0~0~0 + 10737418)%positive
    with ((m + 167772)~0~0~1~0~1~0)%positive by lia.
  shift_out (-30) 6%positive
    (Build_shr_record (Zpos (m + 167772)) false true) (m + 167772)%positive.
Qed.

(** A step up that crosses into the next binade lands at or above
    [EMISSIVITY_MAX]. *)
Lemma add_step_high m :
  Zpos m < 16777216 -> 16777216 <= Zpos m + 167772 ->
  exists k, F32.add (S754_finite false m (-24)) EMISSIVITY_STEP
            = S754_finite false k (-23)
            /\ 8388608 <= Zpos k < 16777216.
Proof.
  intros Hhi Hlo. rewrite EMISSIVITY_STEP_eq.
  change (F32.add (S754_finite false m (-24))
            (S754_finite false 10737418 (-30)))
    with (binary_round 24 128 false (m~0~0~0~0~0~0 + 10737418) (-30)).
  replace (m~0~0~0~0~0~0 + 10737418)%positive
    with ((m + 167772)~0~0~1~0~1~0)%positive by lia.
  destruct (m + 167772)%positive as [q|q|] eqn:E; [| |exfalso; lia].
  - exists (q + 1)%positive. split; [|lia].
    shift_out (-30) 7%positive (Build_shr_record (Zpos q) true true) q.
  - exists q. split; [|lia].
    shift_out (-30) 7%positive (Build_shr_record (Zpos q) false true) q.
Qed.

(** One step down inside the binade. *)
Lemma sub_step m :
  10905190 < Zpos m < 16777216 ->
  exists k, F32.sub (S754_finite false m (-24)) EMISSIVITY_STEP
            = S754_finite false k (-24)
            /\ Zpos k = Zpos m - 167772.
Proof.
  intros Hm. rewrite EMISSIVITY_STEP_eq.
  change (F32.sub (S754_finite false m (-24))
            (S754_finite false 10737418 (-30)))
    with (binary_normalize 24 128
            (Zpos m~0~0~0~0~0~0 - Zpos 10737418) (-30) false).
  replace (Zpos m~0~0~0~0~0~0 - Zpos 10737418)
    with (Zpos (m - 167773)~1~1~0~1~1~0) by lia.
  exists (m - 167773 + 1)%positive. split; [|lia].
  shift_out (-30) 6%positive
    (Build_shr_record (Zpos (m - 167773)) true true) (m - 167773)%positive.
Qed.


(** ** The staged emissivity stays in its band *)









Lemma clamp_nan : clamp_emissivity S754_nan = S754_nan.
Proof. reflexivity. Qed.




Lemma drawn_with_weaken (P Q : spec_float -> Prop) a b :
  (forall v, P v -> Q v) -> drawn_with P a b -> drawn_with Q a b.
Proof.
  intros HPQ H v Hv. destruct (H v Hv) as [H1|H1]; [left|right; apply HPQ];
    exact H1.
Qed.








Lemma save_emissivity w :
  preferences (save w) !! "emissivity" = Some (PFloat (emissivity (settings w))).
Proof. unfold save. cbn. by simplify_map_eq. Qed.











(** The emissivity row of the menu: the modal runs, then the record is
    saved as the modal left it. *)
Lemma handleSettingsTouch_emissivity tx ty w :
  ty <= display_height w - Config.Display.FOOTER_HEIGHT ->
  inMenu tx ty w = true ->
  itemHeight w <> 0 ->
  touchedItem ty w = 3 ->
  match handleSettingsTouch tx ty w with
  | Returned _ w' =>
      settings w' = settings w /\ preferences w' = preferences (save w)
  | Starved w' => settings w' = settings w /\ preferences w' = preferences w
  | Restarted w' =>
      exists w1, adjustEmissivity w1 = Restarted w'
                 /\ settings w1 = settings w
  | Fault _ => False
  end.
Proof.
  intros Hy Hin Hih H3. unfold handleSettingsTouch.
  fold menuY. fold (menuHeight w). fold (itemHeight w). fold (inMenu tx ty w).
  fold (touchedItem ty w).
  rewrite Hin, H3. cbn [bind].
  destruct (Z.eqb_spec (itemHeight w) 0) as [|_]; [contradiction|].
  cbn [Z.leb Z.ltb Z.compare andb numItems Pos.compare Pos.compare_cont bind
         handleItemSelection].
  set (w1 := with_settingsMenu _ w).
  pose proof (adjustEmissivity_cases w1) as H.
  destruct (adjustEmissivity w1) as [[] w2|w2|w2|w2] eqn:E; cbn [bind].
  - destruct (after_item_frame w2) as (Hsh & Hs2 & Hp2). cbn zeta in *.
    apply shell_eq in Hsh as (_ & _ & _ & _ & _ & Hh2).
    pose proof (core_eq _ _ H) as (Hs & _ & _ & Hp & _ & _ & _ & Hh).
    replace (_ <? ty) with false
      by (symmetry; apply Z.ltb_ge; rewrite Hh2, Hh; exact Hy).
    rewrite Hs2, Hp2. split; [exact Hs|].
    unfold save. cbn. rewrite Hs, Hp. reflexivity.
  - exists w1. split; [exact E|reflexivity].
  - pose proof (core_eq _ _ H) as (Hs & _ & _ & Hp & _). split; assumption.
  - exact H.
Qed.

(** ** The settings and the store stay in step *)

Lemma in_step_boot p fs : in_step (boot p fs).
Proof. reflexivity. Qed.

Lemma in_step_saved w w' :
  settings w' = settings w -> preferences w' = preferences (save w) ->
  in_step w'.
Proof.
  intros Hs Hp. unfold in_step, stored_emissivity, getFloat.
  rewrite Hs, Hp, save_emissivity. reflexivity.
Qed.

Lemma in_step_same w w' :
  settings w' = settings w -> preferences w' = preferences w ->
  in_step w -> in_step w'.
Proof. unfold in_step. intros -> ->. trivial. Qed.

Lemma handleSettingsTouch_in_step tx ty w :
  ty <= display_height w - Config.Display.FOOTER_HEIGHT ->
  in_step w ->
  forall w', handleSettingsTouch tx ty w = Returned tt w' -> in_step w'.
Proof.
  intros Hy Hin w'. unfold handleSettingsTouch.
  assert (Hnb : forall w1 : World, display_height w1 = display_height w ->
            (display_height w1 - Config.Display.FOOTER_HEIGHT <? ty) = false)
    by (intros w1 ->; apply Z.ltb_ge; exact Hy).
  destruct (_ && _ && _ && _); cbn [bind].
  - destruct (Z.quot _ numItems =? 0); [discriminate|].
    set (item := Z.quot _ _).
    destruct ((0 <=? item) && (item <? numItems)); cbn [bind].
    + set (w1 := with_settingsMenu _ w).
      destruct (handleItemSelection_frame item w1) as (Hsh & _).
      unfold select in Hsh.
      destruct (handleItemSelection item w1) as [[] w2|w2|w2|w2];
        cbn [bind final_world] in *; try discriminate.
      destruct (after_item_frame w2) as (Hsh2 & Hs2 & Hp2). cbn zeta in *.
      rewrite Hsh in Hsh2. apply shell_eq in Hsh2 as (_ & _ & _ & _ & _ & Hh).
      rewrite Hnb by exact Hh. intros E. injection E as <-.
      exact (in_step_saved w2 _ Hs2 Hp2).
    + rewrite Hnb by reflexivity. intros E. injection E as <-. exact Hin.
  - rewrite Hnb by reflexivity. intros E. injection E as <-. exact Hin.
Qed.

Lemma handleTouch_in_step w :
  in_step w -> forall w', handleTouch w = Returned tt w' -> in_step w'.
Proof.
  intros Hin w'.
  destruct (wasPressed (touch (frame w)) && negb (touchProcessed w)) eqn:Ep.
  - unfold handleTouch.
    destruct (negb (count (touch (frame w)) =? 0)) eqn:E0.
    + rewrite Ep. set (w1 := with_touchProcessed true w).
      destruct (footerY w1 <=? touch_y (touch (frame w))) eqn:Ef.
      * destruct (negb (isOpen (settingsMenu w1)) && _ && _).
        -- destruct (setPressed (monitorBtn w1) true w1) as [b w2] eqn:E.
           pose proof (core_setPressed (monitorBtn w1) true w1) as Hc.
           rewrite E in Hc. cbn [snd] in Hc.
           apply core_eq in Hc as (Hs & _ & _ & Hp & _).
           intros Er. injection Er as <-.
           exact (in_step_same w _ Hs Hp Hin).
        -- destruct ((display_width w1 - _ - _ <=? _) && _).
           ++ destruct (setPressed (settingsBtn w1) true w1) as [b w2] eqn:E.
              pose proof (core_setPressed (settingsBtn w1) true w1) as Hc.
              rewrite E in Hc. cbn [snd] in Hc.
              apply core_eq in Hc as (Hs & _ & _ & Hp & _).
              intros Er. injection Er as <-.
              exact (in_step_same w _ Hs Hp Hin).
           ++ intros Er. injection Er as <-. exact Hin.
      * destruct (isOpen (settingsMenu w1)).
        -- apply Z.leb_gt in Ef. unfold footerY in Ef.
           apply handleSettingsTouch_in_step; [lia|exact Hin].
        -- intros Er. injection Er as <-. exact Hin.
    + apply negb_false_iff, Z.eqb_eq in E0.
      destruct (handleTouch_no_contact w E0)
        as (w2 & E & _ & _ & Hs & _ & _ & Hp).
      fold (handleTouch w). unfold handleTouch in E. rewrite E0 in E.
      cbn [Z.eqb negb] in E. rewrite E.
      intros Er. injection Er as <-. exact (in_step_same w _ Hs Hp Hin).
  - destruct (handleTouch_not_press w Ep) as (w2 & -> & Hs & Hp).
    intros Er. injection Er as <-. exact (in_step_same w _ Hs Hp Hin).
Qed.

Lemma loop_in_step w :
  in_step w -> forall w', loop w = Returned tt w' -> in_step w'.
Proof.
  intros Hin w'. unfold loop, CoreS3_update.
  destruct (pending w) as [|f fs]; [discriminate|].
  pose proof (handleTouch_in_step (with_input f fs w) Hin) as Ht.
  destruct (handleTouch _) as [[] w1|w1|w1|w1]; cbn [bind]; try discriminate.
  intros E. injection E as <-.
  pose proof (fixed_sensor_half (millis (frame (with_input f fs w)))
                (readTemperature w1) w1) as Hf.
  apply fixed_eq in Hf as (Hs & Hp & _).
  exact (in_step_same w1 _ Hs Hp (Ht w1 eq_refl)).
Qed.

(** From power-on, the settings and the store are in step after every
    pass. *)
Lemma run_in_step n : forall w,
  in_step w -> forall w', run n w = Returned tt w' -> in_step w'.
Proof.
  induction n as [|n IH]; intros w Hin w'; cbn [run].
  - intros E. injection E as <-. exact Hin.
  - pose proof (loop_in_step w Hin) as Hl.
    destruct (loop w) as [[] w1|w1|w1|w1]; cbn [bind]; try discriminate.
    apply IH. apply Hl. reflexivity.
Qed.

(** ** The target temperature near its maximum *)

Lemma five_eq : F32.of_Z 5 = S754_finite false 10485760 (-21).
Proof. vm_compute. reflexivity. Qed.
Lemma ten_eq : F32.of_Z 10 = S754_finite false 10485760 (-20).
Proof. vm_compute. reflexivity. Qed.

(** Between 256 and 512 a binary32 value counts in steps of 2^-15, so
    adding 5 or 10 there is exact. *)
Lemma add_five m :
  8388608 <= Zpos m -> Zpos m + 163840 < 16777216 ->
  F32.add (S754_finite false m (-15)) (F32.of_Z 5)
  = S754_finite false (m + 163840) (-15).
Proof.
  intros Hlo Hhi. rewrite five_eq.
  change (F32.add (S754_finite false m (-15))
            (S754_finite false 10485760 (-21)))
    with (binary_round 24 128 false (m~0~0~0~0~0~0 + 10485760) (-21)).
  replace (m~0~0~0~0~0~0 + 10485760)%positive
    with ((m + 163840)~0~0~0~0~0~0)%positive by lia.
  shift_out (-21) 6%positive
    (Build_shr_record (Zpos (m + 163840)) false false) (m + 163840)%positive.
Qed.

Lemma add_ten m :
  8388608 <= Zpos m -> Zpos m + 327680 < 16777216 ->
  F32.add (S754_finite false m (-15)) (F32.of_Z 10)
  = S754_finite false (m + 327680) (-15).
Proof.
  intros Hlo Hhi. rewrite ten_eq.
  change (F32.add (S754_finite false m (-15))
            (S754_finite false 10485760 (-20)))
    with (binary_round 24 128 false (m~0~0~0~0~0 + 10485760) (-20)).
  replace (m~0~0~0~0~0 + 10485760)%positive
    with ((m + 327680)~0~0~0~0~0)%positive by lia.
  shift_out (-20) 5%positive
    (Build_shr_record (Zpos (m + 327680)) false false) (m + 327680)%positive.
Qed.

(** Valid values from 256 up to [MAX_TEMP_C]. *)
Lemma upper_binade_shape t :
  F32.valid t = true ->
  fle (F32.of_Z 256) t = true -> fle t Config.Temperature.MAX_TEMP_C = true ->
  exists m, t = S754_finite false m (-15)
            /\ 8388608 <= Zpos m <= 13107200.
Proof.
  rewrite MAX_TEMP_C_eq.
  replace (F32.of_Z 256) with (S754_finite false 8388608 (-15))
    by (vm_compute; reflexivity).
  intros Hv Hlo Hhi.
  destruct t as [s|s| |s m e]; try discriminate;
    try (destruct s; discriminate).
  destruct s; [discriminate|].
  apply fle_finite in Hlo, Hhi.
  pose proof (valid_finite m e Hv ltac:(lia)) as Hm.
  exists m. assert (e = -15) as -> by lia. split; [reflexivity|lia].
Qed.

(** The target after one activation of its row. *)
Lemma select_target w :
  targetTemp (settings (select 4 w))
  = let t := F32.add (targetTemp (settings w))
               (if useCelsius (settings w) then F32.of_Z 5 else F32.of_Z 10) in
    if fgt t Config.Temperature.MAX_TEMP_C
    then Config.Temperature.MIN_TEMP_C else t.
Proof. reflexivity. Qed.

Lemma select_target_useCelsius w :
  useCelsius (settings (select 4 w)) = useCelsius (settings w).
Proof. reflexivity. Qed.

Lemma select_target_not_above w :
  fgt (targetTemp (settings (select 4 w))) Config.Temperature.MAX_TEMP_C = false.
Proof.
  rewrite select_target. cbn zeta.
  destruct (fgt (F32.add _ _) _) eqn:E; [|exact E].
  vm_compute. reflexivity.
Qed.

Lemma fgt_MAX_TEMP m :
  fgt (S754_finite false m (-15)) Config.Temperature.MAX_TEMP_C
  = (13107200 <? Zpos m).
Proof.
  rewrite MAX_TEMP_C_eq, fgt_flt.
  destruct (Z.ltb_spec 13107200 (Zpos m)) as [H|H].
  - apply flt_finite. lia.
  - destruct (flt _ _) eqn:E; [|reflexivity]. apply flt_finite in E. lia.
Qed.

(** In Celsius mode, from anywhere between 256 and the maximum, the [+5]
    row reaches [MIN_TEMP_C] within as many activations as there are steps
    of 5 left below the maximum, plus one. *)
Lemma wrap_eventually (d : nat) : forall w m,
  useCelsius (settings w) = true ->
  targetTemp (settings w) = S754_finite false m (-15) ->
  8388608 <= Zpos m <= 13107200 ->
  13107200 - Zpos m < Z.of_nat d * 163840 ->
  exists n, (1 <= n <= d)%nat
            /\ targetTemp (settings (Nat.iter n (select 4) w))
               = Config.Temperature.MIN_TEMP_C.
Proof.
  induction d as [|d IH]; intros w m Hc Ht Hm Hd; [lia|].
  pose proof (select_target w) as Hsel. cbn zeta in Hsel.
  rewrite Hc, Ht, add_five in Hsel by lia.
  rewrite fgt_MAX_TEMP in Hsel.
  destruct (Z.ltb_spec 13107200 (Zpos (m + 163840))) as [Hw|Hw].
  - exists 1%nat. split; [lia|exact Hsel].
  - destruct (IH (select 4 w) (m + 163840)%positive) as (n & Hn & Hr);
      [rewrite select_target_useCelsius; exact Hc|exact Hsel|lia|lia|].
    exists (S n). split; [lia|].
    rewrite Nat.iter_succ_r. exact Hr.
Qed.

(** * Claims *)

(** ** Brightness *)

Lemma select_brightness w :
  0 <= brightness (settings w) <= 255 ->
  brightness (settings (select 2 w)) = (brightness (settings w) + 64) mod 256.
Proof.
  intros Hb. unfold select. cbn [handleItemSelection final_world].
  cbn [settings brightness emit with_settings set_brightness].
  unfold wrap_int. rewrite (Z.mod_small (_ + 2 ^ 31)) by lia.
  rewrite Z.rem_mod_nonneg by lia.
  f_equal. lia.
Qed.

(** C9: the brightness row computes [(brightness + 64) mod 256]; from the
    default 128 it runs through 192, 0, 64 and back to 128; and from any
    brightness in [0, 255] four activations give the brightness back. *)
Theorem C9_brightness_cycle (w : World) :
  0 <= brightness (settings w) <= 255 ->
  handleItemSelection 2 w = Returned tt (select 2 w)
  /\ brightness (settings (select 2 w)) = (brightness (settings w) + 64) mod 256
  /\ brightness (settings (Nat.iter 4 (select 2) w)) = brightness (settings w)
  /\ (brightness (settings w) = Config.System.DEFAULT_BRIGHTNESS ->
      map (fun n => brightness (settings (Nat.iter n (select 2) w)))
        [1; 2; 3; 4]%nat
      = [192; 0; 64; 128]).
Proof.
  intros Hb.
  assert (Hstep : forall w1, 0 <= brightness (settings w1) <= 255 ->
            0 <= brightness (settings (select 2 w1)) <= 255
            /\ brightness (settings (select 2 w1))
               = (brightness (settings w1) + 64) mod 256).
  { intros w1 H1. rewrite (select_brightness w1 H1).
    split; [|reflexivity]. pose proof (Z.mod_pos_bound (brightness (settings w1) + 64) 256). lia. }
  split; [reflexivity|]. split; [apply select_brightness; exact Hb|].
  unfold Nat.iter. cbn [nat_rect map].
  destruct (Hstep w Hb) as [H1 E1].
  destruct (Hstep _ H1) as [H2 E2].
  destruct (Hstep _ H2) as [H3 E3].
  destruct (Hstep _ H3) as [H4 E4].
  split.
  - rewrite E4, E3, E2, E1. clear -Hb. Z.div_mod_to_equations. lia.
  - unfold Config.System.DEFAULT_BRIGHTNESS. intros E0.
    rewrite E4, E3, E2, E1, E0. reflexivity.
Qed.

Lemma C9_brightness_cycle_witness :
  0 <= brightness (settings (boot ∅ [])) <= 255
  /\ brightness (settings (Nat.iter 4 (select 2) (boot ∅ []))) = 128.
Proof.
  assert (H : 0 <= brightness (settings (boot ∅ [])) <= 255)
    by (vm_compute; split; discriminate).
  split; [exact H|].
  pose proof (C9_brightness_cycle (boot ∅ []) H) as (_ & _ & P & _).
  exact P.
Defined.

(** ** Target temperature *)

(** C8: the target row adds 5 in Celsius mode and 10 in Fahrenheit mode,
    and a result above [MAX_TEMP_C] becomes [MIN_TEMP_C]; no number of
    activations leaves the target above [MAX_TEMP_C]; and in Celsius mode,
    from any value from 256 up to [MAX_TEMP_C], at most 29 activations
    reach [MIN_TEMP_C], a single one from above 395. *)
Theorem C8_target_wraps (w : World) :
  let t := targetTemp (settings w) in
  let step := if useCelsius (settings w) then F32.of_Z 5 else F32.of_Z 10 in
  handleItemSelection 4 w = Returned tt (select 4 w)
  /\ targetTemp (settings (select 4 w))
     = (if fgt (F32.add t step) Config.Temperature.MAX_TEMP_C
        then Config.Temperature.MIN_TEMP_C else F32.add t step)
  /\ (forall n,
        fgt (targetTemp (settings (Nat.iter (S n) (select 4) w)))
          Config.Temperature.MAX_TEMP_C = false)
  /\ (F32.valid t = true -> useCelsius (settings w) = true ->
      fle (F32.of_Z 256) t = true ->
      fle t Config.Temperature.MAX_TEMP_C = true ->
      (exists n, (1 <= n <= 29)%nat
                 /\ targetTemp (settings (Nat.iter n (select 4) w))
                    = Config.Temperature.MIN_TEMP_C)
      /\ (fgt t (F32.of_Z 395) = true ->
          targetTemp (settings (select 4 w)) = Config.Temperature.MIN_TEMP_C)).
Proof.
  cbn zeta. split; [reflexivity|]. split; [apply select_target|].
  split; [intros n; apply select_target_not_above|].
  intros Hv Hc Hlo Hhi.
  destruct (upper_binade_shape _ Hv Hlo Hhi) as (m & Ht & Hm).
  split.
  - apply (wrap_eventually 29 w m Hc Ht Hm). lia.
  - rewrite Ht.
    replace (F32.of_Z 395) with (S754_finite false 12943360 (-15))
      by (vm_compute; reflexivity).
    rewrite fgt_flt. intros Hgt. apply flt_finite in Hgt.
    pose proof (select_target w) as Hsel. cbn zeta in Hsel.
    rewrite Hc, Ht, add_five, fgt_MAX_TEMP in Hsel by lia.
    rewrite Hsel.
    destruct (Z.ltb_spec 13107200 (Zpos (m + 163840))) as [_|H];
      [reflexivity|lia].
Qed.

Lemma C8_target_wraps_witness :
  (F32.valid (targetTemp (settings near_max_world)) = true
   /\ useCelsius (settings near_max_world) = true
   /\ fle (F32.of_Z 256) (targetTemp (settings near_max_world)) = true
   /\ fle (targetTemp (settings near_max_world)) Config.Temperature.MAX_TEMP_C
      = true
   /\ fgt (targetTemp (settings near_max_world)) (F32.of_Z 395) = true)
  /\ targetTemp (settings (select 4 near_max_world))
     = Config.Temperature.MIN_TEMP_C.
Proof.
  assert (H : F32.valid (targetTemp (settings near_max_world)) = true
              /\ useCelsius (settings near_max_world) = true
              /\ fle (F32.of_Z 256) (targetTemp (settings near_max_world)) = true
              /\ fle (targetTemp (settings near_max_world))
                   Config.Temperature.MAX_TEMP_C = true
              /\ fgt (targetTemp (settings near_max_world)) (F32.of_Z 395) = true)
    by (vm_compute; repeat split).
  split; [exact H|].
  destruct H as (Hv & Hc & Hlo & Hhi & Hgt).
  exact (proj2 (proj2 (proj2 (proj2 (C8_target_wraps near_max_world)))
                  Hv Hc Hlo Hhi) Hgt).
Defined.

(** ** The emissivity modal *)

Lemma pending_draw b c w : pending (draw b c w) = pending w.
Proof. unfold draw. destruct (pressed b); reflexivity. Qed.

Lemma adjustEmissivity_adjusting w :
  adjustEmissivity w
  = let* (r, w1) := adjusting w in
    let* (_, w2) :=
      if snd r then
        confirm_loop (pending w1) (fst r)
          (draw cancelBtn Config.Display.COLOR_ERROR
             (draw confirmBtn Config.Display.COLOR_SUCCESS
                (emit (ConfirmScreenDrawn (emissivity (settings w)) (fst r))
                   w1)))
      else Returned tt w1 in
    Returned tt (updateDisplay (drawTemperature (drawMainDisplay w2))).
Proof.
  unfold adjustEmissivity, adjusting, modal_opened.
  destruct (adjust_loop _ _ _ _ _ _) as [[t c] w1|w1|w1|w1]; reflexivity.
Qed.

Lemma adjusting_core w r w1 : adjusting w = Returned r w1 -> core w1 = core w.
Proof.
  unfold adjusting. intros E.
  pose proof (adjust_loop_core (pending (modal_opened w))
                (emissivity (settings w))
                (clamp_emissivity (emissivity (settings w))) (F32.of_Z (-1))
                false (modal_opened w)) as H.
  rewrite E in H. cbn [final_world] in H. rewrite H.
  unfold modal_opened. rewrite !core_draw. reflexivity.
Qed.

(** On the confirmation screen a frame that decides nothing is passed
    over. *)
Lemma confirm_loop_undecided (pre : list Frame) : forall f fs t w,
  forallb undecided pre = true ->
  confirm_loop (pre ++ f :: fs)%list t w = confirm_loop (f :: fs) t w.
Proof.
  induction pre as [|g pre IH]; intros f fs t w Hu; [reflexivity|].
  cbn [forallb] in Hu. apply andb_true_iff in Hu as [Hg Hu].
  cbn [app].
  transitivity (confirm_loop (pre ++ f :: fs)%list t
                  (with_input g (pre ++ f :: fs)%list w)).
  - unfold undecided, pressed_in in Hg.
    cbn [confirm_loop]. cbn zeta.
    destruct (negb (count (touch g) =? 0) && wasPressed (touch g));
      [|reflexivity].
    cbn [andb] in Hg.
    destruct (contains confirmBtn _ _); [discriminate|].
    destruct (contains cancelBtn _ _); [discriminate|]. reflexivity.
  - rewrite (IH f fs t _ Hu). reflexivity.
Qed.

(** A press inside Restart writes the staged value, saves, tells the
    sensor and restarts. *)
Lemma confirm_loop_restart f fs t w :
  pressed_in confirmBtn f = true ->
  confirm_loop (f :: fs) t w
  = Restarted
      (playSound true
         (emit (SensorEmissivity t)
            (save (with_settings (set_emissivity t (settings w))
                     (with_input f fs w))))).
Proof.
  unfold pressed_in. intros H. apply andb_true_iff in H as [H Hc].
  cbn [confirm_loop]. cbn zeta. rewrite H, Hc. reflexivity.
Qed.

(** A press inside Cancel returns and writes nothing. *)
Lemma confirm_loop_cancel f fs t w :
  pressed_in confirmBtn f = false -> pressed_in cancelBtn f = true ->
  confirm_loop (f :: fs) t w = Returned tt (playSound true (with_input f fs w)).
Proof.
  unfold pressed_in. intros Hn H. apply andb_true_iff in H as [H Hc].
  rewrite H in Hn. cbn [andb] in Hn.
  cbn [confirm_loop]. cbn zeta. rewrite H, Hn, Hc. reflexivity.
Qed.

(** The confirmation screen restarts only on a press inside Restart. *)
Lemma confirm_loop_restarted frames : forall t w w',
  confirm_loop frames t w = Restarted w' ->
  exists pre f fs,
    frames = (pre ++ f :: fs)%list
    /\ forallb undecided pre = true /\ pressed_in confirmBtn f = true.
Proof.
  induction frames as [|g frames IH]; intros t w w'; cbn [confirm_loop];
    [discriminate|]. cbn zeta.
  destruct (negb (count (touch g) =? 0) && wasPressed (touch g)) eqn:Ep.
  - destruct (contains confirmBtn _ _) eqn:Ec.
    + intros _. exists [], g, frames. split; [reflexivity|].
      split; [reflexivity|]. unfold pressed_in. rewrite Ep, Ec. reflexivity.
    + destruct (contains cancelBtn _ _) eqn:Ek; [discriminate|].
      intros E. destruct (IH _ _ _ E) as (pre & f & fs & -> & Hu & Hp).
      exists (g :: pre), f, fs. split; [reflexivity|]. split; [|exact Hp].
      cbn [forallb]. rewrite Hu. unfold undecided, pressed_in.
      rewrite Ep, Ec, Ek. reflexivity.
  - intros E. destruct (IH _ _ _ E) as (pre & f & fs & -> & Hu & Hp).
    exists (g :: pre), f, fs. split; [reflexivity|]. split; [|exact Hp].
    cbn [forallb]. rewrite Hu. unfold undecided, pressed_in.
    rewrite Ep. reflexivity.
Qed.

(** What the confirmed restart leaves: the staged value in the settings,
    and the settings in the store. *)
Lemma restart_writes w staged w1 f fs :
  core w1 = core w ->
  let w2 := draw cancelBtn Config.Display.COLOR_ERROR
              (draw confirmBtn Config.Display.COLOR_SUCCESS
                 (emit (ConfirmScreenDrawn (emissivity (settings w)) staged)
                    w1)) in
  let w' := playSound true
              (emit (SensorEmissivity staged)
                 (save (with_settings (set_emissivity staged (settings w2))
                          (with_input f fs w2)))) in
  settings w' = set_emissivity staged (settings w)
  /\ preferences w'
     = preferences (save (with_settings (set_emissivity staged (settings w)) w))
  /\ preferences w' !! "emissivity" = Some (PFloat staged)
  /\ In (SensorEmissivity staged) (trace w').
Proof.
  intros Hc. cbn zeta.
  set (w2 := draw cancelBtn _ (draw confirmBtn _ (emit _ w1))).
  assert (H2 : core w2 = core w)
    by (unfold w2; rewrite !core_draw, core_emit; exact Hc).
  apply core_eq in H2 as (Hs & _ & _ & Hp & _).
  set (w3 := save _).
  assert (Hs3 : settings w3 = set_emissivity staged (settings w))
    by (change (settings w3) with (set_emissivity staged (settings w2));
        rewrite Hs; reflexivity).
  assert (Hp3 : preferences w3
                = preferences
                    (save (with_settings (set_emissivity staged (settings w)) w))).
  { unfold w3, save.
    cbn [preferences with_preferences settings with_settings with_input].
    rewrite Hs, Hp. reflexivity. }
  pose proof (core_playSound true (emit (SensorEmissivity staged) w3)) as Hk.
  apply core_eq in Hk as (Hs4 & _ & _ & Hp4 & _).
  rewrite Hs4, Hp4. cbn [settings preferences emit].
  split; [exact Hs3|]. split; [exact Hp3|]. split.
  - rewrite Hp3, save_emissivity. reflexivity.
  - unfold playSound. destruct (negb _); cbn; auto.
Qed.

(** The adjusting loop returns or runs out of input: it neither restarts
    nor faults. *)
Lemma adjust_loop_ends frames : forall orig t l c w wf,
  adjust_loop frames orig t l c w <> Fault wf
  /\ adjust_loop frames orig t l c w <> Restarted wf.
Proof.
  induction frames as [|f frames IH]; intros; cbn [adjust_loop].
  - split; discriminate.
  - repeat case_match; try apply IH; split; discriminate.
Qed.

(** C3, as stated, fails on the stored key.  On a fresh device, whose
    store holds no emissivity key, the operator opens the emissivity row,
    presses [+], Done and Cancel: [Settings.emissivity] is as on entry, but
    the save that [handleSettingsTouch] makes once the modal has returned
    has written the key, which now holds the entry value 0.87. *)
Lemma C3_counterexample :
  exists w',
    handleSettingsTouch 100 120 (modal_world 200) = Returned tt w'
    /\ settings w' = settings (modal_world 200)
    /\ preferences (modal_world 200) !! "emissivity" = None
    /\ preferences w' !! "emissivity"
       = Some (PFloat Config.System.DEFAULT_EMISSIVITY).
Proof. eexists. split; [vm_compute; reflexivity|]. repeat split. Qed.

(** C3, amended: the staged emissivity reaches [Settings.emissivity] and
    the store on the confirmed restart and only there.  The modal alone
    leaves the settings and the store exactly as on entry whenever it
    returns or runs out of input, and it never faults; when it restarts,
    the adjusting loop had returned a changed value [staged], the press
    that decided was inside Restart, and [staged] is then the emissivity
    of the settings and the value under the emissivity key.  Conversely a
    press inside Restart on the confirmation screen does write, save, tell
    the sensor and restart; Done on an unchanged value and a press inside
    Cancel return with nothing written.  Through the emissivity row of
    the menu a return is followed by the row's save, which writes the six
    keys from the unchanged settings: the emissivity key then holds the
    entry value of [Settings.emissivity], which is what the store gave
    back before whenever the settings were in step with it, as they are
    after every pass from power-on ([run_in_step]). *)
Theorem C3_emissivity_staged (w : World) :
  match adjustEmissivity w with
  | Returned _ w' => settings w' = settings w /\ preferences w' = preferences w
  | Starved w' => settings w' = settings w /\ preferences w' = preferences w
  | Restarted w' =>
      exists staged w1 pre f fs,
        adjusting w = Returned (staged, true) w1
        /\ pending w1 = (pre ++ f :: fs)%list
        /\ forallb undecided pre = true /\ pressed_in confirmBtn f = true
        /\ settings w' = set_emissivity staged (settings w)
        /\ preferences w'
           = preferences
               (save (with_settings (set_emissivity staged (settings w)) w))
        /\ preferences w' !! "emissivity" = Some (PFloat staged)
  | Fault _ => False
  end
  /\ (forall staged w1 pre f fs,
        adjusting w = Returned (staged, true) w1 ->
        pending w1 = (pre ++ f :: fs)%list ->
        forallb undecided pre = true -> pressed_in confirmBtn f = true ->
        exists w',
          adjustEmissivity w = Restarted w'
          /\ settings w' = set_emissivity staged (settings w)
          /\ preferences w'
             = preferences
                 (save (with_settings (set_emissivity staged (settings w)) w))
          /\ preferences w' !! "emissivity" = Some (PFloat staged)
          /\ In (SensorEmissivity staged) (trace w'))
  /\ (forall staged w1,
        adjusting w = Returned (staged, false) w1 ->
        exists w', adjustEmissivity w = Returned tt w'
                   /\ settings w' = settings w
                   /\ preferences w' = preferences w)
  /\ (forall staged w1 pre f fs,
        adjusting w = Returned (staged, true) w1 ->
        pending w1 = (pre ++ f :: fs)%list ->
        forallb undecided pre = true ->
        pressed_in confirmBtn f = false -> pressed_in cancelBtn f = true ->
        exists w', adjustEmissivity w = Returned tt w'
                   /\ settings w' = settings w
                   /\ preferences w' = preferences w)
  /\ (forall tx ty,
        ty <= display_height w - Config.Display.FOOTER_HEIGHT ->
        inMenu tx ty w = true -> itemHeight w <> 0 -> touchedItem ty w = 3 ->
        forall w', handleSettingsTouch tx ty w = Returned tt w' ->
          settings w' = settings w
          /\ preferences w' = preferences (save w)
          /\ preferences w' !! "emissivity"
             = Some (PFloat (emissivity (settings w)))
          /\ (in_step w ->
              stored_emissivity (preferences w')
              = stored_emissivity (preferences w))).
Proof.
  assert (Hret : forall w', adjustEmissivity w = Returned tt w' ->
            exists w'', adjustEmissivity w = Returned tt w''
                        /\ settings w'' = settings w
                        /\ preferences w'' = preferences w).
  { intros w' E. pose proof (adjustEmissivity_cases w) as H. rewrite E in H.
    apply core_eq in H as (Hs & _ & _ & Hp & _). eauto. }
  split; [|split; [|split; [|split]]].
  - pose proof (adjustEmissivity_cases w) as H.
    pose proof (adjustEmissivity_adjusting w) as Eq.
    destruct (adjustEmissivity w) as [[] w'|w'|w'|w'] eqn:Ea.
    + apply core_eq in H as (Hs & _ & _ & Hp & _). split; assumption.
    + clear H. symmetry in Eq.
      destruct (adjusting w) as [[staged changed] w1|w1|w1|w1] eqn:E1;
        cbn [bind fst snd] in Eq; try discriminate;
        [|destruct (proj2 (adjust_loop_ends _ _ _ _ _ _ _) E1)].
      destruct changed; [|discriminate].
      set (w2 := draw cancelBtn _ _) in Eq.
      destruct (confirm_loop (pending w1) staged w2) as [[] w3|w3|w3|w3] eqn:E2;
        cbn [bind] in Eq; try discriminate.
      injection Eq as <-.
      destruct (confirm_loop_restarted _ _ _ _ E2)
        as (pre & f & fs & Hpe & Hu & Hp).
      rewrite Hpe, (confirm_loop_undecided pre f fs staged w2 Hu),
        (confirm_loop_restart f fs staged w2 Hp) in E2.
      injection E2 as <-.
      destruct (restart_writes w staged w1 f fs (adjusting_core w _ _ E1))
        as (Hs & Hpr & Hk & _).
      exists staged, w1, pre, f, fs.
      repeat split; first [assumption|reflexivity].
    + apply core_eq in H as (Hs & _ & _ & Hp & _). split; assumption.
    + exact H.
  - intros staged w1 pre f fs E1 Hpe Hu Hp.
    rewrite adjustEmissivity_adjusting, E1. cbn [bind fst snd].
    rewrite Hpe, (confirm_loop_undecided pre f fs _ _ Hu),
      (confirm_loop_restart f fs _ _ Hp). cbn [bind].
    eexists. split; [reflexivity|].
    exact (restart_writes w staged w1 f fs (adjusting_core w _ _ E1)).
  - intros staged w1 E1. eapply Hret.
    rewrite adjustEmissivity_adjusting, E1. reflexivity.
  - intros staged w1 pre f fs E1 Hpe Hu Hn Hp. eapply Hret.
    rewrite adjustEmissivity_adjusting, E1. cbn [bind fst snd].
    rewrite Hpe, (confirm_loop_undecided pre f fs _ _ Hu),
      (confirm_loop_cancel f fs _ _ Hn Hp). reflexivity.
  - intros tx ty Hy Hin Hih H3 w' E.
    pose proof (handleSettingsTouch_emissivity tx ty w Hy Hin Hih H3) as H.
    rewrite E in H. destruct H as [Hs Hp].
    split; [exact Hs|]. split; [exact Hp|].
    split; [rewrite Hp; apply save_emissivity|].
    intros Hst. rewrite <- Hst.
    unfold stored_emissivity, getFloat. rewrite Hp, save_emissivity.
    reflexivity.
Qed.

Lemma C3_emissivity_staged_witness :
  (let w := modal_world 50 in
   let w1 := final_world (adjusting w) in
   adjusting w = Returned (S754_finite false 14763950 (-24), true) w1
   /\ pending w1 = ([] ++ frame_at 30 (press 50 200) 2500 :: [])%list
   /\ forallb undecided [] = true
   /\ pressed_in confirmBtn (frame_at 30 (press 50 200) 2500) = true)
  /\ exists w',
       adjustEmissivity (modal_world 50) = Restarted w'
       /\ preferences w' !! "emissivity"
          = Some (PFloat (S754_finite false 14763950 (-24))).
Proof.
  assert (H : let w := modal_world 50 in
              let w1 := final_world (adjusting w) in
              adjusting w
              = Returned (S754_finite false 14763950 (-24), true) w1
              /\ pending w1
                 = ([] ++ frame_at 30 (press 50 200) 2500 :: [])%list
              /\ forallb undecided [] = true
              /\ pressed_in confirmBtn (frame_at 30 (press 50 200) 2500)
                 = true)
    by (vm_compute; repeat split).
  split; [exact H|].
  destruct H as (E1 & Hpe & Hu & Hp).
  pose proof (C3_emissivity_staged (modal_world 50)) as (_ & P & _).
  destruct (P _ _ _ _ _ E1 Hpe Hu Hp) as (w' & E & _ & _ & Hk & _).
  exists w'. split; [exact E|exact Hk].
Defined.

(** The three ways out of the modal, run: Cancel and Done on an unchanged
    value return with the emissivity 0.87 of entry; Restart stores 0.88. *)
Example modal_cancel :
  exists w', adjustEmissivity (modal_world 200) = Returned tt w'
             /\ emissivity (settings w') = Config.System.DEFAULT_EMISSIVITY
             /\ preferences w' = ∅.
Proof. eexists. split; [vm_compute; reflexivity|]. split; reflexivity. Qed.

Example modal_done_unchanged :
  exists w',
    adjustEmissivity (open_menu (boot ∅ [frame_at 10 (press 50 200) 2500]))
    = Returned tt w'
    /\ emissivity (settings w') = Config.System.DEFAULT_EMISSIVITY
    /\ preferences w' = ∅.
Proof. eexists. split; [vm_compute; reflexivity|]. split; reflexivity. Qed.

Example modal_restart :
  exists w', adjustEmissivity (modal_world 50) = Restarted w'
             /\ emissivity (settings w') = S754_finite false 14763950 (-24)
             /\ preferences w' !! "emissivity"
                = Some (PFloat (S754_finite false 14763950 (-24))).
Proof. eexists. split; [vm_compute; reflexivity|]. split; reflexivity. Qed.




(** ** Touch dispatch *)

(** A release inside the armed button: the action of the button's label is
    taken and the armed reference is dropped. *)
Lemma handleTouch_release w lp :
  count (touch (frame w)) <> 0 ->
  wasPressed (touch (frame w)) && negb (touchProcessed w) = false ->
  wasReleased (touch (frame w)) = true ->
  touchProcessed w = true ->
  lastPressedButton w = Some lp ->
  contains lp (touch_x (touch (frame w))) (touch_y (touch (frame w))) = true ->
  exists w',
    handleTouch w = Returned tt w'
    /\ lastPressedButton w' = None
    /\ (label lp = "Monitor" \/ label lp = "Stop" ->
        isMonitoring (state w') = negb (isMonitoring (state w))
        /\ isOpen (settingsMenu w') = isOpen (settingsMenu w))
    /\ (label lp = "Settings" \/ label lp = "Back" ->
        isOpen (settingsMenu w') = negb (isOpen (settingsMenu w))
        /\ currentScreen (state w')
           = (if negb (isOpen (settingsMenu w)) then SETTINGS else MAIN)
        /\ isMonitoring (state w') = isMonitoring (state w)).
Proof.
  intros H0 Hp Hr Ht Hl Hc. unfold handleTouch.
  destruct (Z.eqb_spec (count (touch (frame w))) 0) as [|_]; [contradiction|].
  cbn [negb]. rewrite Hp, Hl, Hr, Ht, Hc. cbn [andb].
  set (w1 := if String.eqb (label lp) "Monitor" || _ then _ else _).
  destruct (setPressed lp false w1) as [b w2] eqn:E.
  pose proof (core_setPressed lp false w1) as Hcore.
  rewrite E in Hcore. cbn [snd] in Hcore.
  eexists. split; [reflexivity|].
  pose proof (core_updateDisplay (with_lastPressedButton None w2)) as Hu.
  apply core_eq in Hu as (_ & Hs & Hm & _ & Hlp & _).
  apply core_eq in Hcore as (_ & Hs2 & Hm2 & _).
  rewrite Hs, Hm, Hlp. cbn [state settingsMenu lastPressedButton
                              with_lastPressedButton].
  rewrite Hs2, Hm2. split; [reflexivity|]. unfold w1. split.
  - intros [-> | ->]; split; reflexivity.
  - intros [-> | ->]; repeat split; cbn; destruct (isOpen (settingsMenu w));
      reflexivity.
Qed.

(** One pass of [loop] moves the monitoring flag and the screen exactly
    as its [handleTouch] does. *)
Lemma loop_controls w f fs :
  pending w = f :: fs ->
  controls (final_world (loop w))
  = controls (final_world (handleTouch (with_input f fs w))).
Proof.
  intros Hp. unfold loop, CoreS3_update. rewrite Hp.
  destruct (handleTouch _) as [[] w1|w1|w1|w1]; cbn [bind final_world];
    try reflexivity.
  apply fixed_eq, fixed_sensor_half.
Qed.

(** C2: at any pass of [loop], after any number of earlier passes: the
    monitoring flag and the screen are left as they were when the touch
    sample lies outside the armed button's bounds -- they change only
    where a release sample is processed inside them -- and a pass whose
    sample reports no contact returns with no button armed. *)
Theorem C2_touch_dispatcher (n : nat) (w0 w : World) (f : Frame)
    (fs : list Frame) :
  run n w0 = Returned tt w ->
  pending w = f :: fs ->
  (forall lp, lastPressedButton w = Some lp ->
     contains lp (touch_x (touch f)) (touch_y (touch f)) = false ->
     controls (final_world (loop w)) = controls w)
  /\ (controls (final_world (loop w)) <> controls w ->
      wasReleased (touch f) = true
      /\ exists lp, lastPressedButton w = Some lp
                    /\ contains lp (touch_x (touch f)) (touch_y (touch f))
                       = true)
  /\ (count (touch f) = 0 ->
      exists w', loop w = Returned tt w' /\ lastPressedButton w' = None).
Proof.
  intros _ Hp.
  assert (Hch : controls (final_world (loop w)) <> controls w ->
            wasReleased (touch f) = true
            /\ exists lp, lastPressedButton w = Some lp
                          /\ contains lp (touch_x (touch f)) (touch_y (touch f))
                             = true).
  { rewrite (loop_controls w f fs Hp). intros H.
    destruct (handleTouch_controls (with_input f fs w) H) as (_ & Hr & Hl).
    split; [exact Hr|exact Hl]. }
  split; [|split; [exact Hch|]].
  - intros lp Hl Hc.
    destruct (decide (controls (final_world (loop w)) = controls w))
      as [E|E]; [exact E|].
    destruct (Hch E) as (_ & lp' & Hl' & Hc'). congruence.
  - intros H0. unfold loop, CoreS3_update. rewrite Hp.
    destruct (handleTouch_no_contact (with_input f fs w) H0)
      as (w1 & E & Hl & _).
    rewrite E. cbn [bind]. eexists. split; [reflexivity|].
    pose proof (fixed_sensor_half (millis (frame (with_input f fs w)))
                  (readTemperature w1) w1) as Hf.
    apply fixed_eq in Hf as (_ & _ & -> & _). exact Hl.
Qed.

Lemma C2_touch_dispatcher_witness :
  (run 1 lost_contact_world
   = Returned tt (final_world (run 1 lost_contact_world))
   /\ pending (final_world (run 1 lost_contact_world))
      = [frame_at 20 no_touch 2500]
   /\ count (touch (frame_at 20 no_touch 2500)) = 0
   /\ lastPressedButton (final_world (run 1 lost_contact_world)) <> None)
  /\ exists w',
       loop (final_world (run 1 lost_contact_world)) = Returned tt w'
       /\ lastPressedButton w' = None.
Proof.
  assert (H : run 1 lost_contact_world
              = Returned tt (final_world (run 1 lost_contact_world))
              /\ pending (final_world (run 1 lost_contact_world))
                 = [frame_at 20 no_touch 2500]
              /\ count (touch (frame_at 20 no_touch 2500)) = 0
              /\ lastPressedButton (final_world (run 1 lost_contact_world))
                 <> None)
    by (vm_compute; repeat split; discriminate).
  split; [exact H|].
  destruct H as (Hr & Hp & H0 & _).
  pose proof (C2_touch_dispatcher 1 lost_contact_world _ _ _ Hr Hp)
    as (_ & _ & P).
  exact (P H0).
Defined.

(** ** When a touch takes effect *)

(** Outside the emissivity row, a row's action reads nothing but the
    settings. *)
Lemma select_with_touchProcessed item b w :
  item <> 3 ->
  settings (select item (with_touchProcessed b w)) = settings (select item w)
  /\ preferences (save (select item (with_touchProcessed b w)))
     = preferences (save (select item w)).
Proof.
  intros H3. unfold select.
  destruct (Z_lt_le_dec item 0) as [Hlo|Hlo];
    [rewrite !handleItemSelection_default by lia; split; reflexivity|].
  destruct (Z_lt_le_dec 5 item) as [Hhi|Hhi];
    [rewrite !handleItemSelection_default by lia; split; reflexivity|].
  assert (Hi : item = 0 \/ item = 1 \/ item = 2 \/ item = 4 \/ item = 5)
    by lia.
  destruct Hi as [->|[->|[->|[->| ->]]]];
    cbn [handleItemSelection final_world]; try (split; reflexivity).
  cbn [with_settings settings soundEnabled set_soundEnabled with_touchProcessed].
  destruct (negb (soundEnabled (settings w))); [split; reflexivity|].
  unfold playSound. cbn. split; reflexivity.
Qed.

(** C5, as stated, fails: a press on a menu row changes the settings at
    once, with nothing armed and no release sample seen. *)
Lemma C5_counterexample :
  wasPressed (touch (frame row_press_world)) = true
  /\ wasReleased (touch (frame row_press_world)) = false
  /\ lastPressedButton row_press_world = None
  /\ brightness (settings row_press_world) = 128
  /\ brightness (settings (final_world (handleTouch row_press_world))) = 192
  /\ preferences (final_world (handleTouch row_press_world)) !! "brightness"
     = Some (PInt 192).
Proof. vm_compute. repeat split. Qed.

(** C5, amended: the monitoring flag and the screen change only where a
    release sample is processed inside the armed button, never on a press
    sample; there the Monitor/Stop button toggles [isMonitoring] and the
    Settings/Back button switches the screen.  A settings-menu adjustment
    is applied while the press sample itself is processed: a fresh press on
    a menu row other than the emissivity row returns with the row's action
    applied to the settings and saved. *)
Theorem C5_mutation_timing (w : World) :
  let t := touch (frame w) in
  (controls (final_world (handleTouch w)) <> controls w ->
   wasPressed t && negb (touchProcessed w) = false
   /\ wasReleased t = true
   /\ exists lp, lastPressedButton w = Some lp
                 /\ contains lp (touch_x t) (touch_y t) = true)
  /\ (forall lp,
        count t <> 0 -> wasPressed t && negb (touchProcessed w) = false ->
        wasReleased t = true -> touchProcessed w = true ->
        lastPressedButton w = Some lp ->
        contains lp (touch_x t) (touch_y t) = true ->
        exists w',
          handleTouch w = Returned tt w'
          /\ (label lp = "Monitor" \/ label lp = "Stop" ->
              isMonitoring (state w') = negb (isMonitoring (state w)))
          /\ (label lp = "Settings" \/ label lp = "Back" ->
              isOpen (settingsMenu w') = negb (isOpen (settingsMenu w))
              /\ currentScreen (state w')
                 = (if negb (isOpen (settingsMenu w)) then SETTINGS else MAIN)))
  /\ (count t <> 0 -> wasPressed t = true -> touchProcessed w = false ->
      isOpen (settingsMenu w) = true -> touch_y t < footerY w ->
      inMenu (touch_x t) (touch_y t) w = true -> itemHeight w <> 0 ->
      0 <= touchedItem (touch_y t) w < numItems ->
      touchedItem (touch_y t) w <> 3 ->
      exists w',
        handleTouch w = Returned tt w'
        /\ settings w' = settings (select (touchedItem (touch_y t) w) w)
        /\ preferences w'
           = preferences (save (select (touchedItem (touch_y t) w) w))).
Proof.
  cbn zeta. split; [apply handleTouch_controls|]. split.
  - intros lp H0 Hp Hr Ht Hl Hc.
    destruct (handleTouch_release w lp H0 Hp Hr Ht Hl Hc)
      as (w' & E & _ & Hm & Hs).
    exists w'. split; [exact E|]. split.
    + intros H. apply (Hm H).
    + intros H. destruct (Hs H) as (H1 & H2 & _). split; assumption.
  - intros H0 Hp Ht Ho Hy Hin Hih Hit H3.
    unfold handleTouch.
    destruct (Z.eqb_spec (count (touch (frame w))) 0) as [|_]; [contradiction|].
    cbn [negb]. rewrite Hp, Ht. cbn [andb negb].
    replace (footerY (with_touchProcessed true w) <=? touch_y (touch (frame w)))
      with false by (symmetry; apply Z.leb_gt; exact Hy).
    cbn [isOpen settingsMenu with_touchProcessed]. rewrite Ho.
    unfold footerY in Hy.
    destruct (handleSettingsTouch_applies (touch_x (touch (frame w)))
                (touch_y (touch (frame w))) (with_touchProcessed true w))
      as (w' & E & Hs & Hpr); try assumption; [cbn; lia|].
    destruct (select_with_touchProcessed
                (touchedItem (touch_y (touch (frame w))) w) true w H3)
      as (Hs' & Hpr').
    exists w'. split; [exact E|].
    split; [rewrite Hs; exact Hs'|rewrite Hpr; exact Hpr'].
Qed.

Lemma C5_mutation_timing_witness :
  (count (touch (frame row_press_world)) <> 0
   /\ wasPressed (touch (frame row_press_world)) = true
   /\ touchProcessed row_press_world = false
   /\ isOpen (settingsMenu row_press_world) = true
   /\ touch_y (touch (frame row_press_world)) < footerY row_press_world
   /\ inMenu 100 100 row_press_world = true
   /\ itemHeight row_press_world <> 0
   /\ 0 <= touchedItem 100 row_press_world < numItems
   /\ touchedItem 100 row_press_world <> 3)
  /\ exists w',
       handleTouch row_press_world = Returned tt w'
       /\ settings w' = settings (select (touchedItem 100 row_press_world)
                                    row_press_world)
       /\ preferences w'
          = preferences (save (select (touchedItem 100 row_press_world)
                                 row_press_world)).
Proof.
  assert (H : count (touch (frame row_press_world)) <> 0
              /\ wasPressed (touch (frame row_press_world)) = true
              /\ touchProcessed row_press_world = false
              /\ isOpen (settingsMenu row_press_world) = true
              /\ touch_y (touch (frame row_press_world)) < footerY row_press_world
              /\ inMenu 100 100 row_press_world = true
              /\ itemHeight row_press_world <> 0
              /\ 0 <= touchedItem 100 row_press_world < numItems
              /\ touchedItem 100 row_press_world <> 3)
    by (vm_compute; repeat split; discriminate).
  split; [exact H|].
  destruct H as (H0 & Hp & Ht & Ho & Hy & Hin & Hih & Hit & H3).
  pose proof (C5_mutation_timing row_press_world) as (_ & _ & P).
  exact (P H0 Hp Ht Ho Hy Hin Hih Hit H3).
Defined.

(** ** Leaving the settings menu *)

(** The release branch of [handleTouch] writes nothing to the store,
    whichever button was armed. *)
Lemma release_never_saves w :
  wasPressed (touch (frame w)) && negb (touchProcessed w) = false ->
  preferences (final_world (handleTouch w)) = preferences w.
Proof.
  intros H. destruct (handleTouch_not_press w H) as (w' & -> & _ & Hp).
  exact Hp.
Qed.

(** C6 at the failing input: after Settings and Back on a fresh device the
    menu is closed and the screen is Main again, and the store is as empty
    as before -- none of the six keys a [save] would have written is
    there. *)
Theorem C6_back_release_skips_save :
  let w2 := final_world (run 2 back_world) in
  let w3 := final_world (run 3 back_world) in
  let w4 := final_world (run 4 back_world) in
  run 4 back_world = Returned tt w4
  /\ isOpen (settingsMenu w2) = true /\ currentScreen (state w2) = SETTINGS
  /\ option_map label (lastPressedButton w3) = Some "Back"
  /\ isOpen (settingsMenu w4) = false /\ currentScreen (state w4) = MAIN
  /\ preferences w4 = ∅
  /\ preferences (save w4) !! "brightness" = Some (PInt 128)
  /\ preferences w4 !! "brightness" = None.
Proof. vm_compute. repeat split. Qed.

(** ** Samples outside the valid band *)

(** C1 at the failing input: the out-of-band sample is stored as
    [currentTemp], flips the status from Success to Warning, sounds the
    alert and is pushed as telemetry. *)
Theorem C1_invalid_sample_ingested :
  let w1 := final_world (run 1 cold_world) in
  let w2 := final_world (run 2 cold_world) in
  isValidTemperature (F32.of_Z (-3000)) = false
  /\ flt (celsius_of_raw (F32.of_Z (-3000))) Config.Temperature.MIN_TEMP_C
     = true
  /\ run 2 cold_world = Returned tt w2
  /\ currentTemp (state w1) = F32.of_Z 178
  /\ statusMessage (state w1) = "Monitoring"
  /\ statusColor (state w1) = Config.Display.COLOR_SUCCESS
  /\ currentTemp (state w2) = F32.of_Z (-30)
  /\ statusMessage (state w2) = "Temperature Out of Range!"
  /\ statusColor (state w2) = Config.Display.COLOR_WARNING
  /\ temperature w2 = F32.of_Z (-22)
  /\ trace w2
     = TemperatureDrawn (F32.of_Z (-30)) true Config.System.DEFAULT_EMISSIVITY
       :: Tone 500 100
       :: StatusDrawn "Temperature Out of Range!" Config.Display.COLOR_WARNING
       :: trace w1.
Proof. vm_compute. repeat split. Qed.

(** The guard the loop lacks is in the sketch: [checkTemperature] drops
    what [isValidTemperature] rejects. *)
Lemma checkTemperature_guards w :
  isValidTemperature (readTemperature w) = false -> checkTemperature w = w.
Proof. unfold checkTemperature. intros ->. reflexivity. Qed.

Lemma currentTemp_updateStatus m c w :
  currentTemp (state (updateStatus m c w)) = currentTemp (state w).
Proof. unfold updateStatus. destruct (_ || _); reflexivity. Qed.

Lemma currentTemp_playSound b w :
  currentTemp (state (playSound b w)) = currentTemp (state w).
Proof. unfold playSound. destruct (negb _); reflexivity. Qed.

(** The temperature block of [loop] never asks whether the sample is
    valid: a significant sample is stored whatever it is. *)
Lemma ingest_stores temp ms w :
  significant temp (currentTemp (state w)) = true ->
  currentTemp (state (ingest ms temp w)) = temp.
Proof.
  intros H. unfold ingest. rewrite H.
  set (w1 := with_state _ (with_state _ w)).
  assert (H1 : currentTemp (state w1) = temp) by reflexivity.
  set (w2 := if isMonitoring (state w1) then _ else w1).
  assert (H2 : currentTemp (state w2) = temp).
  { unfold w2. destruct (isMonitoring (state w1)); [|exact H1].
    destruct (fgt _ _).
    - destruct (soundEnabled _);
        rewrite ?currentTemp_playSound, currentTemp_updateStatus; exact H1.
    - rewrite currentTemp_updateStatus. exact H1. }
  destruct (negb _); [|exact H2].
  pose proof (core_drawTemperature (with_temperature (fahrenheit temp) w2))
    as Hc.
  apply core_eq in Hc as (_ & -> & _). exact H2.
Qed.

(** ** Significance of a sample *)

(** C4, as stated, fails twice over.  When the first sample converts to 0
    the baseline test [currentTemp == 0] lets the second sample through
    although it is only 0.5 away: [currentTemp], the telemetry value and
    the display all change.  And when the first sample was itself dropped
    (10.9 after a baseline of 10.0), a second sample within 1.0 of it
    (11.5) is still 1.5 from the baseline and is let through. *)
Lemma C4_counterexample :
  (let t1 := celsius_of_raw (F32.of_Z 0) in
   let t2 := celsius_of_raw (F32.of_Z 50) in
   let w1 := ingest 10 t1 (boot ∅ []) in
   let w2 := ingest 20 t2 w1 in
   flt (F64.of_float (fabs (F32.sub t2 t1))) (F64.of_Z 1) = true
   /\ currentTemp (state w1) = t1
   /\ currentTemp (state w2) = t2 /\ t2 <> t1
   /\ temperature w2 <> temperature w1
   /\ trace w2
      = TemperatureDrawn t2 true Config.System.DEFAULT_EMISSIVITY :: trace w1)
  /\ (let t0 := celsius_of_raw (F32.of_Z 1000) in
      let t1 := celsius_of_raw (F32.of_Z 1090) in
      let t2 := celsius_of_raw (F32.of_Z 1150) in
      let w0 := ingest 10 t0 (boot ∅ []) in
      let w1 := ingest 20 t1 w0 in
      let w2 := ingest 30 t2 w1 in
      flt (F64.of_float (fabs (F32.sub t2 t1))) (F64.of_Z 1) = true
      /\ feq t1 (F32.of_Z 0) = false
      /\ w1 = w0
      /\ currentTemp (state w2) = t2 /\ t2 <> currentTemp (state w1)
      /\ temperature w2 <> temperature w1).
Proof. vm_compute. repeat split; discriminate. Qed.

Lemma core_temperature w w' : core w' = core w -> temperature w' = temperature w.
Proof. unfold core. intros H. injection H. auto. Qed.

(** A significant sample is published: the cloud property becomes its
    Fahrenheit value. *)
Lemma ingest_publishes temp ms w :
  significant temp (currentTemp (state w)) = true ->
  temperature (ingest ms temp w) = fahrenheit temp.
Proof.
  intros H. unfold ingest. rewrite H.
  destruct (negb _); [|reflexivity].
  rewrite (core_temperature _ _ (core_drawTemperature _)). reflexivity.
Qed.

(** After a recorded sample of zero every sample is significant. *)
Lemma significant_after_zero temp currentTemp :
  feq currentTemp (F32.of_Z 0) = true -> significant temp currentTemp = true.
Proof. unfold significant. intros ->. apply orb_true_r. Qed.

(** C4, amended: when the first sample was recorded as [currentTemp] and
    does not convert to 0, a second sample whose converted value is less
    than 1.0 away from it -- the difference taken in [float], as [loop]
    takes it -- leaves the whole machine as it is: no display update, no
    telemetry push, no change to [currentTemp].  When the first sample
    converts to exactly 0 the next sample is always treated as
    significant, however close it is: it becomes [currentTemp] and is
    published. *)
Theorem C4_insignificant_sample_dropped (w : World) (ms1 ms2 : Z)
    (s1 s2 : spec_float) :
  let t1 := celsius_of_raw s1 in
  let t2 := celsius_of_raw s2 in
  let w1 := ingest ms1 t1 w in
  significant t1 (currentTemp (state w)) = true ->
  currentTemp (state w1) = t1
  /\ (feq t1 (F32.of_Z 0) = false ->
      flt (F64.of_float (fabs (F32.sub t2 t1))) (F64.of_Z 1) = true ->
      ingest ms2 t2 w1 = w1)
  /\ (feq t1 (F32.of_Z 0) = true ->
      significant t2 (currentTemp (state w1)) = true
      /\ currentTemp (state (ingest ms2 t2 w1)) = t2
      /\ temperature (ingest ms2 t2 w1) = fahrenheit t2).
Proof.
  cbn zeta. intros Hsig.
  pose proof (ingest_stores _ ms1 w Hsig) as Hc.
  split; [exact Hc|]. split.
  - intros Hz Hlt. unfold ingest at 1. unfold significant. rewrite Hc, Hz.
    rewrite (flt_not_fge _ _ Hlt). reflexivity.
  - intros Hz.
    assert (Hs2 : significant (celsius_of_raw s2)
                    (currentTemp (state (ingest ms1 (celsius_of_raw s1) w)))
                  = true)
      by (apply significant_after_zero; rewrite Hc; exact Hz).
    split; [exact Hs2|].
    split; [apply ingest_stores, Hs2|apply ingest_publishes, Hs2].
Qed.

Lemma C4_insignificant_sample_dropped_witness :
  (let t1 := celsius_of_raw (F32.of_Z 2500) in
   let t2 := celsius_of_raw (F32.of_Z 2550) in
   significant t1 (currentTemp (state (boot ∅ []))) = true
   /\ feq t1 (F32.of_Z 0) = false
   /\ flt (F64.of_float (fabs (F32.sub t2 t1))) (F64.of_Z 1) = true)
  /\ ingest 20 (celsius_of_raw (F32.of_Z 2550))
       (ingest 10 (celsius_of_raw (F32.of_Z 2500)) (boot ∅ []))
     = ingest 10 (celsius_of_raw (F32.of_Z 2500)) (boot ∅ []).
Proof.
  assert (H : let t1 := celsius_of_raw (F32.of_Z 2500) in
              let t2 := celsius_of_raw (F32.of_Z 2550) in
              significant t1 (currentTemp (state (boot ∅ []))) = true
              /\ feq t1 (F32.of_Z 0) = false
              /\ flt (F64.of_float (fabs (F32.sub t2 t1))) (F64.of_Z 1) = true)
    by (vm_compute; repeat split).
  split; [exact H|].
  destruct H as (Hs & Hz & Hl).
  pose proof (C4_insignificant_sample_dropped (boot ∅ []) 10 20
                (F32.of_Z 2500) (F32.of_Z 2550) Hs) as (_ & P & _).
  exact (P Hz Hl).
Defined.

(** ** The monitoring scenario *)

(** C7, as stated, fails at its first sample: 330 is 8 away from the
    target 338, more than the tolerance 5, and the status it sets is not
    Success. *)
Lemma C7_counterexample :
  ~ (statusMessage (state (final_world (run 1 scenario_world))) = "Monitoring"
     /\ statusColor (state (final_world (run 1 scenario_world)))
        = Config.Display.COLOR_SUCCESS).
Proof. vm_compute. intros [H _]. discriminate H. Qed.

(** C7, amended: in the scenario the three samples 330, 332, 345 are each
    significant and each out of range (8, 6 and 7 away from 338): 330
    sets the status to Warning ("Temperature Out of Range!"), 332 and 345
    are recorded as [currentTemp] and leave the status at Warning, which
    [updateStatus] does not draw again; the alert sounds three times. *)
Theorem C7_scenario_statuses :
  let w1 := final_world (run 1 scenario_world) in
  let w2 := final_world (run 2 scenario_world) in
  let w3 := final_world (run 3 scenario_world) in
  let warning := ("Temperature Out of Range!", Config.Display.COLOR_WARNING) in
  let drawn t := TemperatureDrawn (F32.of_Z t) true
                   Config.System.DEFAULT_EMISSIVITY in
  run 3 scenario_world = Returned tt w3
  /\ currentTemp (state w1) = F32.of_Z 330
  /\ (statusMessage (state w1), statusColor (state w1)) = warning
  /\ currentTemp (state w2) = F32.of_Z 332
  /\ (statusMessage (state w2), statusColor (state w2)) = warning
  /\ currentTemp (state w3) = F32.of_Z 345
  /\ (statusMessage (state w3), statusColor (state w3)) = warning
  /\ rev (trace w3)
     = [StatusDrawn "Temperature Out of Range!" Config.Display.COLOR_WARNING;
        Tone 500 100; drawn 330;
        Tone 500 100; drawn 332;
        Tone 500 100; drawn 345].
Proof. vm_compute. repeat split. Qed.

(** * Further lemmas *)

(** ** The settings store *)

Lemma load_save w : settings (load (save w)) = settings w.
Proof.
  destruct w as [[c s b e t o] st m p lp tp te dw dh f fs tr].
  unfold load, save, getBool, getInt, getFloat.
  cbn [settings with_settings preferences with_preferences useCelsius
         soundEnabled brightness emissivity targetTemp tempTolerance].
  by simplify_map_eq.
Qed.

Lemma save_other_keys w k :
  k ∉ setting_keys -> preferences (save w) !! k = preferences w !! k.
Proof.
  intros Hk. unfold save. cbn [preferences with_preferences].
  unfold setting_keys in Hk.
  rewrite !lookup_insert_ne; [reflexivity|..];
    intros <-; apply Hk; set_solver.
Qed.

Lemma persisted_saved w' : saved w' -> persisted w'.
Proof.
  intros (w1 & Hs & Hp). unfold persisted.
  transitivity (settings (load (save w1))); [|rewrite load_save; auto].
  unfold load. cbn [settings with_settings]. rewrite Hp. reflexivity.
Qed.

Lemma persisted_kept w w' : kept w w' -> persisted w -> persisted w'.
Proof.
  intros [Hs Hp] H. unfold persisted in *. rewrite Hs, <- H.
  unfold load. cbn [settings with_settings]. rewrite Hp. reflexivity.
Qed.

Lemma persisted_boot p fs : persisted (boot p fs).
Proof. reflexivity. Qed.

(** ** What a touch in the menu comes to *)

(** Above the footer line [handleSettingsTouch] is its first half: the
    row's action, then save, beep and redraw. *)
Lemma handleSettingsTouch_outcome tx ty w :
  ty <= display_height w - Config.Display.FOOTER_HEIGHT ->
  handleSettingsTouch tx ty w
  = if inMenu tx ty w then
      if itemHeight w =? 0 then Fault w
      else if (0 <=? touchedItem ty w) && (touchedItem ty w <? numItems) then
        let* (_, w2) :=
          handleItemSelection (touchedItem ty w)
            (with_settingsMenu
               (mkSettingsMenu (isOpen (settingsMenu w)) (touchedItem ty w)) w) in
        Returned tt
          (drawSettingsMenu
             (emit ContentCleared
                (if soundEnabled (settings (save w2))
                 then playSound true (save w2) else save w2)))
      else Returned tt w
    else Returned tt w.
Proof.
  intros Hy. unfold handleSettingsTouch.
  fold menuY. fold (menuHeight w). fold (itemHeight w). fold (inMenu tx ty w).
  fold (touchedItem ty w).
  assert (Hnb : forall w1 : World, display_height w1 = display_height w ->
            (display_height w1 - Config.Display.FOOTER_HEIGHT <? ty) = false)
    by (intros w1 ->; apply Z.ltb_ge; exact Hy).
  destruct (inMenu tx ty w); cbn [bind]; [|rewrite Hnb; reflexivity].
  destruct (itemHeight w =? 0); [reflexivity|].
  destruct ((0 <=? touchedItem ty w) && (touchedItem ty w <? numItems));
    cbn [bind]; [|rewrite Hnb; reflexivity].
  set (w1 := with_settingsMenu _ w).
  destruct (handleItemSelection_frame (touchedItem ty w) w1) as (Hsh & _).
  unfold select in Hsh.
  destruct (handleItemSelection _ w1) as [[] w2|w2|w2|w2];
    cbn [bind final_world] in *; try reflexivity.
  destruct (after_item_frame w2) as (Hsh2 & _). cbn zeta in Hsh2.
  rewrite Hsh in Hsh2. apply shell_eq in Hsh2 as (_ & _ & _ & _ & _ & Hh).
  rewrite Hnb by exact Hh. reflexivity.
Qed.

(** An item action leaves the settings and the store as they were, or as
    a save leaves them once the caller has saved. *)
Lemma handleItemSelection_store item w :
  match handleItemSelection item w with
  | Returned _ w' => preferences w' = preferences w
  | Restarted w' => saved w'
  | Starved w' => kept w w'
  | Fault _ => False
  end.
Proof.
  destruct (Z_lt_le_dec item 0) as [Hlo|Hlo];
    [rewrite handleItemSelection_default by lia; reflexivity|].
  destruct (Z_lt_le_dec 5 item) as [Hhi|Hhi];
    [rewrite handleItemSelection_default by lia; reflexivity|].
  assert (Hi : item = 0 \/ item = 1 \/ item = 2 \/ item = 3 \/ item = 4
               \/ item = 5) by lia.
  destruct Hi as [->|[->|[->|[->|[->| ->]]]]]; cbn [handleItemSelection];
    try reflexivity.
  - destruct (soundEnabled _); [|reflexivity].
    pose proof (core_playSound true
                  (with_settings
                     (set_soundEnabled (negb (soundEnabled (settings w)))
                        (settings w)) w)) as Hc.
    apply core_eq in Hc as (_ & _ & _ & Hp & _). exact Hp.
  - pose proof (adjustEmissivity_cases w) as H.
    destruct (adjustEmissivity w) as [[] w'|w'|w'|w'].
    + apply core_eq in H as (_ & _ & _ & Hp & _). exact Hp.
    + destruct H as (_ & _ & staged & _ & _ & _ & Hs & Hp & _).
      exists (with_settings (set_emissivity staged (settings w)) w).
      split; assumption.
    + apply core_eq in H as (Hs & _ & _ & Hp & _). split; assumption.
    + exact H.
Qed.

Lemma handleSettingsTouch_store tx ty w :
  ty <= display_height w - Config.Display.FOOTER_HEIGHT ->
  match handleSettingsTouch tx ty w with
  | Returned _ w' => w' = w \/ saved w'
  | Restarted w' => saved w'
  | Starved w' => kept w w'
  | Fault _ => True
  end.
Proof.
  intros Hy. rewrite (handleSettingsTouch_outcome tx ty w Hy).
  destruct (inMenu tx ty w); [|left; reflexivity].
  destruct (itemHeight w =? 0); [exact I|].
  destruct (_ && _); [|left; reflexivity].
  set (w1 := with_settingsMenu _ w).
  pose proof (handleItemSelection_store (touchedItem ty w) w1) as H.
  destruct (handleItemSelection _ w1) as [[] w2|w2|w2|w2]; cbn [bind];
    [|exact H|exact H|exact I].
  right. destruct (after_item_frame w2) as (_ & Hs & Hp). cbn zeta in *.
  exists w2. split; assumption.
Qed.

(** [handleTouch] leaves the settings and the store as they were or as a
    save leaves them. *)
Lemma handleTouch_store w :
  match handleTouch w with
  | Returned _ w' => kept w w' \/ saved w'
  | Restarted w' => saved w'
  | Starved w' => kept w w'
  | Fault _ => True
  end.
Proof.
  destruct (wasPressed (touch (frame w)) && negb (touchProcessed w)) eqn:Ep.
  - unfold handleTouch.
    destruct (negb (count (touch (frame w)) =? 0)) eqn:E0.
    + rewrite Ep. set (w1 := with_touchProcessed true w).
      destruct (footerY w1 <=? touch_y (touch (frame w))) eqn:Ef.
      * destruct (negb (isOpen (settingsMenu w1)) && _ && _).
        -- destruct (setPressed (monitorBtn w1) true w1) as [b w2] eqn:E.
           pose proof (core_setPressed (monitorBtn w1) true w1) as Hc.
           rewrite E in Hc. cbn [snd] in Hc.
           apply core_eq in Hc as (Hs & _ & _ & Hp & _).
           left. split; assumption.
        -- destruct ((display_width w1 - _ - _ <=? _) && _).
           ++ destruct (setPressed (settingsBtn w1) true w1) as [b w2] eqn:E.
              pose proof (core_setPressed (settingsBtn w1) true w1) as Hc.
              rewrite E in Hc. cbn [snd] in Hc.
              apply core_eq in Hc as (Hs & _ & _ & Hp & _).
              left. split; assumption.
           ++ left. split; reflexivity.
      * destruct (isOpen (settingsMenu w1)); [|left; split; reflexivity].
        apply Z.leb_gt in Ef. unfold footerY in Ef.
        pose proof (handleSettingsTouch_store (touch_x (touch (frame w)))
                      (touch_y (touch (frame w))) w1 ltac:(lia)) as H.
        destruct (handleSettingsTouch _ _ w1) as [[] w2|w2|w2|w2];
          try exact H.
        destruct H as [->|H]; [left; split; reflexivity|right; exact H].
    + apply negb_false_iff, Z.eqb_eq in E0.
      destruct (handleTouch_no_contact w E0)
        as (w2 & E & _ & _ & Hs & _ & _ & Hp).
      unfold handleTouch in E. rewrite E0 in E.
      cbn [Z.eqb negb] in E. rewrite E. left. split; assumption.
  - destruct (handleTouch_not_press w Ep) as (w2 & -> & Hs & Hp).
    left. split; assumption.
Qed.

Lemma loop_store w :
  match loop w with
  | Returned _ w' => kept w w' \/ saved w'
  | Restarted w' => saved w'
  | Starved w' => kept w w'
  | Fault _ => True
  end.
Proof.
  unfold loop, CoreS3_update.
  destruct (pending w) as [|f fs]; [split; reflexivity|].
  pose proof (handleTouch_store (with_input f fs w)) as Ht.
  destruct (handleTouch _) as [[] w1|w1|w1|w1]; cbn [bind]; try exact Ht.
  pose proof (fixed_sensor_half (millis (frame (with_input f fs w)))
                (readTemperature w1) w1) as Hf.
  apply fixed_eq in Hf as (Hs & Hp & _).
  destruct Ht as [[Hs1 Hp1]|(w2 & Hs2 & Hp2)].
  - left. split; [rewrite Hs; exact Hs1|rewrite Hp; exact Hp1].
  - right. exists w2. split; [rewrite Hs; exact Hs2|rewrite Hp; exact Hp2].
Qed.

Lemma persisted_step w w' :
  persisted w -> kept w w' \/ saved w' -> persisted w'.
Proof.
  intros H [Hk|Hs]; [exact (persisted_kept w w' Hk H)|].
  apply persisted_saved, Hs.
Qed.

Lemma run_persisted n : forall w,
  persisted w ->
  match run n w with
  | Returned _ w' | Restarted w' | Starved w' => persisted w'
  | Fault _ => True
  end.
Proof.
  induction n as [|n IH]; intros w H; cbn [run]; [exact H|].
  pose proof (loop_store w) as Hl.
  destruct (loop w) as [[] w1|w1|w1|w1]; cbn [bind].
  - apply IH. exact (persisted_step w w1 H Hl).
  - apply persisted_saved, Hl.
  - exact (persisted_kept w w1 Hl H).
  - exact I.
Qed.

(** ** The touch half leaves the sensor half's state alone *)

Lemma sensed_core w w' : core w' = core w -> sensed w' = sensed w.
Proof.
  intros H. pose proof (core_temperature _ _ H) as Ht.
  apply core_eq in H as (_ & Hs & _ & _ & _ & _ & Hw & Hh).
  unfold sensed. rewrite Hs, Ht, Hw, Hh. reflexivity.
Qed.

Lemma sensed_eq w w' :
  sensed w' = sensed w ->
  currentTemp (state w') = currentTemp (state w)
  /\ temperature w' = temperature w
  /\ display_height w' = display_height w
  /\ statusMessage (state w') = statusMessage (state w)
  /\ statusColor (state w') = statusColor (state w).
Proof. unfold sensed. intros H. injection H. auto. Qed.

Lemma sensed_handleItemSelection item w :
  match handleItemSelection item w with
  | Restarted _ => True
  | r => sensed (final_world r) = sensed w
  end.
Proof.
  destruct (Z_lt_le_dec item 0) as [Hlo|Hlo];
    [rewrite handleItemSelection_default by lia; reflexivity|].
  destruct (Z_lt_le_dec 5 item) as [Hhi|Hhi];
    [rewrite handleItemSelection_default by lia; reflexivity|].
  assert (Hi : item = 0 \/ item = 1 \/ item = 2 \/ item = 3 \/ item = 4
               \/ item = 5) by lia.
  destruct Hi as [->|[->|[->|[->|[->| ->]]]]]; cbn [handleItemSelection];
    try reflexivity.
  - cbn [final_world]. destruct (soundEnabled _); [|reflexivity].
    rewrite (sensed_core _ _ (core_playSound _ _)). reflexivity.
  - pose proof (adjustEmissivity_cases w) as H.
    destruct (adjustEmissivity w) as [[] w'|w'|w'|w']; cbn [final_world];
      [apply sensed_core, H|exact I|apply sensed_core, H|destruct H].
Qed.

Lemma sensed_after_item w :
  sensed (drawSettingsMenu
            (emit ContentCleared
               (if soundEnabled (settings (save w))
                then playSound true (save w) else save w)))
  = sensed w.
Proof.
  unfold drawSettingsMenu.
  destruct (soundEnabled _); [|reflexivity].
  unfold playSound. destruct (negb _); reflexivity.
Qed.

Lemma sensed_handleSettingsTouch tx ty w :
  ty <= display_height w - Config.Display.FOOTER_HEIGHT ->
  match handleSettingsTouch tx ty w with
  | Restarted _ => True
  | r => sensed (final_world r) = sensed w
  end.
Proof.
  intros Hy. rewrite (handleSettingsTouch_outcome tx ty w Hy).
  destruct (inMenu tx ty w); [|reflexivity].
  destruct (itemHeight w =? 0); [reflexivity|].
  destruct (_ && _); [|reflexivity].
  set (w1 := with_settingsMenu _ w).
  pose proof (sensed_handleItemSelection (touchedItem ty w) w1) as H.
  destruct (handleItemSelection _ w1) as [[] w2|w2|w2|w2];
    cbn [bind final_world] in *; try exact H.
  rewrite sensed_after_item. exact H.
Qed.

Lemma sensed_handleTouch w :
  match handleTouch w with
  | Restarted _ => True
  | r => sensed (final_world r) = sensed w
  end.
Proof.
  unfold handleTouch.
  destruct (negb (count (touch (frame w)) =? 0)).
  - destruct (wasPressed (touch (frame w)) && negb (touchProcessed w)).
    + set (w1 := with_touchProcessed true w).
      destruct (footerY w1 <=? touch_y (touch (frame w))) eqn:Ef.
      * destruct (negb (isOpen (settingsMenu w1)) && _ && _).
        -- destruct (setPressed (monitorBtn w1) true w1) as [b w2] eqn:E.
           pose proof (core_setPressed (monitorBtn w1) true w1) as Hc.
           rewrite E in Hc. cbn [snd] in Hc. cbn [final_world].
           apply sensed_core in Hc. exact Hc.
        -- destruct ((display_width w1 - _ - _ <=? _) && _); [|reflexivity].
           destruct (setPressed (settingsBtn w1) true w1) as [b w2] eqn:E.
           pose proof (core_setPressed (settingsBtn w1) true w1) as Hc.
           rewrite E in Hc. cbn [snd] in Hc. cbn [final_world].
           apply sensed_core in Hc. exact Hc.
      * destruct (isOpen (settingsMenu w1)); [|reflexivity].
        apply Z.leb_gt in Ef. unfold footerY in Ef.
        apply (sensed_handleSettingsTouch _ _ w1). lia.
    + destruct (lastPressedButton w) as [lp|]; [|reflexivity].
      destruct (wasReleased (touch (frame w)) && touchProcessed w);
        [|reflexivity].
      set (w1 := if contains lp _ _ then _ else _).
      assert (H1 : sensed w1 = sensed w)
        by (unfold w1; repeat case_match; reflexivity).
      destruct (setPressed lp false w1) as [b w2] eqn:E.
      pose proof (core_setPressed lp false w1) as Hc.
      rewrite E in Hc. cbn [snd] in Hc. cbn [final_world].
      rewrite (sensed_core _ _ (core_updateDisplay _)).
      apply sensed_core in Hc. rewrite <- H1, <- Hc. reflexivity.
  - destruct (lastPressedButton _) as [lp|] eqn:El; [|reflexivity].
    destruct (setPressed lp false _) as [b w2] eqn:E.
    pose proof (core_setPressed lp false (with_touchProcessed false w)) as Hc.
    rewrite E in Hc. cbn [snd] in Hc. cbn [final_world].
    apply sensed_core in Hc. exact Hc.
Qed.

(** ** Division by zero *)

Lemma display_height_updateStatus m c w :
  display_height (updateStatus m c w) = display_height w.
Proof. unfold updateStatus. destruct (_ || _); reflexivity. Qed.

Lemma display_height_sensor_half ms temp w :
  display_height (battery_update ms (ingest ms temp (serial_update ms temp w)))
  = display_height w.
Proof.
  assert (Hb : forall w1, display_height (battery_update ms w1)
                          = display_height w1).
  { intros w1. unfold battery_update, checkBattery.
    destruct (_ <=? _); [|reflexivity].
    destruct (_ && _); [|reflexivity].
    destruct (negb _); [|reflexivity].
    cbn. apply display_height_updateStatus. }
  assert (Hi : forall w1, display_height (ingest ms temp w1)
                          = display_height w1).
  { intros w1. unfold ingest. destruct (significant _ _); [|reflexivity].
    set (w2 := with_state _ (with_state _ w1)).
    set (w3 := if isMonitoring (state w2) then _ else w2).
    assert (H3 : display_height w3 = display_height w1).
    { unfold w3. destruct (isMonitoring _); [|reflexivity].
      destruct (fgt _ _);
        [|rewrite display_height_updateStatus; reflexivity].
      destruct (soundEnabled _);
        [|rewrite display_height_updateStatus; reflexivity].
      pose proof (core_playSound false
                    (updateStatus "Temperature Out of Range!"
                       Config.Display.COLOR_WARNING w2)) as Hc.
      apply core_eq in Hc as (_ & _ & _ & _ & _ & _ & _ & ->).
      rewrite display_height_updateStatus. reflexivity. }
    destruct (negb _); [|exact H3].
    pose proof (core_drawTemperature (with_temperature (fahrenheit temp) w3))
      as Hc.
    apply core_eq in Hc as (_ & _ & _ & _ & _ & _ & _ & ->). exact H3. }
  rewrite Hb, Hi. unfold serial_update. destruct (_ <=? _); reflexivity.
Qed.

Lemma inMenu_menuHeight tx ty w : inMenu tx ty w = true -> 0 <= menuHeight w.
Proof.
  unfold inMenu. rewrite !andb_true_iff, !Z.leb_le. lia.
Qed.

Lemma itemHeight_zero w :
  itemHeight w = 0 <-> 85 <= display_height w <= 95.
Proof.
  unfold itemHeight, menuHeight, numItems, Config.Display.HEADER_HEIGHT,
    Config.Display.FOOTER_HEIGHT, Config.Display.MARGIN.
  rewrite Z.quot_small_iff by lia. lia.
Qed.

Lemma handleSettingsTouch_no_fault tx ty w wf :
  ty <= display_height w - Config.Display.FOOTER_HEIGHT ->
  ~ 90 <= display_height w <= 95 ->
  handleSettingsTouch tx ty w <> Fault wf.
Proof.
  intros Hy Hh. rewrite (handleSettingsTouch_outcome tx ty w Hy).
  destruct (inMenu tx ty w) eqn:Hin; [|discriminate].
  destruct (Z.eqb_spec (itemHeight w) 0) as [H0|_].
  { apply itemHeight_zero in H0. apply inMenu_menuHeight in Hin.
    unfold menuHeight, Config.Display.HEADER_HEIGHT,
      Config.Display.FOOTER_HEIGHT, Config.Display.MARGIN in Hin. lia. }
  destruct (_ && _); [|discriminate].
  set (w1 := with_settingsMenu _ w).
  destruct (handleItemSelection_frame (touchedItem ty w) w1) as (_ & Hf).
  destruct (handleItemSelection _ w1) as [[] w2|w2|w2|w2]; cbn [bind];
    try discriminate.
  destruct (Hf w2 eq_refl).
Qed.

Lemma handleTouch_no_fault w wf :
  ~ 90 <= display_height w <= 95 -> handleTouch w <> Fault wf.
Proof.
  intros Hh. unfold handleTouch.
  destruct (negb (count (touch (frame w)) =? 0)).
  - destruct (wasPressed (touch (frame w)) && negb (touchProcessed w)).
    + set (w1 := with_touchProcessed true w).
      destruct (footerY w1 <=? touch_y (touch (frame w))) eqn:Ef.
      * destruct (negb (isOpen (settingsMenu w1)) && _ && _).
        -- destruct (setPressed (monitorBtn w1) true w1). discriminate.
        -- destruct ((display_width w1 - _ - _ <=? _) && _); [|discriminate].
           destruct (setPressed (settingsBtn w1) true w1). discriminate.
      * destruct (isOpen (settingsMenu w1)); [|discriminate].
        apply Z.leb_gt in Ef. unfold footerY in Ef.
        apply handleSettingsTouch_no_fault; [lia|exact Hh].
    + destruct (lastPressedButton w) as [lp|]; [|discriminate].
      destruct (wasReleased (touch (frame w)) && touchProcessed w);
        [|discriminate].
      destruct (setPressed lp false _). discriminate.
  - destruct (lastPressedButton _) as [lp|]; [|discriminate].
    destruct (setPressed lp false _). discriminate.
Qed.

Lemma loop_display_height w w' :
  loop w = Returned tt w' -> display_height w' = display_height w.
Proof.
  unfold loop, CoreS3_update.
  destruct (pending w) as [|f fs]; [discriminate|].
  pose proof (sensed_handleTouch (with_input f fs w)) as Ht.
  destruct (handleTouch _) as [[] w1|w1|w1|w1]; cbn [bind]; try discriminate.
  intros E. injection E as <-.
  rewrite display_height_sensor_half.
  apply sensed_eq in Ht as (_ & _ & Hh & _). exact Hh.
Qed.

Lemma loop_no_fault w wf :
  ~ 90 <= display_height w <= 95 -> loop w <> Fault wf.
Proof.
  intros Hh. unfold loop, CoreS3_update.
  destruct (pending w) as [|f fs]; [discriminate|].
  pose proof (handleTouch_no_fault (with_input f fs w)) as Ht.
  destruct (handleTouch _) as [[] w1|w1|w1|w1]; cbn [bind]; try discriminate.
  destruct (Ht w1 Hh eq_refl).
Qed.

Lemma run_no_fault n : forall w wf,
  ~ 90 <= display_height w <= 95 -> run n w <> Fault wf.
Proof.
  induction n as [|n IH]; intros w wf Hh; cbn [run]; [discriminate|].
  pose proof (loop_no_fault w) as Hl.
  pose proof (loop_display_height w) as Hd.
  destruct (loop w) as [[] w1|w1|w1|w1]; cbn [bind]; try discriminate.
  - apply IH. rewrite (Hd w1 eq_refl). exact Hh.
  - destruct (Hl w1 Hh eq_refl).
Qed.

(** ** The cloud property follows the recorded sample *)

Lemma reading_serial_update ms temp w :
  currentTemp (state (serial_update ms temp w)) = currentTemp (state w)
  /\ temperature (serial_update ms temp w) = temperature w.
Proof. unfold serial_update. destruct (_ <=? _); split; reflexivity. Qed.

Lemma reading_battery_update ms w :
  currentTemp (state (battery_update ms w)) = currentTemp (state w)
  /\ temperature (battery_update ms w) = temperature w.
Proof.
  unfold battery_update, checkBattery, updateStatus.
  repeat case_match; split; reflexivity.
Qed.

Lemma temperature_updateStatus m c w :
  temperature (updateStatus m c w) = temperature w.
Proof. unfold updateStatus. destruct (_ || _); reflexivity. Qed.

Lemma ingest_telemetry ms temp w :
  telemetry_in_step w \/ feq (currentTemp (state w)) (F32.of_Z 0) = true ->
  telemetry_in_step (ingest ms temp w).
Proof.
  intros H. unfold telemetry_in_step.
  destruct (significant temp (currentTemp (state w))) eqn:Es.
  - rewrite (ingest_stores _ ms w Es), (ingest_publishes _ ms w Es).
    reflexivity.
  - unfold ingest. rewrite Es. destruct H as [H|H]; [exact H|].
    unfold significant in Es. rewrite H, orb_true_r in Es. discriminate.
Qed.

Lemma loop_telemetry w w' :
  telemetry_in_step w \/ feq (currentTemp (state w)) (F32.of_Z 0) = true ->
  loop w = Returned tt w' -> telemetry_in_step w'.
Proof.
  intros H. unfold loop, CoreS3_update.
  destruct (pending w) as [|f fs]; [discriminate|].
  pose proof (sensed_handleTouch (with_input f fs w)) as Ht.
  destruct (handleTouch _) as [[] w1|w1|w1|w1]; cbn [bind]; try discriminate.
  intros E. injection E as <-.
  apply sensed_eq in Ht as (Hc & Hte & _). cbn [final_world] in *.
  set (ms := millis _). set (temp := readTemperature w1).
  destruct (reading_serial_update ms temp w1) as [Hc1 Ht1].
  assert (H1 : telemetry_in_step (ingest ms temp (serial_update ms temp w1))).
  { apply ingest_telemetry. unfold telemetry_in_step.
    rewrite Hc1, Ht1, Hc, Hte. exact H. }
  destruct (reading_battery_update ms (ingest ms temp (serial_update ms temp w1)))
    as [Hc2 Ht2].
  unfold telemetry_in_step. rewrite Hc2, Ht2. exact H1.
Qed.

Lemma run_telemetry n : forall w w',
  telemetry_in_step w -> run n w = Returned tt w' -> telemetry_in_step w'.
Proof.
  induction n as [|n IH]; intros w w' H; cbn [run].
  - intros E. injection E as <-. exact H.
  - pose proof (loop_telemetry w) as Hl.
    destruct (loop w) as [[] w1|w1|w1|w1]; cbn [bind]; try discriminate.
    apply IH. apply Hl; [left; exact H|reflexivity].
Qed.

(** ** The two timers *)

Lemma wrap_ulong_elapsed last d :
  0 <= last < 2 ^ 32 -> 0 <= d < 2 ^ 32 ->
  wrap_ulong (wrap_ulong (last + d) - last) = d.
Proof.
  intros Hl Hd. unfold wrap_ulong.
  rewrite Zminus_mod_idemp_l.
  replace (last + d - last) with d by lia.
  apply Z.mod_small. exact Hd.
Qed.

(** ** Finite ranges of integers *)

Lemma holds_on_sound (P : Z -> bool) (n : nat) : forall lo,
  holds_on P lo n = true ->
  forall k, lo <= k < lo + Z.of_nat n -> P k = true.
Proof.
  induction n as [|n IH]; intros lo H k Hk; [lia|].
  cbn [holds_on] in H. apply andb_true_iff in H as [H0 H1].
  destruct (Z.eq_dec k lo) as [->|Hne]; [exact H0|].
  apply (IH (lo + 1) H1). lia.
Qed.

(** ** The tolerance row *)

Lemma select_tolerance w :
  tempTolerance (settings (select 5 w))
  = let t := F32.add (tempTolerance (settings w))
               (if useCelsius (settings w)
                then F32.div (F32.of_Z 1) (F32.of_Z 2) else F32.of_Z 1) in
    if fgt t (F32.of_Z 20) then F32.of_Z 1 else t.
Proof. reflexivity. Qed.

Lemma select_tolerance_useCelsius w :
  useCelsius (settings (select 5 w)) = useCelsius (settings w).
Proof. reflexivity. Qed.

Lemma half_step k :
  0 <= k <= 40 ->
  (let t := F32.add (F32.div (F32.of_Z k) (F32.of_Z 2))
              (F32.div (F32.of_Z 1) (F32.of_Z 2)) in
   if fgt t (F32.of_Z 20) then F32.of_Z 1 else t)
  = if k <? 40 then F32.div (F32.of_Z (k + 1)) (F32.of_Z 2) else F32.of_Z 1.
Proof.
  intros Hk.
  pose proof (holds_on_sound
                (fun k => bool_decide
                   ((let t := F32.add (F32.div (F32.of_Z k) (F32.of_Z 2))
                                (F32.div (F32.of_Z 1) (F32.of_Z 2)) in
                     if fgt t (F32.of_Z 20) then F32.of_Z 1 else t)
                    = if k <? 40 then F32.div (F32.of_Z (k + 1)) (F32.of_Z 2)
                      else F32.of_Z 1)) 41 0) as H.
  specialize (H ltac:(vm_compute; reflexivity) k ltac:(lia)).
  apply bool_decide_eq_true in H. exact H.
Qed.

Lemma whole_step k :
  0 <= k <= 20 ->
  (let t := F32.add (F32.of_Z k) (F32.of_Z 1) in
   if fgt t (F32.of_Z 20) then F32.of_Z 1 else t)
  = if k <? 20 then F32.of_Z (k + 1) else F32.of_Z 1.
Proof.
  intros Hk.
  pose proof (holds_on_sound
                (fun k => bool_decide
                   ((let t := F32.add (F32.of_Z k) (F32.of_Z 1) in
                     if fgt t (F32.of_Z 20) then F32.of_Z 1 else t)
                    = if k <? 20 then F32.of_Z (k + 1) else F32.of_Z 1))
                21 0) as H.
  specialize (H ltac:(vm_compute; reflexivity) k ltac:(lia)).
  apply bool_decide_eq_true in H. exact H.
Qed.

Lemma tolerance_climbs (n : nat) : forall w k,
  useCelsius (settings w) = true ->
  tempTolerance (settings w) = F32.div (F32.of_Z k) (F32.of_Z 2) ->
  0 <= k -> k + Z.of_nat n <= 40 ->
  useCelsius (settings (Nat.iter n (select 5) w)) = true
  /\ tempTolerance (settings (Nat.iter n (select 5) w))
     = F32.div (F32.of_Z (k + Z.of_nat n)) (F32.of_Z 2).
Proof.
  induction n as [|n IH]; intros w k Hc Ht H0 Hk.
  - cbn [Nat.iter nat_rect]. rewrite Z.add_0_r. split; assumption.
  - rewrite Nat.iter_succ_r.
    replace (k + Z.of_nat (S n)) with ((k + 1) + Z.of_nat n) by lia.
    apply IH; [rewrite select_tolerance_useCelsius; exact Hc| |lia|lia].
    rewrite select_tolerance, Hc, Ht. cbn zeta.
    pose proof (half_step k ltac:(lia)) as Hs. cbn zeta in Hs. rewrite Hs.
    destruct (Z.ltb_spec k 40); [reflexivity|lia].
Qed.

Lemma valid_raw r :
  -32768 <= r <= 32767 ->
  isValidTemperature (F32.of_Z r) = (-2000 <? r) && (r <? 20000).
Proof.
  intros Hr.
  pose proof (holds_on_sound
                (fun r => Bool.eqb (isValidTemperature (F32.of_Z r))
                            ((-2000 <? r) && (r <? 20000)))
                (Z.to_nat 65536) (-32768)) as H.
  specialize (H ltac:(vm_compute; reflexivity) r ltac:(lia)).
  apply Bool.eqb_prop in H. exact H.
Qed.

Lemma celsius_of_raw_band r :
  -32768 <= r <= 32767 ->
  feq (celsius_of_raw (F32.of_Z r)) (F32.of_Z 0) = (r =? 0)
  /\ flt (celsius_of_raw (F32.of_Z r)) Config.Temperature.MIN_TEMP_C
     = (r <? -2000)
  /\ fgt (celsius_of_raw (F32.of_Z r)) Config.Temperature.MAX_TEMP_C = false
  /\ F32.valid (celsius_of_raw (F32.of_Z r)) = true
  /\ is_nan (celsius_of_raw (F32.of_Z r)) = false.
Proof.
  intros Hr.
  pose proof (holds_on_sound
                (fun r =>
                   let t := celsius_of_raw (F32.of_Z r) in
                   Bool.eqb (feq t (F32.of_Z 0)) (r =? 0)
                   && Bool.eqb (flt t Config.Temperature.MIN_TEMP_C)
                        (r <? -2000)
                   && negb (fgt t Config.Temperature.MAX_TEMP_C)
                   && F32.valid t && negb (is_nan t))
                (Z.to_nat 65536) (-32768)) as H.
  specialize (H ltac:(vm_compute; reflexivity) r ltac:(lia)).
  cbn zeta in H. rewrite !andb_true_iff in H.
  destruct H as ((((H1 & H2) & H3) & H4) & H5).
  apply Bool.eqb_prop in H1, H2. apply negb_true_iff in H3, H5.
  repeat split; assumption.
Qed.

Lemma count_readings_decide g :
  let v i := isValidTemperature (g i) in
  (3 <=? count_readings g 10 0 0)
  = existsb (fun i => v i && v (S i) && v (S (S i))) (seq 0 8)
  /\ (count_readings g 10 0 0 <=? 3) = true
  /\ (0 <=? count_readings g 10 0 0) = true.
Proof.
  cbv [count_readings requiredValidReadings seq existsb].
  generalize (isValidTemperature (g 0%nat)),
             (isValidTemperature (g 1%nat)),
             (isValidTemperature (g 2%nat)),
             (isValidTemperature (g 3%nat)),
             (isValidTemperature (g 4%nat)),
             (isValidTemperature (g 5%nat)),
             (isValidTemperature (g 6%nat)),
             (isValidTemperature (g 7%nat)),
             (isValidTemperature (g 8%nat)),
             (isValidTemperature (g 9%nat)).
  intros [] [] [] [] [] [] [] [] [] []; vm_compute; repeat split.
Qed.

Lemma count_readings_three g :
  (requiredValidReadings <=? count_readings g 10 0 0) = true
  <-> three_in_a_row g.
Proof.
  destruct (count_readings_decide g) as (H & _). cbn zeta in H.
  unfold requiredValidReadings. rewrite H, existsb_exists.
  unfold three_in_a_row. split.
  - intros (i & Hi & Hv). apply in_seq in Hi.
    rewrite !andb_true_iff in Hv. exists i. split; [lia|tauto].
  - intros (i & Hi & H1 & H2 & H3). exists i.
    split; [apply in_seq; lia|]. rewrite H1, H2, H3. reflexivity.
Qed.

(** One attempt, as [connect] tests it. *)
Lemma attempt_succeeds_iff a :
  (if begin_ok a
   then requiredValidReadings <=? count_readings (getTempValue a) 10 0 0
   else false) = true
  <-> attempt_succeeds a.
Proof.
  unfold attempt_succeeds. destruct (begin_ok a).
  - rewrite count_readings_three. tauto.
  - split; [discriminate|intros [H _]; discriminate].
Qed.

Lemma connect_spec sensor (n : nat) : forall retryCount,
  let r := connect sensor n retryCount in
  (retryCount <= snd r <= retryCount + n)%nat
  /\ (forall j, (retryCount <= j < snd r)%nat -> ~ attempt_succeeds (sensor j))
  /\ (fst r = true ->
      (snd r < retryCount + n)%nat /\ attempt_succeeds (sensor (snd r)))
  /\ (fst r = false -> snd r = (retryCount + n)%nat).
Proof.
  induction n as [|n IH]; intros retryCount; cbn [connect]; cbn zeta.
  - cbn [fst snd]. split; [lia|]. split; [intros j Hj; lia|].
    split; [discriminate|intros _; lia].
  - pose proof (attempt_succeeds_iff (sensor retryCount)) as Ha.
    destruct (if begin_ok (sensor retryCount) then _ else false).
    + cbn [fst snd]. split; [lia|]. split; [intros j Hj; lia|].
      split; [|discriminate].
      intros _. split; [lia|]. apply Ha. reflexivity.
    + destruct (IH (S retryCount)) as (Hr & Hn & Ht & Hf).
      split; [lia|]. split.
      { intros j Hj. destruct (Nat.eq_dec j retryCount) as [->|Hne].
        - intros H. apply Ha in H. discriminate.
        - apply Hn. lia. }
      split.
      { intros E. destruct (Ht E) as [H1 H2]. split; [lia|exact H2]. }
      intros E. rewrite (Hf E). lia.
Qed.

(** ** Drawing and sound leave the recorded input alone *)

Lemma input_playSound b w : input (playSound b w) = input w.
Proof. unfold playSound. destruct (negb _); reflexivity. Qed.

Lemma input_draw b c w : input (draw b c w) = input w.
Proof. unfold draw. destruct (pressed b); reflexivity. Qed.

Lemma input_setPressed b p w : input (snd (setPressed b p w)) = input w.
Proof.
  unfold setPressed. destruct (negb _); [|reflexivity].
  cbn [snd]. rewrite input_draw.
  destruct (_ && _); [apply input_playSound|reflexivity].
Qed.

Lemma input_updateStatus m c w : input (updateStatus m c w) = input w.
Proof. unfold updateStatus. destruct (_ || _); reflexivity. Qed.

Lemma input_drawTemperature w : input (drawTemperature w) = input w.
Proof. unfold drawTemperature. destruct (isOpen _); reflexivity. Qed.

Lemma input_emit e w : input (emit e w) = input w.
Proof. reflexivity. Qed.

Lemma input_drawFooter w : input (drawFooter w) = input w.
Proof.
  unfold drawFooter. rewrite input_draw.
  destruct (negb _); [rewrite input_draw|]; reflexivity.
Qed.

Lemma input_updateDisplay w : input (updateDisplay w) = input w.
Proof.
  unfold updateDisplay, drawHeader, drawSettingsMenu, drawMainDisplay.
  destruct (isOpen _).
  - rewrite input_emit, input_drawFooter. reflexivity.
  - rewrite input_drawTemperature, input_emit, input_drawFooter. reflexivity.
Qed.

Lemma input_sensor_half ms temp w :
  input (battery_update ms (ingest ms temp (serial_update ms temp w)))
  = input w.
Proof.
  assert (Hb : forall w1, input (battery_update ms w1) = input w1).
  { intros w1. unfold battery_update, checkBattery.
    destruct (_ <=? _); [|reflexivity].
    destruct (_ && _); [|reflexivity].
    destruct (negb _); [|reflexivity].
    change (input (with_state ?s ?w)) with (input w).
    change (input (with_state ?s ?w)) with (input w).
    apply input_updateStatus. }
  assert (Hi : forall w1, input (ingest ms temp w1) = input w1).
  { intros w1. unfold ingest. destruct (significant _ _); [|reflexivity].
    set (w2 := with_state _ (with_state _ w1)).
    set (w3 := if isMonitoring (state w2) then _ else w2).
    assert (H3 : input w3 = input w1).
    { unfold w3. destruct (isMonitoring _); [|reflexivity].
      destruct (fgt _ _); [|rewrite input_updateStatus; reflexivity].
      destruct (soundEnabled _);
        rewrite ?input_playSound, input_updateStatus; reflexivity. }
    destruct (negb _); [|exact H3].
    rewrite input_drawTemperature. exact H3. }
  rewrite Hb, Hi. unfold serial_update. destruct (_ <=? _); reflexivity.
Qed.

Lemma input_eq w w' :
  input w' = input w -> frame w' = frame w /\ pending w' = pending w.
Proof. unfold input. intros H. injection H. auto. Qed.

(** One pass of [loop] on a frame on which [handleTouch] returns: the
    sensor half leaves what [fixed] watches and the input as [handleTouch]
    left them. *)
Lemma loop_after_touch w f fs w1 :
  pending w = f :: fs ->
  handleTouch (with_input f fs w) = Returned tt w1 ->
  exists w', loop w = Returned tt w'
             /\ fixed w' = fixed w1 /\ input w' = input w1.
Proof.
  intros Hp Ht. unfold loop, CoreS3_update. rewrite Hp, Ht. cbn [bind].
  eexists. split; [reflexivity|].
  split; [apply fixed_sensor_half|apply input_sensor_half].
Qed.

(** ** The footer buttons *)

Lemma buttonWidth_fits w :
  Config.Display.MARGIN + buttonWidth w
  <= display_width w - buttonWidth w - Config.Display.MARGIN.
Proof.
  unfold buttonWidth, Config.Display.MARGIN.
  Z.quot_rem_to_equations. lia.
Qed.

(** A press in the footer, in the columns of a button and on the display,
    is inside the button it arms. *)
Lemma press_inside_monitorBtn tx ty w :
  Config.Display.MARGIN <= tx < Config.Display.MARGIN + buttonWidth w ->
  footerY w <= ty <= display_height w ->
  contains (monitorBtn w) tx ty = true.
Proof.
  intros Hx Hy. unfold contains, monitorBtn. cbn.
  unfold footerY, Config.Display.FOOTER_HEIGHT, Config.Display.BUTTON_HEIGHT,
    Config.Display.MARGIN in *.
  change (Z.quot (40 - 50) 2) with (-5).
  rewrite !andb_true_iff, !Z.leb_le, !Z.ltb_lt. lia.
Qed.

Lemma press_inside_settingsBtn tx ty w :
  display_width w - buttonWidth w - Config.Display.MARGIN <= tx
    < display_width w - Config.Display.MARGIN ->
  footerY w <= ty <= display_height w ->
  contains (settingsBtn w) tx ty = true.
Proof.
  intros Hx Hy. unfold contains, settingsBtn. cbn.
  unfold footerY, Config.Display.FOOTER_HEIGHT, Config.Display.BUTTON_HEIGHT,
    Config.Display.MARGIN in *.
  change (Z.quot (40 - 50) 2) with (-5).
  rewrite !andb_true_iff, !Z.leb_le, !Z.ltb_lt. lia.
Qed.

(** A press on the Monitor button arms it and changes nothing else. *)
Lemma handleTouch_arms_monitorBtn w :
  let t := touch (frame w) in
  count t <> 0 -> wasPressed t = true -> touchProcessed w = false ->
  isOpen (settingsMenu w) = false ->
  Config.Display.MARGIN <= touch_x t < Config.Display.MARGIN + buttonWidth w ->
  footerY w <= touch_y t ->
  exists w',
    handleTouch w = Returned tt w'
    /\ lastPressedButton w' = Some (set_pressed true (monitorBtn w))
    /\ touchProcessed w' = true
    /\ state w' = state w /\ settingsMenu w' = settingsMenu w
    /\ settings w' = settings w /\ preferences w' = preferences w
    /\ input w' = input w.
Proof.
  cbn zeta. intros H0 Hp Ht Ho Hx Hy. unfold handleTouch.
  destruct (Z.eqb_spec (count (touch (frame w))) 0) as [|_]; [contradiction|].
  cbn [negb]. rewrite Hp, Ht. cbn [negb andb].
  set (w1 := with_touchProcessed true w).
  replace (footerY w1 <=? touch_y (touch (frame w))) with true
    by (symmetry; apply Z.leb_le; exact Hy).
  replace (negb (isOpen (settingsMenu w1))
           && (Config.Display.MARGIN <=? touch_x (touch (frame w)))
           && (touch_x (touch (frame w))
               <? Config.Display.MARGIN + buttonWidth w1)) with true.
  2:{ symmetry. cbn [w1 settingsMenu with_touchProcessed]. rewrite Ho.
      rewrite !andb_true_iff, Z.leb_le, Z.ltb_lt.
      change (buttonWidth w1) with (buttonWidth w). repeat split; lia. }
  destruct (setPressed (monitorBtn w1) true w1) as [b w2] eqn:E.
  assert (Hb : b = set_pressed true (monitorBtn w))
    by (change b with (fst (b, w2)); rewrite <- E; reflexivity).
  pose proof (core_setPressed (monitorBtn w1) true w1) as Hc.
  pose proof (input_setPressed (monitorBtn w1) true w1) as Hi.
  rewrite E in Hc, Hi. cbn [snd] in Hc, Hi.
  apply core_eq in Hc as (Hs & Hst & Hm & Hpr & _ & Htp & _).
  eexists. split; [reflexivity|].
  cbn [lastPressedButton with_lastPressedButton touchProcessed state
         settingsMenu settings preferences].
  rewrite Hb, Htp, Hst, Hm, Hs, Hpr. repeat split. exact Hi.
Qed.

(** A press on the Settings (or Back) button arms it and changes nothing
    else. *)
Lemma handleTouch_arms_settingsBtn w :
  let t := touch (frame w) in
  count t <> 0 -> wasPressed t = true -> touchProcessed w = false ->
  display_width w - buttonWidth w - Config.Display.MARGIN <= touch_x t
    < display_width w - Config.Display.MARGIN ->
  footerY w <= touch_y t ->
  exists w',
    handleTouch w = Returned tt w'
    /\ lastPressedButton w' = Some (set_pressed true (settingsBtn w))
    /\ touchProcessed w' = true
    /\ state w' = state w /\ settingsMenu w' = settingsMenu w
    /\ settings w' = settings w /\ preferences w' = preferences w
    /\ input w' = input w.
Proof.
  cbn zeta. intros H0 Hp Ht Hx Hy. unfold handleTouch.
  destruct (Z.eqb_spec (count (touch (frame w))) 0) as [|_]; [contradiction|].
  cbn [negb]. rewrite Hp, Ht. cbn [negb andb].
  set (w1 := with_touchProcessed true w).
  replace (footerY w1 <=? touch_y (touch (frame w))) with true
    by (symmetry; apply Z.leb_le; exact Hy).
  pose proof (buttonWidth_fits w) as Hfit.
  replace (touch_x (touch (frame w))
           <? Config.Display.MARGIN + buttonWidth w1) with false
    by (symmetry; apply Z.ltb_ge; change (buttonWidth w1) with (buttonWidth w);
        lia).
  rewrite andb_false_r.
  replace ((display_width w1 - buttonWidth w1 - Config.Display.MARGIN
              <=? touch_x (touch (frame w)))
           && (touch_x (touch (frame w))
               <? display_width w1 - Config.Display.MARGIN)) with true.
  2:{ symmetry. rewrite andb_true_iff, Z.leb_le, Z.ltb_lt.
      change (buttonWidth w1) with (buttonWidth w).
      change (display_width w1) with (display_width w). lia. }
  destruct (setPressed (settingsBtn w1) true w1) as [b w2] eqn:E.
  assert (Hb : b = set_pressed true (settingsBtn w))
    by (change b with (fst (b, w2)); rewrite <- E; reflexivity).
  pose proof (core_setPressed (settingsBtn w1) true w1) as Hc.
  pose proof (input_setPressed (settingsBtn w1) true w1) as Hi.
  rewrite E in Hc, Hi. cbn [snd] in Hc, Hi.
  apply core_eq in Hc as (Hs & Hst & Hm & Hpr & _ & Htp & _).
  eexists. split; [reflexivity|].
  cbn [lastPressedButton with_lastPressedButton touchProcessed state
         settingsMenu settings preferences].
  rewrite Hb, Htp, Hst, Hm, Hs, Hpr. repeat split. exact Hi.
Qed.

(** A frame that is not a fresh press leaves the recorded input alone. *)
Lemma handleTouch_not_press_input w :
  wasPressed (touch (frame w)) && negb (touchProcessed w) = false ->
  input (final_world (handleTouch w)) = input w.
Proof.
  intros Ep. unfold handleTouch.
  destruct (negb (count (touch (frame w)) =? 0)).
  - rewrite Ep.
    destruct (lastPressedButton w) as [lp|]; [|reflexivity].
    destruct (wasReleased (touch (frame w)) && touchProcessed w);
      [|reflexivity].
    set (w1 := if contains lp _ _ then _ else _).
    assert (H1 : input w1 = input w)
      by (unfold w1; repeat case_match; reflexivity).
    destruct (setPressed lp false w1) as [b w2] eqn:E.
    pose proof (input_setPressed lp false w1) as Hi.
    rewrite E in Hi. cbn [snd] in Hi. cbn [final_world].
    rewrite input_updateDisplay.
    change (input (with_lastPressedButton None w2)) with (input w2).
    rewrite Hi. exact H1.
  - cbn [lastPressedButton with_touchProcessed].
    destruct (lastPressedButton w) as [lp|]; [|reflexivity].
    destruct (setPressed lp false _) as [b w2] eqn:E.
    pose proof (input_setPressed lp false (with_touchProcessed false w)) as Hi.
    rewrite E in Hi. cbn [snd] in Hi. cbn [final_world]. exact Hi.
Qed.

(** A pass of [loop] whose frame is a release inside the armed button. *)
Lemma loop_release w f fs lp :
  pending w = f :: fs ->
  contact f -> wasReleased (touch f) = true ->
  touchProcessed w = true -> lastPressedButton w = Some lp ->
  contains lp (touch_x (touch f)) (touch_y (touch f)) = true ->
  exists w',
    loop w = Returned tt w'
    /\ pending w' = fs
    /\ settings w' = settings w /\ preferences w' = preferences w
    /\ lastPressedButton w' = None
    /\ (label lp = "Monitor" \/ label lp = "Stop" ->
        isMonitoring (state w') = negb (isMonitoring (state w))
        /\ isOpen (settingsMenu w') = isOpen (settingsMenu w))
    /\ (label lp = "Settings" \/ label lp = "Back" ->
        isOpen (settingsMenu w') = negb (isOpen (settingsMenu w))
        /\ currentScreen (state w')
           = (if negb (isOpen (settingsMenu w)) then SETTINGS else MAIN)
        /\ isMonitoring (state w') = isMonitoring (state w)).
Proof.
  intros Hp Hc Hr Ht Hl Hin.
  destruct (handleTouch_release (with_input f fs w) lp)
    as (w1 & E & Hl1 & Hmon & Hset);
    [exact Hc|cbn; rewrite Ht; apply andb_false_r|exact Hr|exact Ht|exact Hl
    |exact Hin|].
  destruct (loop_after_touch w f fs w1 Hp E) as (w' & El & Hf & Hi).
  apply fixed_eq in Hf as (Hse & Hpr & Hlp & _ & Hcon).
  unfold controls in Hcon. injection Hcon as Hm Hs Ho.
  assert (Hnp : wasPressed (touch (frame (with_input f fs w)))
                && negb (touchProcessed (with_input f fs w)) = false)
    by (cbn; rewrite Ht; apply andb_false_r).
  pose proof (handleTouch_not_press_input (with_input f fs w) Hnp) as Hi1.
  destruct (handleTouch_not_press (with_input f fs w) Hnp)
    as (w1' & E' & Hse1 & Hpr1).
  rewrite E in E'. injection E' as <-.
  rewrite E in Hi1. cbn [final_world] in Hi1.
  rewrite Hi1 in Hi. apply input_eq in Hi as [_ Hpe].
  exists w'. split; [exact El|]. rewrite Hlp, Hm, Hs, Ho, Hse, Hpr.
  split; [exact Hpe|]. split; [exact Hse1|]. split; [exact Hpr1|].
  split; [exact Hl1|]. split; assumption.
Qed.

(** A pass of [loop] whose frame is a press that arms a footer button. *)
Lemma loop_arms w f fs w1 lp :
  pending w = f :: fs ->
  handleTouch (with_input f fs w) = Returned tt w1 ->
  lastPressedButton w1 = Some lp -> touchProcessed w1 = true ->
  state w1 = state w -> settingsMenu w1 = settingsMenu w ->
  settings w1 = settings w -> preferences w1 = preferences w ->
  input w1 = input (with_input f fs w) ->
  exists w',
    loop w = Returned tt w'
    /\ pending w' = fs /\ lastPressedButton w' = Some lp
    /\ touchProcessed w' = true /\ controls w' = controls w
    /\ settings w' = settings w /\ preferences w' = preferences w.
Proof.
  intros Hp E Hl Ht Hst Hm Hse Hpr Hi.
  destruct (loop_after_touch w f fs w1 Hp E) as (w' & El & Hf & Hi').
  apply fixed_eq in Hf as (Hse' & Hpr' & Hlp & Htp & Hcon).
  rewrite Hi in Hi'. apply input_eq in Hi' as [_ Hpe].
  exists w'. split; [exact El|]. rewrite Hlp, Htp, Hcon, Hse', Hpr'.
  split; [exact Hpe|]. split; [exact Hl|]. split; [exact Ht|].
  split; [unfold controls; rewrite Hst, Hm; reflexivity|].
  split; assumption.
Qed.

(** With a finger held down after its press was taken and nothing armed,
    [handleTouch] does nothing. *)
Lemma handleTouch_held w :
  count (touch (frame w)) <> 0 ->
  touchProcessed w = true -> lastPressedButton w = None ->
  handleTouch w = Returned tt w.
Proof.
  intros H0 Ht Hl. unfold handleTouch.
  destruct (Z.eqb_spec (count (touch (frame w))) 0) as [|_]; [contradiction|].
  cbn [negb]. rewrite Ht, Hl, andb_false_r. reflexivity.
Qed.

Lemma run_held (fs : list Frame) : forall w rest,
  Forall contact fs ->
  touchProcessed w = true -> lastPressedButton w = None ->
  pending w = (fs ++ rest)%list ->
  exists w',
    run (length fs) w = Returned tt w'
    /\ fixed w' = fixed w /\ pending w' = rest.
Proof.
  induction fs as [|f fs IH]; intros w rest Hc Ht Hl Hp.
  - exists w. repeat split. exact Hp.
  - apply Forall_cons in Hc as [Hf Hc].
    cbn [app] in Hp.
    pose proof (handleTouch_held (with_input f (fs ++ rest)%list w) Hf Ht Hl) as E.
    destruct (loop_after_touch w f (fs ++ rest)%list _ Hp E) as (w1 & El & Hfx & Hi).
    pose proof (fixed_eq _ _ Hfx) as (_ & _ & Hl1 & Ht1 & _).
    apply input_eq in Hi as [_ Hp1].
    destruct (IH w1 rest Hc) as (w' & Er & Hfx' & Hp');
      [rewrite Ht1; exact Ht|rewrite Hl1; exact Hl|exact Hp1|].
    exists w'. cbn [length run]. rewrite El. cbn [bind].
    split; [exact Er|]. split; [|exact Hp'].
    rewrite Hfx', Hfx. reflexivity.
Qed.

(** ** The screen and the menu *)

Lemma screen_matches_controls w w' :
  controls w' = controls w -> screen_matches w -> screen_matches w'.
Proof.
  unfold controls, screen_matches. intros H. injection H as _ -> ->. trivial.
Qed.

Lemma handleTouch_screen_matches w :
  screen_matches w ->
  forall w', handleTouch w = Returned tt w' -> screen_matches w'.
Proof.
  intros Hs w' E.
  destruct (decide (controls w' = controls w)) as [Hc|Hc];
    [exact (screen_matches_controls w w' Hc Hs)|].
  pose proof (handleTouch_controls w) as H. rewrite E in H.
  destruct (H Hc) as (Hp & Hr & lp & Hl & Hin).
  revert E. unfold handleTouch.
  destruct (negb (count (touch (frame w)) =? 0)).
  2:{ cbn [lastPressedButton with_touchProcessed]. rewrite Hl.
      destruct (setPressed lp false _) as [b w2] eqn:Eb.
      pose proof (core_setPressed lp false (with_touchProcessed false w)) as Hk.
      rewrite Eb in Hk. cbn [snd] in Hk.
      intros E. injection E as <-.
      apply (screen_matches_controls w); [|exact Hs].
      apply shell_core, controls_shell in Hk. exact Hk. }
  rewrite Hp, Hl, Hr, Hin.
  destruct (touchProcessed w); cbn [andb]; [|intros E; injection E as <-; exact Hs].
  set (w1 := if _ || _ then _ else _).
  assert (H1 : screen_matches w1).
  { unfold w1. destruct (_ || _); [exact Hs|].
    destruct (_ || _); [|exact Hs].
    unfold screen_matches. cbn. reflexivity. }
  destruct (setPressed lp false w1) as [b w2] eqn:Eb.
  pose proof (core_setPressed lp false w1) as Hk.
  rewrite Eb in Hk. cbn [snd] in Hk.
  intros E. injection E as <-.
  apply (screen_matches_controls w1); [|exact H1].
  rewrite (controls_shell _ _ (shell_core _ _ (core_updateDisplay _))).
  apply shell_core, controls_shell in Hk. exact Hk.
Qed.

Lemma loop_screen_matches w w' :
  screen_matches w -> loop w = Returned tt w' -> screen_matches w'.
Proof.
  intros Hs. unfold loop, CoreS3_update.
  destruct (pending w) as [|f fs]; [discriminate|].
  pose proof (handleTouch_screen_matches (with_input f fs w) Hs) as Ht.
  destruct (handleTouch _) as [[] w1|w1|w1|w1]; cbn [bind]; try discriminate.
  intros E. injection E as <-.
  pose proof (fixed_sensor_half (millis (frame (with_input f fs w)))
                (readTemperature w1) w1) as Hf.
  apply fixed_eq in Hf as (_ & _ & _ & _ & Hc).
  exact (screen_matches_controls w1 _ Hc (Ht w1 eq_refl)).
Qed.

Lemma run_screen_matches n : forall w w',
  screen_matches w -> run n w = Returned tt w' -> screen_matches w'.
Proof.
  induction n as [|n IH]; intros w w' Hs; cbn [run].
  - intros E. injection E as <-. exact Hs.
  - pose proof (loop_screen_matches w) as Hl.
    destruct (loop w) as [[] w1|w1|w1|w1]; cbn [bind]; try discriminate.
    apply IH. apply Hl; [exact Hs|reflexivity].
Qed.

(** ** The status line *)

Lemma status_updateStatus m c w : status (updateStatus m c w) = (m, c).
Proof.
  unfold updateStatus, status.
  destruct (String.eqb_spec m (statusMessage (state w))) as [->|Hm];
    [|reflexivity].
  destruct (Z.eqb_spec c (statusColor (state w))) as [->|Hc]; reflexivity.
Qed.

Lemma updateStatus_same w :
  updateStatus (statusMessage (state w)) (statusColor (state w)) w = w.
Proof. unfold updateStatus. rewrite String.eqb_refl, Z.eqb_refl. reflexivity. Qed.

Lemma updateStatus_idempotent m c w :
  updateStatus m c (updateStatus m c w) = updateStatus m c w.
Proof.
  pose proof (status_updateStatus m c w) as H. unfold status in H.
  injection H as Hm Hc.
  pose proof (updateStatus_same (updateStatus m c w)) as H.
  rewrite Hm, Hc in H. exact H.
Qed.

Lemma status_playSound b w : status (playSound b w) = status w.
Proof. unfold playSound. destruct (negb _); reflexivity. Qed.

Lemma status_drawTemperature w : status (drawTemperature w) = status w.
Proof. unfold drawTemperature. destruct (isOpen _); reflexivity. Qed.

Lemma ingest_status ms temp w :
  status (ingest ms temp w)
  = if significant temp (currentTemp (state w)) && isMonitoring (state w)
    then verdict temp (settings w) else status w.
Proof.
  unfold ingest. destruct (significant _ _); [|reflexivity].
  cbn [andb]. set (w2 := with_state _ (with_state _ w)).
  change (isMonitoring (state w2)) with (isMonitoring (state w)).
  set (w3 := if isMonitoring (state w) then _ else w2).
  assert (H3 : status w3 = if isMonitoring (state w)
                           then verdict temp (settings w) else status w).
  { unfold w3, verdict. destruct (isMonitoring (state w)); [|reflexivity].
    change (settings w2) with (settings w).
    destruct (fgt _ _).
    - destruct (soundEnabled _);
        rewrite ?status_playSound, status_updateStatus; reflexivity.
    - apply status_updateStatus. }
  destruct (negb _); [rewrite status_drawTemperature|]; exact H3.
Qed.

(** ** The battery check *)

Lemma checkBattery_low w :
  battery_low w = true ->
  checkBattery w
  = if lowBatteryWarning (state w) then w
    else with_state
           (set_lowBatteryWarning true
              (state (updateStatus "Low Battery!"
                        Config.Display.COLOR_WARNING w)))
           (updateStatus "Low Battery!" Config.Display.COLOR_WARNING w).
Proof.
  unfold battery_low, checkBattery. intros ->.
  destruct (lowBatteryWarning _); reflexivity.
Qed.

Lemma world_eta w :
  mkWorld (settings w) (state w) (settingsMenu w) (preferences w)
    (lastPressedButton w) (touchProcessed w) (temperature w)
    (display_width w) (display_height w) (frame w) (pending w) (trace w)
  = w.
Proof. destruct w. reflexivity. Qed.

Lemma checkBattery_idempotent w : checkBattery (checkBattery w) = checkBattery w.
Proof.
  destruct (battery_low w) eqn:Eb.
  - rewrite (checkBattery_low w Eb).
    destruct (lowBatteryWarning (state w)) eqn:El.
    + rewrite (checkBattery_low w Eb), El. reflexivity.
    + set (w1 := with_state _ _).
      assert (Eb1 : battery_low w1 = true).
      { unfold battery_low, w1, updateStatus in *.
        destruct (_ || _); exact Eb. }
      rewrite (checkBattery_low w1 Eb1). reflexivity.
  - unfold checkBattery, battery_low in *. rewrite Eb.
    cbn [frame with_state]. rewrite Eb. reflexivity.
Qed.

(** ** The brightness row *)

Lemma select_brightness_any w :
  brightness (settings (select 2 w))
  = Z.rem (wrap_int (brightness (settings w) + 64)) 256.
Proof. reflexivity. Qed.

Lemma brightness_step b :
  -255 <= b <= 255 ->
  let b' := Z.rem (wrap_int (b + 64)) 256 in
  (b < -64 -> b' = b + 64) /\ (-64 <= b -> 0 <= b' <= 255).
Proof.
  intros Hb. cbn zeta. unfold wrap_int.
  rewrite (Z.mod_small (_ + 2 ^ 31)) by lia.
  replace (b + 64 + 2 ^ 31 - 2 ^ 31) with (b + 64) by lia.
  split; intros H.
  - rewrite <- (Z.opp_involutive (b + 64)), Z.rem_opp_l by lia.
    rewrite Z.rem_small by lia. lia.
  - rewrite Z.rem_mod_nonneg by lia.
    pose proof (Z.mod_pos_bound (b + 64) 256). lia.
Qed.

Lemma brightness_first b :
  - 2 ^ 31 <= b < 2 ^ 31 - 64 ->
  -255 <= Z.rem (wrap_int (b + 64)) 256 <= 255.
Proof.
  intros Hb. unfold wrap_int.
  rewrite (Z.mod_small (_ + 2 ^ 31)) by lia.
  replace (b + 64 + 2 ^ 31 - 2 ^ 31) with (b + 64) by lia.
  Z.quot_rem_to_equations. lia.
Qed.

Lemma brightness_stays (n : nat) : forall w,
  0 <= brightness (settings w) <= 255 ->
  0 <= brightness (settings (Nat.iter n (select 2) w)) <= 255.
Proof.
  induction n as [|n IH]; intros w Hb; [exact Hb|].
  rewrite Nat.iter_succ_r. apply IH.
  rewrite select_brightness_any.
  apply (brightness_step (brightness (settings w)) ltac:(lia)). lia.
Qed.

(** ** The temperature block and the unit *)

Lemma state_updateStatus_dep m c w w' :
  state w' = state w ->
  state (updateStatus m c w') = state (updateStatus m c w).
Proof.
  intros H. unfold updateStatus. rewrite H.
  destruct (_ || _); [reflexivity|exact H].
Qed.

Lemma settings_updateStatus m c w : settings (updateStatus m c w) = settings w.
Proof. unfold updateStatus. destruct (_ || _); reflexivity. Qed.

Lemma state_playSound b w : state (playSound b w) = state w.
Proof. unfold playSound. destruct (negb _); reflexivity. Qed.

Lemma temperature_playSound b w : temperature (playSound b w) = temperature w.
Proof. unfold playSound. destruct (negb _); reflexivity. Qed.

Lemma state_drawTemperature w : state (drawTemperature w) = state w.
Proof. unfold drawTemperature. destruct (isOpen _); reflexivity. Qed.

(** What the temperature block records depends on the settings only
    through the target, the tolerance and the sound switch. *)
Lemma ingest_state_dep ms temp w w' :
  state w' = state w ->
  targetTemp (settings w') = targetTemp (settings w) ->
  tempTolerance (settings w') = tempTolerance (settings w) ->
  state (ingest ms temp w') = state (ingest ms temp w)
  /\ (temperature w' = temperature w ->
      temperature (ingest ms temp w') = temperature (ingest ms temp w)).
Proof.
  intros Hs Ht Ho. unfold ingest. rewrite Hs.
  destruct (significant _ _); [|split; [exact Hs|trivial]].
  set (w2 := with_state _ (with_state _ w)).
  set (w2' := with_state _ (with_state _ w')).
  assert (H2 : state w2' = state w2) by reflexivity.
  set (w3 := if isMonitoring (state w2) then _ else w2).
  set (w3' := if isMonitoring (state w2') then _ else w2').
  assert (H3 : state w3' = state w3).
  { unfold w3, w3'. rewrite H2.
    destruct (isMonitoring _); [|exact H2].
    change (targetTemp (settings w2')) with (targetTemp (settings w')).
    change (tempTolerance (settings w2')) with (tempTolerance (settings w')).
    change (targetTemp (settings w2)) with (targetTemp (settings w)).
    change (tempTolerance (settings w2)) with (tempTolerance (settings w)).
    rewrite Ht, Ho.
    destruct (fgt _ _); [|apply state_updateStatus_dep, H2].
    destruct (soundEnabled (settings (updateStatus _ _ w2')));
      destruct (soundEnabled (settings (updateStatus _ _ w2)));
      rewrite ?state_playSound; apply state_updateStatus_dep, H2. }
  split.
  - destruct (negb (isOpen (settingsMenu (with_temperature _ w3'))));
      destruct (negb (isOpen (settingsMenu (with_temperature _ w3))));
      rewrite ?state_drawTemperature; exact H3.
  - intros _.
    destruct (negb (isOpen (settingsMenu (with_temperature _ w3'))));
      destruct (negb (isOpen (settingsMenu (with_temperature _ w3))));
      rewrite ?(core_temperature _ _ (core_drawTemperature _)); reflexivity.
Qed.

(** ** Steps of the emissivity modal make progress *)

Lemma flt_MAX_finite m :
  Zpos m < 16777216 -> flt (S754_finite false m (-24)) EMISSIVITY_MAX = true.
Proof. intros _. rewrite EMISSIVITY_MAX_eq. apply flt_finite. lia. Qed.

Lemma step_up_low m :
  10905190 <= Zpos m -> Zpos m + 167772 < 16777216 ->
  step_up (S754_finite false m (-24))
  = S754_finite false (m + 167772) (-24).
Proof.
  intros Hlo Hs. unfold step_up. rewrite add_step_low by lia.
  replace (fgt (S754_finite false (m + 167772) (-24)) EMISSIVITY_MAX)
    with false; [reflexivity|].
  symmetry. rewrite EMISSIVITY_MAX_eq, fgt_flt.
  destruct (flt (S754_finite false 8388608 (-23)) _) eqn:E; [|reflexivity].
  apply flt_finite in E. lia.
Qed.

Lemma step_up_high m :
  Zpos m < 16777216 -> 16777216 <= Zpos m + 167772 ->
  step_up (S754_finite false m (-24)) = EMISSIVITY_MAX.
Proof.
  intros Hm Hs. unfold step_up.
  destruct (add_step_high m Hm Hs) as (k & -> & Hk).
  destruct (fgt _ EMISSIVITY_MAX) eqn:E; [reflexivity|].
  rewrite EMISSIVITY_MAX_eq in *. rewrite fgt_flt in E.
  destruct (Z.eq_dec (Zpos k) 8388608) as [H|H]; [congruence|].
  assert (flt (S754_finite false 8388608 (-23)) (S754_finite false k (-23))
          = true) by (apply flt_finite; lia).
  congruence.
Qed.

Lemma reach_max (d : nat) : forall m,
  10905190 <= Zpos m < 16777216 ->
  16777216 - Zpos m <= Z.of_nat d * 167772 ->
  exists n, (1 <= n <= d)%nat
            /\ Nat.iter n press_up (S754_finite false m (-24))
               = EMISSIVITY_MAX.
Proof.
  induction d as [|d IH]; intros m Hm Hd; [lia|].
  destruct (Z_lt_le_dec (Zpos m + 167772) 16777216) as [Hs|Hs].
  - destruct (IH (m + 167772)%positive) as (n & Hn & Hr); [lia|lia|].
    exists (S n). split; [lia|]. rewrite Nat.iter_succ_r.
    unfold press_up at 2. rewrite flt_MAX_finite, step_up_low by lia.
    exact Hr.
  - exists 1%nat. split; [lia|]. cbn [Nat.iter nat_rect].
    unfold press_up. rewrite flt_MAX_finite by lia.
    apply step_up_high; lia.
Qed.

Lemma fgt_MIN_finite m :
  fgt (S754_finite false m (-24)) EMISSIVITY_MIN = (10905190 <? Zpos m).
Proof.
  rewrite EMISSIVITY_MIN_eq, fgt_flt.
  destruct (Z.ltb_spec 10905190 (Zpos m)) as [H|H].
  - apply flt_finite. lia.
  - destruct (flt _ _) eqn:E; [|reflexivity]. apply flt_finite in E. lia.
Qed.

Lemma step_down_finite m :
  10905190 < Zpos m < 16777216 ->
  (Zpos m - 167772 <= 10905190 ->
   step_down (S754_finite false m (-24)) = EMISSIVITY_MIN)
  /\ (10905190 < Zpos m - 167772 ->
      exists k, step_down (S754_finite false m (-24))
                = S754_finite false k (-24)
                /\ Zpos k = Zpos m - 167772).
Proof.
  intros Hm. unfold step_down. destruct (sub_step m Hm) as (k & -> & Hk).
  assert (Hf : flt (S754_finite false k (-24)) EMISSIVITY_MIN
               = (Zpos k <? 10905190)).
  { rewrite EMISSIVITY_MIN_eq.
    destruct (Z.ltb_spec (Zpos k) 10905190) as [H|H].
    - apply flt_finite. lia.
    - destruct (flt _ _) eqn:E; [|reflexivity]. apply flt_finite in E. lia. }
  rewrite Hf. split; intros H.
  - destruct (Z.ltb_spec (Zpos k) 10905190) as [H1|H1]; [reflexivity|].
    rewrite EMISSIVITY_MIN_eq. f_equal. lia.
  - destruct (Z.ltb_spec (Zpos k) 10905190) as [H1|H1]; [lia|].
    exists k. split; [reflexivity|exact Hk].
Qed.

Lemma reach_min (d : nat) : forall m,
  10905190 <= Zpos m < 16777216 ->
  Zpos m - 10905190 <= Z.of_nat d * 167772 ->
  exists n, (n <= d)%nat
            /\ Nat.iter n press_down (S754_finite false m (-24))
               = EMISSIVITY_MIN.
Proof.
  induction d as [|d IH]; intros m Hm Hd.
  - exists 0%nat. split; [lia|]. cbn [Nat.iter nat_rect].
    rewrite EMISSIVITY_MIN_eq. f_equal. lia.
  - destruct (Z.eq_dec (Zpos m) 10905190) as [He|Hne].
    { exists 0%nat. split; [lia|]. cbn [Nat.iter nat_rect].
      rewrite EMISSIVITY_MIN_eq. f_equal. lia. }
    destruct (step_down_finite m ltac:(lia)) as [Hlow Hhigh].
    assert (Hp : press_down (S754_finite false m (-24))
                 = step_down (S754_finite false m (-24))).
    { unfold press_down. rewrite fgt_MIN_finite.
      destruct (Z.ltb_spec 10905190 (Zpos m)); [reflexivity|lia]. }
    destruct (Z_le_gt_dec (Zpos m - 167772) 10905190) as [Hs|Hs].
    + exists 1%nat. split; [lia|]. cbn [Nat.iter nat_rect].
      rewrite Hp. apply Hlow, Hs.
    + destruct (Hhigh ltac:(lia)) as (k & Ek & Hk).
      destruct (IH k) as (n & Hn & Hr); [lia|lia|].
      exists (S n). split; [lia|]. rewrite Nat.iter_succ_r, Hp, Ek.
      exact Hr.
Qed.

(** Values of the band: its top, or one binade. *)
Lemma band_shape t :
  F32.valid t = true -> in_band t = true ->
  t = EMISSIVITY_MAX
  \/ exists m, t = S754_finite false m (-24)
               /\ 10905190 <= Zpos m < 16777216.
Proof.
  unfold in_band. rewrite EMISSIVITY_MIN_eq, EMISSIVITY_MAX_eq.
  intros Hv Hb. apply andb_true_iff in Hb as [Hlo Hhi].
  destruct t as [s|s| |s m e]; try discriminate;
    try (destruct s; discriminate).
  destruct s; [discriminate|].
  apply fle_finite in Hlo. apply fle_finite in Hhi.
  pose proof (valid_finite m e Hv ltac:(lia)) as Hm.
  destruct (Z.eq_dec e (-23)) as [->|He].
  - left. f_equal. lia.
  - right. exists m. assert (e = -24) as -> by lia. split; [reflexivity|lia].
Qed.

(** [press_up] and [press_down] are what the adjusting loop does to the
    staged value on a press inside the [+] and the [-] button. *)
Lemma adjust_loop_press f fs orig t l c w :
  count (touch f) <> 0 -> wasPressed (touch f) = true ->
  (contains upBtn (touch_x (touch f)) (touch_y (touch f)) = true ->
   exists l' c' w',
     adjust_loop (f :: fs) orig t l c w
     = adjust_loop fs orig (press_up t) l' c' w')
  /\ (contains upBtn (touch_x (touch f)) (touch_y (touch f)) = false ->
      contains downBtn (touch_x (touch f)) (touch_y (touch f)) = true ->
      exists l' c' w',
        adjust_loop (f :: fs) orig t l c w
        = adjust_loop fs orig (press_down t) l' c' w').
Proof.
  intros H0 Hp. cbn [adjust_loop]. cbn zeta.
  destruct (Z.eqb_spec (count (touch f)) 0) as [|_]; [contradiction|].
  rewrite Hp. cbn [negb andb].
  split.
  - intros ->. unfold press_up.
    destruct (flt t EMISSIVITY_MAX); eauto.
  - intros -> ->. unfold press_down.
    destruct (fgt t EMISSIVITY_MIN); eauto.
Qed.

(** ** Sound off means silence *)

Lemma playSound_muted b w : muted w -> playSound b w = w.
Proof. unfold muted, playSound. intros ->. reflexivity. Qed.

Lemma tones_draw b c w : tones (draw b c w) = tones w.
Proof. unfold draw. destruct (pressed b); reflexivity. Qed.

Lemma tones_setPressed b p w :
  muted w -> tones (snd (setPressed b p w)) = tones w.
Proof.
  intros Hm. unfold setPressed. destruct (negb _); [|reflexivity].
  cbn [snd]. rewrite tones_draw. rewrite Hm, andb_false_r. reflexivity.
Qed.

Lemma tones_updateStatus m c w : tones (updateStatus m c w) = tones w.
Proof. unfold updateStatus. destruct (_ || _); reflexivity. Qed.

Lemma tones_drawTemperature w : tones (drawTemperature w) = tones w.
Proof. unfold drawTemperature. destruct (isOpen _); reflexivity. Qed.

Lemma tones_drawFooter w : tones (drawFooter w) = tones w.
Proof.
  unfold drawFooter. rewrite tones_draw.
  destruct (negb _); [rewrite tones_draw|]; reflexivity.
Qed.

Lemma tones_updateDisplay w : tones (updateDisplay w) = tones w.
Proof.
  unfold updateDisplay, drawHeader, drawSettingsMenu, drawMainDisplay.
  destruct (isOpen _).
  - change (tones (emit SettingsMenuDrawn ?w)) with (tones w).
    rewrite tones_drawFooter. reflexivity.
  - rewrite tones_drawTemperature.
    change (tones (emit MainDisplayDrawn ?w)) with (tones w).
    rewrite tones_drawFooter. reflexivity.
Qed.

Lemma adjust_loop_muted frames : forall orig t l c w,
  muted w ->
  tones (final_world (adjust_loop frames orig t l c w)) = tones w.
Proof.
  induction frames as [|f fs IH]; intros orig t l c w Hm; cbn [adjust_loop];
    cbn zeta.
  - destruct (fne t l); reflexivity.
  - set (w0 := if fne t l then emit (ModalValueDrawn t) w else w).
    assert (H0 : muted (with_input f fs w0) /\ tones (with_input f fs w0) = tones w)
      by (unfold w0; destruct (fne t l); split; first [exact Hm|reflexivity]).
    destruct H0 as [Hm0 Ht0].
    repeat match goal with
           | |- context [playSound ?b (with_input f fs w0)] =>
               rewrite (playSound_muted b (with_input f fs w0) Hm0)
           end.
    repeat case_match; cbn [final_world]; rewrite ?IH by exact Hm0;
      exact Ht0.
Qed.

Lemma confirm_loop_muted frames : forall t w,
  muted w -> tones (final_world (confirm_loop frames t w)) = tones w.
Proof.
  induction frames as [|f fs IH]; intros t w Hm; cbn [confirm_loop];
    cbn zeta; [reflexivity|].
  assert (Hm0 : muted (with_input f fs w)) by exact Hm.
  rewrite (playSound_muted true (with_input f fs w) Hm0).
  destruct (_ && _); [|rewrite IH by exact Hm0; reflexivity].
  destruct (contains confirmBtn _ _).
  - cbn [final_world]. rewrite playSound_muted; [reflexivity|exact Hm].
  - destruct (contains cancelBtn _ _); [reflexivity|].
    rewrite IH by exact Hm0. reflexivity.
Qed.

Lemma muted_core w w' : core w' = core w -> muted w -> muted w'.
Proof.
  intros H Hm. apply core_eq in H as (Hs & _). unfold muted. rewrite Hs.
  exact Hm.
Qed.

Lemma adjustEmissivity_muted w :
  muted w -> tones (final_world (adjustEmissivity w)) = tones w.
Proof.
  intros Hm. unfold adjustEmissivity.
  set (w0 := draw doneBtn _ (draw downBtn _ (draw upBtn _ (emit _ w)))).
  assert (H0 : muted w0 /\ tones w0 = tones w).
  { unfold w0. rewrite !tones_draw. split; [|reflexivity].
    apply (muted_core w); [|exact Hm].
    rewrite !core_draw. reflexivity. }
  destruct H0 as [Hm0 Ht0].
  pose proof (adjust_loop_muted (pending w0) (emissivity (settings w))
                (clamp_emissivity (emissivity (settings w))) (F32.of_Z (-1))
                false w0 Hm0) as Ha.
  pose proof (adjust_loop_core (pending w0) (emissivity (settings w))
                (clamp_emissivity (emissivity (settings w))) (F32.of_Z (-1))
                false w0) as Hc.
  destruct (adjust_loop _ _ _ _ _ w0) as [[te ch] w1|w1|w1|w1];
    cbn [bind final_world fst snd] in *;
    try (rewrite Ha; exact Ht0).
  assert (Hm1 : muted w1) by exact (muted_core w0 w1 Hc Hm0).
  assert (Hk : forall w2, tones w2 = tones w ->
            tones (updateDisplay (drawTemperature (drawMainDisplay w2)))
            = tones w).
  { intros w2 H2. rewrite tones_updateDisplay, tones_drawTemperature.
    exact H2. }
  destruct ch; cbn [bind].
  - set (w2 := draw cancelBtn _ (draw confirmBtn _ (emit _ w1))).
    assert (H2 : muted w2 /\ tones w2 = tones w).
    { unfold w2. rewrite !tones_draw. split; [|rewrite <- Ht0, <- Ha; reflexivity].
      apply (muted_core w1); [|exact Hm1]. rewrite !core_draw. reflexivity. }
    destruct H2 as [Hm2 Ht2].
    pose proof (confirm_loop_muted (pending w2) te w2 Hm2) as Hcf.
    destruct (confirm_loop _ te w2) as [[] w3|w3|w3|w3]; cbn [bind final_world] in *;
      try (rewrite Hcf; exact Ht2).
    apply Hk. rewrite Hcf. exact Ht2.
  - apply Hk. rewrite Ha. exact Ht0.
Qed.

Lemma handleItemSelection_muted item w :
  muted w ->
  let w' := final_world (handleItemSelection item w) in
  muted w' -> tones w' = tones w.
Proof.
  intros Hm. cbn zeta.
  destruct (Z_lt_le_dec item 0) as [Hlo|Hlo];
    [rewrite handleItemSelection_default by lia; reflexivity|].
  destruct (Z_lt_le_dec 5 item) as [Hhi|Hhi];
    [rewrite handleItemSelection_default by lia; reflexivity|].
  assert (Hi : item = 0 \/ item = 1 \/ item = 2 \/ item = 3 \/ item = 4
               \/ item = 5) by lia.
  destruct Hi as [->|[->|[->|[->|[->| ->]]]]]; cbn [handleItemSelection];
    try reflexivity.
  - cbn [final_world settings with_settings soundEnabled set_soundEnabled].
    rewrite Hm. cbn [negb]. unfold muted, playSound. cbn. discriminate.
  - intros _. apply adjustEmissivity_muted, Hm.
Qed.

Lemma handleSettingsTouch_muted tx ty w :
  ty <= display_height w - Config.Display.FOOTER_HEIGHT ->
  muted w ->
  let w' := final_world (handleSettingsTouch tx ty w) in
  muted w' -> tones w' = tones w.
Proof.
  intros Hy Hm. cbn zeta. rewrite (handleSettingsTouch_outcome tx ty w Hy).
  destruct (inMenu tx ty w); [|reflexivity].
  destruct (itemHeight w =? 0); [reflexivity|].
  destruct (_ && _); [|reflexivity].
  set (w1 := with_settingsMenu _ w).
  pose proof (handleItemSelection_muted (touchedItem ty w) w1 Hm) as H.
  cbn zeta in H.
  destruct (handleItemSelection _ w1) as [[] w2|w2|w2|w2];
    cbn [bind final_world] in *; try exact H.
  destruct (after_item_frame w2) as (_ & Hs & _). cbn zeta in Hs.
  unfold muted at 1. rewrite Hs. intros Hm2.
  change (soundEnabled (settings (save w2))) with (soundEnabled (settings w2)).
  rewrite Hm2. exact (H Hm2).
Qed.

Lemma handleTouch_muted w :
  muted w ->
  let w' := final_world (handleTouch w) in
  muted w' -> tones w' = tones w.
Proof.
  intros Hm. cbn zeta. unfold handleTouch.
  destruct (negb (count (touch (frame w)) =? 0)).
  - destruct (wasPressed (touch (frame w)) && negb (touchProcessed w)).
    + set (w1 := with_touchProcessed true w).
      assert (Hm1 : muted w1) by exact Hm.
      destruct (footerY w1 <=? touch_y (touch (frame w))) eqn:Ef.
      * destruct (negb (isOpen (settingsMenu w1)) && _ && _).
        -- destruct (setPressed (monitorBtn w1) true w1) as [b w2] eqn:E.
           pose proof (tones_setPressed (monitorBtn w1) true w1 Hm1) as Ht.
           rewrite E in Ht. intros _. exact Ht.
        -- destruct ((display_width w1 - _ - _ <=? _) && _); [|reflexivity].
           destruct (setPressed (settingsBtn w1) true w1) as [b w2] eqn:E.
           pose proof (tones_setPressed (settingsBtn w1) true w1 Hm1) as Ht.
           rewrite E in Ht. intros _. exact Ht.
      * destruct (isOpen (settingsMenu w1)); [|reflexivity].
        apply Z.leb_gt in Ef. unfold footerY in Ef.
        apply (handleSettingsTouch_muted _ _ w1); [lia|exact Hm1].
    + destruct (lastPressedButton w) as [lp|]; [|reflexivity].
      destruct (wasReleased (touch (frame w)) && touchProcessed w);
        [|reflexivity].
      set (w1 := if contains lp _ _ then _ else _).
      assert (H1 : muted w1 /\ tones w1 = tones w)
        by (unfold w1; repeat case_match; split; first [exact Hm|reflexivity]).
      destruct H1 as [Hm1 Ht1].
      destruct (setPressed lp false w1) as [b w2] eqn:E.
      pose proof (tones_setPressed lp false w1 Hm1) as Ht.
      rewrite E in Ht. cbn [snd] in Ht. intros _. cbn [final_world].
      rewrite tones_updateDisplay.
      change (tones (with_lastPressedButton None w2)) with (tones w2).
      rewrite Ht. exact Ht1.
  - cbn [lastPressedButton with_touchProcessed].
    destruct (lastPressedButton w) as [lp|]; [|reflexivity].
    destruct (setPressed lp false _) as [b w2] eqn:E.
    pose proof (tones_setPressed lp false (with_touchProcessed false w) Hm)
      as Ht.
    rewrite E in Ht. intros _. exact Ht.
Qed.

Lemma sensor_half_muted ms temp w :
  muted w ->
  tones (battery_update ms (ingest ms temp (serial_update ms temp w)))
  = tones w.
Proof.
  intros Hm.
  assert (Hb : forall w1, tones (battery_update ms w1) = tones w1).
  { intros w1. unfold battery_update, checkBattery.
    destruct (_ <=? _); [|reflexivity].
    destruct (_ && _); [|reflexivity].
    destruct (negb _); [|reflexivity].
    change (tones (with_state ?s ?w)) with (tones w).
    change (tones (with_state ?s ?w)) with (tones w).
    apply tones_updateStatus. }
  assert (Hi : forall w1, muted w1 -> tones (ingest ms temp w1) = tones w1).
  { intros w1 Hm1. unfold ingest. destruct (significant _ _); [|reflexivity].
    set (w2 := with_state _ (with_state _ w1)).
    set (w3 := if isMonitoring (state w2) then _ else w2).
    assert (H3 : tones w3 = tones w1).
    { unfold w3. destruct (isMonitoring _); [|reflexivity].
      destruct (fgt _ _); [|rewrite tones_updateStatus; reflexivity].
      rewrite settings_updateStatus.
      change (soundEnabled (settings w2)) with (soundEnabled (settings w1)).
      rewrite Hm1, tones_updateStatus. reflexivity. }
    destruct (negb _); [|exact H3].
    rewrite tones_drawTemperature. exact H3. }
  rewrite Hb, Hi.
  - unfold serial_update. destruct (_ <=? _); reflexivity.
  - unfold serial_update. destruct (_ <=? _); exact Hm.
Qed.

(** ** The armed button *)

Lemma armed_ok_same w w' :
  lastPressedButton w' = lastPressedButton w ->
  touchProcessed w' = touchProcessed w -> armed_ok w -> armed_ok w'.
Proof. unfold armed_ok. intros -> ->. trivial. Qed.

Lemma handleTouch_armed_ok w :
  armed_ok w -> forall w', handleTouch w = Returned tt w' -> armed_ok w'.
Proof.
  intros Ha w'. unfold handleTouch.
  destruct (negb (count (touch (frame w)) =? 0)).
  - destruct (wasPressed (touch (frame w)) && negb (touchProcessed w)).
    + set (w1 := with_touchProcessed true w).
      assert (Ha1 : armed_ok w1).
      { unfold armed_ok in *. cbn [w1 lastPressedButton with_touchProcessed
                                     touchProcessed].
        destruct (lastPressedButton w); [|exact I].
        split; [reflexivity|apply Ha]. }
      destruct (footerY w1 <=? touch_y (touch (frame w))) eqn:Ef.
      * destruct (negb (isOpen (settingsMenu w1)) && _ && _).
        -- destruct (setPressed (monitorBtn w1) true w1) as [b w2] eqn:E.
           assert (Hb : b = set_pressed true (monitorBtn w))
             by (change b with (fst (b, w2)); rewrite <- E; reflexivity).
           pose proof (core_setPressed (monitorBtn w1) true w1) as Hc.
           rewrite E in Hc. cbn [snd] in Hc.
           apply core_eq in Hc as (_ & _ & _ & _ & _ & Htp & _).
           intros Er. injection Er as <-. unfold armed_ok.
           cbn [lastPressedButton with_lastPressedButton touchProcessed].
           rewrite Htp, Hb. split; [reflexivity|]. split; [reflexivity|].
           unfold footer_label. cbn.
           destruct (isMonitoring (state w)); auto.
        -- destruct ((display_width w1 - _ - _ <=? _) && _).
           ++ destruct (setPressed (settingsBtn w1) true w1) as [b w2] eqn:E.
              assert (Hb : b = set_pressed true (settingsBtn w))
                by (change b with (fst (b, w2)); rewrite <- E; reflexivity).
              pose proof (core_setPressed (settingsBtn w1) true w1) as Hc.
              rewrite E in Hc. cbn [snd] in Hc.
              apply core_eq in Hc as (_ & _ & _ & _ & _ & Htp & _).
              intros Er. injection Er as <-. unfold armed_ok.
              cbn [lastPressedButton with_lastPressedButton touchProcessed].
              rewrite Htp, Hb. split; [reflexivity|]. split; [reflexivity|].
              unfold footer_label. cbn.
              destruct (isOpen (settingsMenu w)); auto.
           ++ intros Er. injection Er as <-. exact Ha1.
      * destruct (isOpen (settingsMenu w1)).
        -- apply Z.leb_gt in Ef. unfold footerY in Ef.
           pose proof (handleSettingsTouch_above_footer
                         (touch_x (touch (frame w))) (touch_y (touch (frame w)))
                         w1 ltac:(lia)) as H.
           cbn zeta in H. intros Er. rewrite Er in H.
           cbn [final_world] in H. destruct H as (_ & _ & Hl & Ht).
           exact (armed_ok_same w1 w' Hl Ht Ha1).
        -- intros Er. injection Er as <-. exact Ha1.
    + destruct (lastPressedButton w) as [lp|] eqn:El;
        [|intros Er; injection Er as <-; exact Ha].
      destruct (wasReleased (touch (frame w)) && touchProcessed w);
        [|intros Er; injection Er as <-; exact Ha].
      destruct (setPressed lp false _) as [b w2] eqn:E.
      intros Er. injection Er as <-.
      pose proof (core_updateDisplay (with_lastPressedButton None w2)) as Hu.
      apply core_eq in Hu as (_ & _ & _ & _ & Hl & _).
      unfold armed_ok. rewrite Hl. exact I.
  - cbn [lastPressedButton with_touchProcessed].
    destruct (lastPressedButton w) as [lp|] eqn:El.
    + destruct (setPressed lp false _) as [b w2] eqn:E.
      intros Er. injection Er as <-. exact I.
    + intros Er. injection Er as <-. unfold armed_ok. cbn. rewrite El. exact I.
Qed.

Lemma loop_armed_ok w w' :
  armed_ok w -> loop w = Returned tt w' -> armed_ok w'.
Proof.
  intros Ha. unfold loop, CoreS3_update.
  destruct (pending w) as [|f fs]; [discriminate|].
  pose proof (handleTouch_armed_ok (with_input f fs w) Ha) as Ht.
  destruct (handleTouch _) as [[] w1|w1|w1|w1]; cbn [bind]; try discriminate.
  intros E. injection E as <-.
  pose proof (fixed_sensor_half (millis (frame (with_input f fs w)))
                (readTemperature w1) w1) as Hf.
  apply fixed_eq in Hf as (_ & _ & Hl & Htp & _).
  exact (armed_ok_same w1 _ Hl Htp (Ht w1 eq_refl)).
Qed.

Lemma run_armed_ok n : forall w w',
  armed_ok w -> run n w = Returned tt w' -> armed_ok w'.
Proof.
  induction n as [|n IH]; intros w w' Ha; cbn [run].
  - intros E. injection E as <-. exact Ha.
  - pose proof (loop_armed_ok w) as Hl.
    destruct (loop w) as [[] w1|w1|w1|w1]; cbn [bind]; try discriminate.
    apply IH. apply Hl; [exact Ha|reflexivity].
Qed.

(** * Further properties *)

(** ** The settings store *)

(** X1: what [save] writes, [load] reads back: loading after a save gives
    the settings that were saved, whatever the store held before; a save
    leaves every key but its six as it was; and on a store that holds none
    of the six keys [load] gives the factory defaults. *)
Theorem X1_save_load_round_trip (w : World) :
  settings (load (save w)) = settings w
  /\ (forall k, k ∉ setting_keys ->
        preferences (save w) !! k = preferences w !! k)
  /\ ((forall k, k ∈ setting_keys -> preferences w !! k = None) ->
      settings (load w) = default_settings).
Proof.
  split; [apply load_save|]. split; [intros k; apply save_other_keys|].
  intros H. unfold load, getBool, getInt, getFloat.
  cbn [settings with_settings].
  rewrite !H by (unfold setting_keys; set_solver). reflexivity.
Qed.

(** X2: from power-on the store always holds the settings: after any
    number of passes of [loop], at the restart the emissivity modal ends
    in, and where the recorded input ends, loading the store gives exactly
    the current settings, so a power cut between passes loses no
    adjustment; and no pass faults. *)
Theorem X2_settings_always_persisted (n : nat) (p : gmap string PrefValue)
    (fs : list Frame) :
  match run n (boot p fs) with
  | Returned _ w | Restarted w | Starved w => settings (load w) = settings w
  | Fault _ => False
  end.
Proof.
  pose proof (run_persisted n (boot p fs) (persisted_boot p fs)) as H.
  pose proof (run_no_fault n (boot p fs)) as Hf.
  destruct (run n (boot p fs)) as [[] w|w|w|w]; try exact H.
  apply (Hf w); [|reflexivity].
  change (display_height (boot p fs)) with 240. lia.
Qed.

(** ** The control loop *)

(** X3: the only division by a computed value, the row height of the
    settings menu, is never a division by zero unless the display is 90 to
    95 pixels high: on any other display no number of passes of [loop]
    faults.  On a display of such a height every press inside the menu
    area divides by zero. *)
Theorem X3_row_height_division (w : World) :
  (~ 90 <= display_height w <= 95 ->
   forall n wf, run n w <> Fault wf)
  /\ (90 <= display_height w <= 95 ->
      forall tx ty, inMenu tx ty w = true ->
        handleSettingsTouch tx ty w = Fault w).
Proof.
  split.
  - intros Hh n wf. apply run_no_fault, Hh.
  - intros Hh tx ty Hin.
    assert (Hy : ty <= display_height w - Config.Display.FOOTER_HEIGHT).
    { revert Hin. unfold inMenu, menuY, menuHeight, Config.Display.HEADER_HEIGHT,
        Config.Display.FOOTER_HEIGHT, Config.Display.MARGIN.
      rewrite !andb_true_iff, !Z.leb_le. lia. }
    rewrite (handleSettingsTouch_outcome tx ty w Hy), Hin.
    replace (itemHeight w =? 0) with true; [reflexivity|].
    symmetry. apply Z.eqb_eq, itemHeight_zero. lia.
Qed.

(** X4: once a sample has been recorded the cloud property is always the
    Fahrenheit value of [currentTemp]: from a device whose [currentTemp] is
    still zero, or whose cloud property was already in step, it holds after
    every pass of [loop] that returns. *)
Theorem X4_telemetry_follows_sample (n : nat) (w w' : World) :
  telemetry_in_step w \/ feq (currentTemp (state w)) (F32.of_Z 0) = true ->
  run (S n) w = Returned tt w' ->
  temperature w' = fahrenheit (currentTemp (state w')).
Proof.
  intros H. cbn [run].
  pose proof (loop_telemetry w) as Hl.
  destruct (loop w) as [[] w1|w1|w1|w1]; cbn [bind]; try discriminate.
  intros E. exact (run_telemetry n w1 w' (Hl w1 H eq_refl) E).
Qed.

Lemma X4_telemetry_follows_sample_witness :
  (let w := boot ∅ [frame_at 10 no_touch 2500; frame_at 20 no_touch 2510] in
   (telemetry_in_step w \/ feq (currentTemp (state w)) (F32.of_Z 0) = true)
   /\ run 2 w = Returned tt (final_world (run 2 w)))
  /\ temperature
       (final_world
          (run 2 (boot ∅ [frame_at 10 no_touch 2500;
                          frame_at 20 no_touch 2510])))
     = F32.of_Z 77.
Proof.
  assert (H : let w := boot ∅ [frame_at 10 no_touch 2500;
                               frame_at 20 no_touch 2510] in
              (telemetry_in_step w
               \/ feq (currentTemp (state w)) (F32.of_Z 0) = true)
              /\ run 2 w = Returned tt (final_world (run 2 w)))
    by (split; [right|]; vm_compute; reflexivity).
  split; [exact H|].
  destruct H as (H0 & E).
  rewrite (X4_telemetry_follows_sample 1 _ _ H0 E).
  vm_compute. reflexivity.
Defined.

(** X5: both timers of [loop] survive the roll-over of [millis()]: when
    [d] milliseconds have passed since the last report (the 32-bit clock
    having possibly wrapped in between), the serial report is made exactly
    when [d] is at least 2000 and the battery check exactly when [d] is at
    least 5000, and each then restarts its timer from the current time. *)
Theorem X5_timers_survive_rollover (w : World) (d : Z) (temp : spec_float) :
  0 <= lastSerialUpdate (state w) < 2 ^ 32 ->
  0 <= lastBatteryCheck (state w) < 2 ^ 32 ->
  0 <= d < 2 ^ 32 ->
  serial_update (wrap_ulong (lastSerialUpdate (state w) + d)) temp w
  = (if 2000 <=? d
     then with_state
            (set_lastSerialUpdate (wrap_ulong (lastSerialUpdate (state w) + d))
               (state w))
            (emit (SerialReport temp) w)
     else w)
  /\ battery_update (wrap_ulong (lastBatteryCheck (state w) + d)) w
     = (if 5000 <=? d
        then with_state
               (set_lastBatteryCheck
                  (wrap_ulong (lastBatteryCheck (state w) + d))
                  (state (checkBattery w)))
               (checkBattery w)
        else w).
Proof.
  intros Hs Hb Hd. unfold serial_update, battery_update.
  rewrite !wrap_ulong_elapsed by assumption.
  split; reflexivity.
Qed.

Lemma X5_timers_survive_rollover_witness :
  (let w := with_state (set_lastSerialUpdate 4294966296 (state (boot ∅ [])))
              (boot ∅ []) in
   0 <= lastSerialUpdate (state w) < 2 ^ 32
   /\ 0 <= lastBatteryCheck (state w) < 2 ^ 32
   /\ 0 <= 2000 < 2 ^ 32)
  /\ lastSerialUpdate
       (state
          (serial_update (wrap_ulong (4294966296 + 2000)) (F32.of_Z 25)
             (with_state
                (set_lastSerialUpdate 4294966296 (state (boot ∅ [])))
                (boot ∅ []))))
     = 1000.
Proof.
  assert (H : let w := with_state
                         (set_lastSerialUpdate 4294966296 (state (boot ∅ [])))
                         (boot ∅ []) in
              0 <= lastSerialUpdate (state w) < 2 ^ 32
              /\ 0 <= lastBatteryCheck (state w) < 2 ^ 32
              /\ 0 <= 2000 < 2 ^ 32)
    by (vm_compute; repeat split; discriminate).
  split; [exact H|].
  destruct H as (Hs & Hb & Hd).
  pose proof (X5_timers_survive_rollover _ 2000 (F32.of_Z 25) Hs Hb Hd)
    as [P _].
  cbn [lastSerialUpdate state with_state set_lastSerialUpdate] in P.
  rewrite P. reflexivity.
Defined.

(** X15: the status line after a sample.  When the sample is significant
    and monitoring is on, the status becomes the monitor's verdict on it,
    whatever it was before: the warning when the sample is further from
    the target than the tolerance, "Monitoring" otherwise.  In every other
    case the temperature block leaves the status as it was.  Asking for
    the status already shown draws nothing. *)
Theorem X15_status_after_sample (ms : Z) (temp : spec_float) (w : World) :
  status (ingest ms temp w)
  = (if significant temp (currentTemp (state w)) && isMonitoring (state w)
     then
       if fgt (fabs (F32.sub temp (targetTemp (settings w))))
            (tempTolerance (settings w))
       then ("Temperature Out of Range!", Config.Display.COLOR_WARNING)
       else ("Monitoring", Config.Display.COLOR_SUCCESS)
     else status w)
  /\ (forall m c, updateStatus m c (updateStatus m c w) = updateStatus m c w)
  /\ updateStatus (statusMessage (state w)) (statusColor (state w)) w = w.
Proof.
  split; [apply ingest_status|].
  split; [intros m c; apply updateStatus_idempotent|apply updateStatus_same].
Qed.

(** X16: the low-battery warning is raised once.  With the battery at 10
    percent or less and not charging, [checkBattery] sets the warning
    flag, and puts "Low Battery!" on the status line only if the flag was
    clear; with the flag set it changes nothing.  Otherwise it clears the
    flag and leaves the status line as it is.  A second check on the same
    readings changes nothing. *)
Theorem X16_low_battery_latch (w : World) :
  lowBatteryWarning (state (checkBattery w)) = battery_low w
  /\ status (checkBattery w)
     = (if battery_low w && negb (lowBatteryWarning (state w))
        then ("Low Battery!", Config.Display.COLOR_WARNING) else status w)
  /\ (battery_low w = true -> lowBatteryWarning (state w) = true ->
      checkBattery w = w)
  /\ checkBattery (checkBattery w) = checkBattery w.
Proof.
  split; [|split; [|split]].
  - unfold checkBattery, battery_low.
    destruct (_ && _); [|reflexivity].
    destruct (lowBatteryWarning (state w)) eqn:E; [exact E|reflexivity].
  - unfold checkBattery, battery_low.
    destruct (_ && _); [|reflexivity].
    destruct (lowBatteryWarning (state w)); [reflexivity|].
    cbn [negb andb].
    pose proof (status_updateStatus "Low Battery!"
                  Config.Display.COLOR_WARNING w) as H.
    unfold status in *. cbn. exact H.
  - intros Hb Hl. rewrite (checkBattery_low w Hb), Hl. reflexivity.
  - apply checkBattery_idempotent.
Qed.

(** X17: switching the unit converts nothing.  The unit row changes
    [useCelsius] alone: the target and the tolerance keep their numbers.
    The temperature block of [loop] compares the Celsius sample with
    those numbers whatever the unit: what it records, the status it sets
    and the value it publishes do not depend on [useCelsius]. *)
Theorem X17_unit_converts_nothing (w : World) (b : bool) (ms : Z)
    (temp : spec_float) :
  settings (select 0 w) = set_useCelsius (negb (useCelsius (settings w)))
                            (settings w)
  /\ targetTemp (settings (select 0 w)) = targetTemp (settings w)
  /\ tempTolerance (settings (select 0 w)) = tempTolerance (settings w)
  /\ (let w' := with_settings (set_useCelsius b (settings w)) w in
      state (ingest ms temp w') = state (ingest ms temp w)
      /\ temperature (ingest ms temp w') = temperature (ingest ms temp w)).
Proof.
  split; [reflexivity|]. split; [reflexivity|]. split; [reflexivity|].
  cbn zeta.
  destruct (ingest_state_dep ms temp w
              (with_settings (set_useCelsius b (settings w)) w))
    as [Hs Ht]; try reflexivity.
  split; [exact Hs|apply Ht; reflexivity].
Qed.

(** X20: sound off means silence.  A pass of [loop] that starts and ends
    with the sound switch off sounds no tone, whatever it does in between:
    arming and releasing buttons, menu rows, the whole of the emissivity
    modal, an out-of-range alert. *)
Theorem X20_muted_is_silent (w : World) :
  soundEnabled (settings w) = false ->
  soundEnabled (settings (final_world (loop w))) = false ->
  tones (final_world (loop w)) = tones w.
Proof.
  intros Hm. unfold loop, CoreS3_update.
  destruct (pending w) as [|f fs]; [reflexivity|].
  pose proof (handleTouch_muted (with_input f fs w) Hm) as Ht.
  cbn zeta in Ht.
  destruct (handleTouch _) as [[] w1|w1|w1|w1]; cbn [bind final_world] in *;
    try exact Ht.
  pose proof (fixed_sensor_half (millis (frame (with_input f fs w)))
                (readTemperature w1) w1) as Hf.
  apply fixed_eq in Hf as (Hs & _). rewrite Hs. intros Hm1.
  rewrite sensor_half_muted by exact Hm1. exact (Ht Hm1).
Qed.

Lemma X20_muted_is_silent_witness :
  (soundEnabled (settings muted_world) = false
   /\ soundEnabled (settings (final_world (loop muted_world))) = false)
  /\ tones (final_world (loop muted_world)) = [].
Proof.
  assert (H : soundEnabled (settings muted_world) = false
              /\ soundEnabled (settings (final_world (loop muted_world)))
                 = false)
    by (vm_compute; split; reflexivity).
  split; [exact H|].
  destruct H as (H0 & H1).
  rewrite (X20_muted_is_silent muted_world H0 H1). reflexivity.
Defined.

(** ** The sensor *)

(** X7: [isValidTemperature] on the sensor's raw scale.  For every reading
    that fits sixteen bits the test holds exactly when the reading lies
    strictly between -2000 and 20000 hundredths of a degree: the two bounds
    themselves are rejected.  A reading that is not a number, or infinite,
    is rejected. *)
Theorem X7_valid_reading_band (r : Z) :
  -32768 <= r <= 32767 ->
  isValidTemperature (F32.of_Z r) = (-2000 <? r) && (r <? 20000)
  /\ isValidTemperature S754_nan = false
  /\ (forall s, isValidTemperature (S754_infinity s) = false).
Proof.
  intros Hr. split; [apply valid_raw, Hr|].
  split; [reflexivity|]. intros []; reflexivity.
Qed.

Lemma X7_valid_reading_band_witness :
  -32768 <= -2000 <= 32767
  /\ isValidTemperature (F32.of_Z (-2000)) = false.
Proof.
  assert (H : -32768 <= -2000 <= 32767) by lia.
  split; [exact H|].
  exact (proj1 (X7_valid_reading_band (-2000) H)).
Defined.

(** X8: [readTemperature] on sixteen-bit readings.  The Celsius value is
    always a number; it is zero exactly for the reading 0, so that the
    start-up test [state.currentTemp == 0] of [loop] holds only while no
    sample or a sample of exactly zero is recorded; it is below
    [MIN_TEMP_C] exactly for readings below -2000, and never above
    [MAX_TEMP_C]. *)
Theorem X8_celsius_of_reading (w : World) (r : Z) :
  -32768 <= r <= 32767 ->
  tempValue (frame w) = F32.of_Z r ->
  let t := readTemperature w in
  F32.valid t = true /\ is_nan t = false
  /\ feq t (F32.of_Z 0) = (r =? 0)
  /\ flt t Config.Temperature.MIN_TEMP_C = (r <? -2000)
  /\ fgt t Config.Temperature.MAX_TEMP_C = false.
Proof.
  intros Hr Hf. cbn zeta. unfold readTemperature. rewrite Hf.
  destruct (celsius_of_raw_band r Hr) as (H1 & H2 & H3 & H4 & H5).
  repeat split; assumption.
Qed.

Lemma X8_celsius_of_reading_witness :
  (-32768 <= -2001 <= 32767
   /\ tempValue (frame (at_frame (frame_at 10 no_touch (-2001)) (boot ∅ [])))
      = F32.of_Z (-2001))
  /\ flt (readTemperature
            (at_frame (frame_at 10 no_touch (-2001)) (boot ∅ [])))
       Config.Temperature.MIN_TEMP_C
     = true.
Proof.
  assert (H : -32768 <= -2001 <= 32767
              /\ tempValue
                   (frame (at_frame (frame_at 10 no_touch (-2001)) (boot ∅ [])))
                 = F32.of_Z (-2001))
    by (split; [lia|reflexivity]).
  split; [exact H|].
  destruct H as (Hr & Hf).
  pose proof (X8_celsius_of_reading _ (-2001) Hr Hf) as (_ & _ & _ & P & _).
  exact P.
Defined.

(** X9: the readings loop of [setup].  It ends with a count between 0 and
    3, and with 3 exactly when three readings in a row among the first ten
    were valid: an invalid reading sets the count back to zero. *)
Theorem X9_three_readings_in_a_row (g : nat -> spec_float) :
  0 <= count_readings g 10 0 0 <= 3
  /\ (count_readings g 10 0 0 = 3 <-> three_in_a_row g).
Proof.
  destruct (count_readings_decide g) as (_ & Hhi & Hlo).
  apply Z.leb_le in Hhi, Hlo. split; [lia|].
  rewrite <- count_readings_three. unfold requiredValidReadings.
  rewrite Z.leb_le. lia.
Qed.

(** X10: the connection loop of [setup].  The sensor is initialised
    exactly when one of the five attempts succeeds: [ncir2.begin] answers
    and three readings in a row are valid.  [retryCount] is then the index
    of the first such attempt, and when all five fail [retryCount] ends
    at 5. *)
Theorem X10_sensor_init (sensor : nat -> Attempt) :
  let sensorInitialized := fst (sensor_init sensor) in
  let retryCount := snd (sensor_init sensor) in
  (sensorInitialized = true
   <-> exists k, (k < 5)%nat /\ attempt_succeeds (sensor k))
  /\ (forall j, (j < retryCount)%nat -> ~ attempt_succeeds (sensor j))
  /\ (sensorInitialized = true -> attempt_succeeds (sensor retryCount))
  /\ (sensorInitialized = false -> retryCount = 5%nat).
Proof.
  cbn zeta. unfold sensor_init.
  destruct (connect_spec sensor 5 0) as (Hr & Hn & Ht & Hf). cbn zeta in *.
  split.
  { split.
    - intros E. destruct (Ht E) as [H1 H2].
      exists (snd (connect sensor 5 0)). split; [lia|exact H2].
    - intros (k & Hk & Ha).
      destruct (fst (connect sensor 5 0)) eqn:E; [reflexivity|].
      exfalso. apply (Hn k); [rewrite (Hf eq_refl); lia|exact Ha]. }
  split; [intros j Hj; apply Hn; lia|].
  split; [intros E; apply (Ht E)|].
  intros E. rewrite (Hf E). reflexivity.
Qed.

(** ** Touch *)

(** X11: a tap on the Monitor button toggles monitoring.  With the menu
    closed, a press in the footer inside the button's columns followed, on
    the next pass, by a release anywhere on the button switches
    [isMonitoring], leaves the menu closed and leaves no button armed; and
    the point of such a press is itself on the button. *)
Theorem X11_tap_toggles_monitoring (w : World) (f1 f2 : Frame)
    (rest : list Frame) :
  pending w = f1 :: f2 :: rest ->
  isOpen (settingsMenu w) = false -> touchProcessed w = false ->
  contact f1 -> wasPressed (touch f1) = true ->
  Config.Display.MARGIN <= touch_x (touch f1)
    < Config.Display.MARGIN + buttonWidth w ->
  footerY w <= touch_y (touch f1) <= display_height w ->
  contact f2 -> wasReleased (touch f2) = true ->
  contains (monitorBtn w) (touch_x (touch f2)) (touch_y (touch f2)) = true ->
  contains (monitorBtn w) (touch_x (touch f1)) (touch_y (touch f1)) = true
  /\ exists w2,
       run 2 w = Returned tt w2
       /\ isMonitoring (state w2) = negb (isMonitoring (state w))
       /\ isOpen (settingsMenu w2) = false
       /\ lastPressedButton w2 = None
       /\ pending w2 = rest.
Proof.
  intros Hp Ho Ht Hc1 Hp1 Hx Hy Hc2 Hr2 Hin.
  split; [apply press_inside_monitorBtn; assumption|].
  destruct (handleTouch_arms_monitorBtn (with_input f1 (f2 :: rest) w))
    as (w1 & E1 & Hl1 & Ht1 & Hst1 & Hm1 & Hse1 & Hpr1 & Hi1);
    [exact Hc1|exact Hp1|exact Ht|exact Ho|exact Hx|exact (proj1 Hy)|].
  destruct (loop_arms w f1 (f2 :: rest) w1 _ Hp E1 Hl1 Ht1 Hst1 Hm1 Hse1
              Hpr1 Hi1)
    as (wa & Ea & Hpa & Hla & Hta & Hca & _).
  unfold controls in Hca. injection Hca as Hmon Hscr Hopen.
  destruct (loop_release wa f2 rest _ Hpa Hc2 Hr2 Hta Hla Hin)
    as (wb & Eb & Hpb & _ & _ & Hlb & Hmonb & _).
  assert (Hlab : label (set_pressed true
                          (monitorBtn (with_input f1 (f2 :: rest) w)))
                 = "Monitor"
                 \/ label (set_pressed true
                             (monitorBtn (with_input f1 (f2 :: rest) w)))
                    = "Stop").
  { cbn. destruct (isMonitoring (state w)); [right|left]; reflexivity. }
  destruct (Hmonb Hlab) as [Hm Hop].
  exists wb. cbn [run]. rewrite Ea. cbn [bind]. rewrite Eb. cbn [bind].
  split; [reflexivity|]. rewrite Hm, Hop, Hmon, Hopen.
  repeat split; assumption.
Qed.

Lemma X11_tap_toggles_monitoring_witness :
  (let w := tap_world 50 in
   let f1 := frame_at 10 (press 50 220) 2500 in
   let f2 := frame_at 20 (release 50 220) 2500 in
   pending w = [f1; f2]
   /\ isOpen (settingsMenu w) = false /\ touchProcessed w = false
   /\ contact f1 /\ wasPressed (touch f1) = true
   /\ Config.Display.MARGIN <= touch_x (touch f1)
        < Config.Display.MARGIN + buttonWidth w
   /\ footerY w <= touch_y (touch f1) <= display_height w
   /\ contact f2 /\ wasReleased (touch f2) = true
   /\ contains (monitorBtn w) (touch_x (touch f2)) (touch_y (touch f2))
      = true)
  /\ exists w2, run 2 (tap_world 50) = Returned tt w2
                /\ isMonitoring (state w2) = true.
Proof.
  assert (H : let w := tap_world 50 in
              let f1 := frame_at 10 (press 50 220) 2500 in
              let f2 := frame_at 20 (release 50 220) 2500 in
              pending w = [f1; f2]
              /\ isOpen (settingsMenu w) = false /\ touchProcessed w = false
              /\ contact f1 /\ wasPressed (touch f1) = true
              /\ Config.Display.MARGIN <= touch_x (touch f1)
                   < Config.Display.MARGIN + buttonWidth w
              /\ footerY w <= touch_y (touch f1) <= display_height w
              /\ contact f2 /\ wasReleased (touch f2) = true
              /\ contains (monitorBtn w) (touch_x (touch f2))
                   (touch_y (touch f2)) = true)
    by (vm_compute; repeat split; discriminate).
  split; [exact H|].
  destruct H as (Hp & Ho & Ht & Hc1 & Hp1 & Hx & Hy & Hc2 & Hr2 & Hin).
  pose proof (X11_tap_toggles_monitoring _ _ _ _ Hp Ho Ht Hc1 Hp1 Hx Hy Hc2
                Hr2 Hin) as (_ & w2 & E & Hm & _).
  exists w2. split; [exact E|exact Hm].
Defined.

(** X12: a tap on the Settings button opens the menu and a tap on Back
    closes it.  A press in the footer inside the button's columns followed,
    on the next pass, by a release anywhere on the button switches
    [isOpen], sets the screen to match, and leaves monitoring, the settings
    and the store as they were: leaving the menu writes nothing. *)
Theorem X12_tap_switches_screen (w : World) (f1 f2 : Frame)
    (rest : list Frame) :
  pending w = f1 :: f2 :: rest ->
  touchProcessed w = false ->
  contact f1 -> wasPressed (touch f1) = true ->
  display_width w - buttonWidth w - Config.Display.MARGIN
    <= touch_x (touch f1) < display_width w - Config.Display.MARGIN ->
  footerY w <= touch_y (touch f1) <= display_height w ->
  contact f2 -> wasReleased (touch f2) = true ->
  contains (settingsBtn w) (touch_x (touch f2)) (touch_y (touch f2)) = true ->
  contains (settingsBtn w) (touch_x (touch f1)) (touch_y (touch f1)) = true
  /\ exists w2,
       run 2 w = Returned tt w2
       /\ isOpen (settingsMenu w2) = negb (isOpen (settingsMenu w))
       /\ currentScreen (state w2)
          = (if isOpen (settingsMenu w) then MAIN else SETTINGS)
       /\ isMonitoring (state w2) = isMonitoring (state w)
       /\ settings w2 = settings w /\ preferences w2 = preferences w
       /\ lastPressedButton w2 = None
       /\ pending w2 = rest.
Proof.
  intros Hp Ht Hc1 Hp1 Hx Hy Hc2 Hr2 Hin.
  split; [apply press_inside_settingsBtn; assumption|].
  destruct (handleTouch_arms_settingsBtn (with_input f1 (f2 :: rest) w))
    as (w1 & E1 & Hl1 & Ht1 & Hst1 & Hm1 & Hse1 & Hpr1 & Hi1);
    [exact Hc1|exact Hp1|exact Ht|exact Hx|exact (proj1 Hy)|].
  destruct (loop_arms w f1 (f2 :: rest) w1 _ Hp E1 Hl1 Ht1 Hst1 Hm1 Hse1
              Hpr1 Hi1)
    as (wa & Ea & Hpa & Hla & Hta & Hca & Hsa & Hpra).
  unfold controls in Hca. injection Hca as Hmon Hscr Hopen.
  destruct (loop_release wa f2 rest _ Hpa Hc2 Hr2 Hta Hla Hin)
    as (wb & Eb & Hpb & Hsb & Hprb & Hlb & _ & Hsetb).
  assert (Hlab : label (set_pressed true
                          (settingsBtn (with_input f1 (f2 :: rest) w)))
                 = "Settings"
                 \/ label (set_pressed true
                             (settingsBtn (with_input f1 (f2 :: rest) w)))
                    = "Back").
  { cbn. destruct (isOpen (settingsMenu w)); [right|left]; reflexivity. }
  destruct (Hsetb Hlab) as (Hop & Hsc & Hm).
  exists wb. cbn [run]. rewrite Ea. cbn [bind]. rewrite Eb. cbn [bind].
  split; [reflexivity|].
  rewrite Hop, Hsc, Hm, Hmon, Hopen, Hsb, Hprb, Hsa, Hpra.
  repeat split; try assumption.
  destruct (isOpen (settingsMenu w)); reflexivity.
Qed.

Lemma X12_tap_switches_screen_witness :
  (let w := tap_world 300 in
   let f1 := frame_at 10 (press 300 220) 2500 in
   let f2 := frame_at 20 (release 300 220) 2500 in
   pending w = [f1; f2]
   /\ touchProcessed w = false
   /\ contact f1 /\ wasPressed (touch f1) = true
   /\ display_width w - buttonWidth w - Config.Display.MARGIN
        <= touch_x (touch f1) < display_width w - Config.Display.MARGIN
   /\ footerY w <= touch_y (touch f1) <= display_height w
   /\ contact f2 /\ wasReleased (touch f2) = true
   /\ contains (settingsBtn w) (touch_x (touch f2)) (touch_y (touch f2))
      = true)
  /\ exists w2, run 2 (tap_world 300) = Returned tt w2
                /\ currentScreen (state w2) = SETTINGS.
Proof.
  assert (H : let w := tap_world 300 in
              let f1 := frame_at 10 (press 300 220) 2500 in
              let f2 := frame_at 20 (release 300 220) 2500 in
              pending w = [f1; f2]
              /\ touchProcessed w = false
              /\ contact f1 /\ wasPressed (touch f1) = true
              /\ display_width w - buttonWidth w - Config.Display.MARGIN
                   <= touch_x (touch f1)
                   < display_width w - Config.Display.MARGIN
              /\ footerY w <= touch_y (touch f1) <= display_height w
              /\ contact f2 /\ wasReleased (touch f2) = true
              /\ contains (settingsBtn w) (touch_x (touch f2))
                   (touch_y (touch f2)) = true)
    by (vm_compute; repeat split; discriminate).
  split; [exact H|].
  destruct H as (Hp & Ht & Hc1 & Hp1 & Hx & Hy & Hc2 & Hr2 & Hin).
  pose proof (X12_tap_switches_screen _ _ _ _ Hp Ht Hc1 Hp1 Hx Hy Hc2
                Hr2 Hin) as (_ & w2 & E & _ & Hs & _).
  exists w2. split; [exact E|exact Hs].
Defined.

(** X13: the screen shown and the menu never disagree: when
    [currentScreen] is SETTINGS exactly if the menu is open, as at
    power-on, it is so again after any number of passes of [loop]. *)
Theorem X13_screen_follows_menu (n : nat) (w w' : World) :
  screen_matches w -> run n w = Returned tt w' ->
  currentScreen (state w')
  = if isOpen (settingsMenu w') then SETTINGS else MAIN.
Proof. apply run_screen_matches. Qed.

Lemma X13_screen_follows_menu_witness :
  (screen_matches (tap_world 300)
   /\ run 2 (tap_world 300)
      = Returned tt (final_world (run 2 (tap_world 300))))
  /\ currentScreen (state (final_world (run 2 (tap_world 300))))
     = if isOpen (settingsMenu (final_world (run 2 (tap_world 300))))
       then SETTINGS else MAIN.
Proof.
  assert (H : screen_matches (tap_world 300)
              /\ run 2 (tap_world 300)
                 = Returned tt (final_world (run 2 (tap_world 300))))
    by (vm_compute; repeat split).
  split; [exact H|].
  destruct H as (Hs & E).
  exact (X13_screen_follows_menu 2 _ _ Hs E).
Defined.

(** X14: a finger held down is taken once.  Once a press has been
    processed and no footer button is armed, every further frame with
    contact, whatever it reports, leaves the settings, the store, the menu,
    the monitoring flag and the screen as they are. *)
Theorem X14_held_finger_ignored (w : World) (fs rest : list Frame) :
  Forall contact fs ->
  touchProcessed w = true -> lastPressedButton w = None ->
  pending w = (fs ++ rest)%list ->
  exists w',
    run (length fs) w = Returned tt w'
    /\ settings w' = settings w /\ preferences w' = preferences w
    /\ settingsMenu w' = settingsMenu w /\ controls w' = controls w
    /\ touchProcessed w' = true /\ lastPressedButton w' = None
    /\ pending w' = rest.
Proof.
  intros Hc Ht Hl Hp.
  destruct (run_held fs w rest Hc Ht Hl Hp) as (w' & E & Hf & Hpe).
  exists w'. split; [exact E|].
  pose proof (fixed_eq _ _ Hf) as (Hs & Hpr & Hlp & Htp & Hcon).
  assert (Hm : settingsMenu w' = settingsMenu w)
    by (unfold fixed in Hf; injection Hf; auto).
  rewrite Hs, Hpr, Hlp, Htp, Hcon, Ht, Hl, Hm. repeat split. exact Hpe.
Qed.

Lemma X14_held_finger_ignored_witness :
  (let w := final_world (run 1 held_world) in
   let fs := [frame_at 20 (press 100 100) 2500;
              frame_at 30 (press 100 101) 2500] in
   Forall contact fs
   /\ touchProcessed w = true /\ lastPressedButton w = None
   /\ pending w = (fs ++ [])%list)
  /\ exists w', run 2 (final_world (run 1 held_world)) = Returned tt w'
                /\ settings w' = settings (final_world (run 1 held_world)).
Proof.
  assert (H : let w := final_world (run 1 held_world) in
              let fs := [frame_at 20 (press 100 100) 2500;
                         frame_at 30 (press 100 101) 2500] in
              Forall contact fs
              /\ touchProcessed w = true /\ lastPressedButton w = None
              /\ pending w = (fs ++ [])%list).
  { split; [repeat constructor; discriminate|].
    vm_compute. repeat split. }
  split; [exact H|].
  destruct H as (Hc & Ht & Hl & Hp).
  pose proof (X14_held_finger_ignored _ _ _ Hc Ht Hl Hp)
    as (w' & E & Hs & _).
  exists w'. split; [exact E|exact Hs].
Defined.

(** X21: what is armed is always a pressed footer button.  From a device
    with nothing armed, as at power-on, after any number of passes of
    [loop] the armed button, if there is one, is drawn pressed, carries
    one of the four footer labels, and the touch that armed it is still
    in progress: the release branch of [handleTouch] never meets a button
    it does not know. *)
Theorem X21_armed_button_is_a_footer_button (n : nat) (w w' : World)
    (b : Button) :
  lastPressedButton w = None ->
  run n w = Returned tt w' ->
  lastPressedButton w' = Some b ->
  touchProcessed w' = true /\ pressed b = true
  /\ (label b = "Monitor" \/ label b = "Stop" \/ label b = "Settings"
      \/ label b = "Back").
Proof.
  intros H0 E Hb.
  assert (Ha : armed_ok w) by (unfold armed_ok; rewrite H0; exact I).
  pose proof (run_armed_ok n w w' Ha E) as Ha'.
  unfold armed_ok in Ha'. rewrite Hb in Ha'. exact Ha'.
Qed.

Lemma X21_armed_button_is_a_footer_button_witness :
  (lastPressedButton (tap_world 300) = None
   /\ run 1 (tap_world 300)
      = Returned tt (final_world (run 1 (tap_world 300)))
   /\ lastPressedButton (final_world (run 1 (tap_world 300)))
      = Some (set_pressed true (settingsBtn (tap_world 300))))
  /\ touchProcessed (final_world (run 1 (tap_world 300))) = true.
Proof.
  assert (H : lastPressedButton (tap_world 300) = None
              /\ run 1 (tap_world 300)
                 = Returned tt (final_world (run 1 (tap_world 300)))
              /\ lastPressedButton (final_world (run 1 (tap_world 300)))
                 = Some (set_pressed true (settingsBtn (tap_world 300))))
    by (vm_compute; repeat split).
  split; [exact H|].
  destruct H as (H0 & E & Hb).
  exact (proj1 (X21_armed_button_is_a_footer_button 1 _ _ _ H0 E Hb)).
Defined.

(** ** The menu rows and the modal *)

(** X6: the tolerance row.  After an activation the tolerance is never
    above 20.  In Celsius mode a tolerance of [k] halves of a degree
    becomes [k + 1] halves up to 20.0, and 20.0 becomes 1.0; in Fahrenheit
    mode [k] degrees become [k + 1] up to 20, and 20 becomes 1.  In Celsius
    mode the row therefore runs through 1.0, 1.5, ..., 20.0 and 39
    activations give any of these values back. *)
Theorem X6_tolerance_cycle (w : World) :
  let tol w := tempTolerance (settings w) in
  fgt (tol (select 5 w)) (F32.of_Z 20) = false
  /\ (forall k, 0 <= k <= 40 -> useCelsius (settings w) = true ->
        tol w = F32.div (F32.of_Z k) (F32.of_Z 2) ->
        tol (select 5 w)
        = if k <? 40 then F32.div (F32.of_Z (k + 1)) (F32.of_Z 2)
          else F32.of_Z 1)
  /\ (forall k, 0 <= k <= 20 -> useCelsius (settings w) = false ->
        tol w = F32.of_Z k ->
        tol (select 5 w) = if k <? 20 then F32.of_Z (k + 1) else F32.of_Z 1)
  /\ (forall k, 2 <= k <= 40 -> useCelsius (settings w) = true ->
        tol w = F32.div (F32.of_Z k) (F32.of_Z 2) ->
        tol (Nat.iter 39 (select 5) w) = tol w).
Proof.
  cbn zeta. split.
  { rewrite select_tolerance. cbn zeta.
    destruct (fgt (F32.add _ _) (F32.of_Z 20)) eqn:E; [reflexivity|exact E]. }
  split.
  { intros k Hk Hc Ht. rewrite select_tolerance, Hc, Ht.
    apply half_step, Hk. }
  split.
  { intros k Hk Hc Ht. rewrite select_tolerance, Hc, Ht.
    apply whole_step, Hk. }
  intros k Hk Hc Ht.
  replace 39%nat with (Z.to_nat (k - 2) + (1 + Z.to_nat (40 - k)))%nat by lia.
  rewrite Nat.iter_add, Nat.iter_add.
  destruct (tolerance_climbs (Z.to_nat (40 - k)) w k Hc Ht) as [Hc1 Ht1];
    [lia|lia|].
  replace (k + Z.of_nat (Z.to_nat (40 - k))) with 40 in Ht1 by lia.
  set (w1 := Nat.iter (Z.to_nat (40 - k)) (select 5) w) in *.
  assert (Ht2 : tempTolerance (settings (Nat.iter 1 (select 5) w1))
                = F32.div (F32.of_Z 2) (F32.of_Z 2)).
  { cbn [Nat.iter nat_rect]. rewrite select_tolerance, Hc1, Ht1.
    vm_compute. reflexivity. }
  assert (Hc2 : useCelsius (settings (Nat.iter 1 (select 5) w1)) = true)
    by exact Hc1.
  destruct (tolerance_climbs (Z.to_nat (k - 2)) _ 2 Hc2 Ht2) as [_ Ht3];
    [lia|lia|].
  rewrite Ht3, Ht. f_equal. f_equal. lia.
Qed.

Lemma X6_tolerance_cycle_witness :
  (0 <= 10 <= 40 /\ useCelsius (settings (boot ∅ [])) = true
   /\ tempTolerance (settings (boot ∅ []))
      = F32.div (F32.of_Z 10) (F32.of_Z 2))
  /\ tempTolerance (settings (select 5 (boot ∅ [])))
     = F32.div (F32.of_Z 11) (F32.of_Z 2).
Proof.
  assert (H : 0 <= 10 <= 40 /\ useCelsius (settings (boot ∅ [])) = true
              /\ tempTolerance (settings (boot ∅ []))
                 = F32.div (F32.of_Z 10) (F32.of_Z 2))
    by (vm_compute; repeat split; discriminate).
  split; [exact H|].
  destruct H as (Hk & Hc & Ht).
  pose proof (X6_tolerance_cycle (boot ∅ [])) as (_ & P & _).
  exact (P 10 Hk Hc Ht).
Defined.

(** X18: a stored brightness outside [0, 255] heals.  From any brightness
    a 32-bit [int] can hold short of overflow, the row's result lies
    between -255 and 255; five activations bring the brightness into
    [0, 255], and there it stays. *)
Theorem X18_brightness_heals (w : World) (n : nat) :
  - 2 ^ 31 <= brightness (settings w) < 2 ^ 31 - 64 ->
  (5 <= n)%nat ->
  -255 <= brightness (settings (select 2 w)) <= 255
  /\ 0 <= brightness (settings (Nat.iter n (select 2) w)) <= 255.
Proof.
  intros Hb Hn.
  pose proof (brightness_first _ Hb) as H1.
  rewrite <- select_brightness_any in H1. split; [exact H1|].
  replace n with ((n - 5) + 5)%nat by lia.
  rewrite Nat.iter_add. apply brightness_stays.
  cbn [Nat.iter nat_rect].
  set (w1 := select 2 w) in *.
  pose proof (brightness_step _ H1) as [Ha1 Hb1].
  rewrite <- select_brightness_any in Ha1, Hb1.
  set (w2 := select 2 w1) in *.
  assert (H2 : -255 <= brightness (settings w2) <= 255) by lia.
  pose proof (brightness_step _ H2) as [Ha2 Hb2].
  rewrite <- select_brightness_any in Ha2, Hb2.
  set (w3 := select 2 w2) in *.
  assert (H3 : -255 <= brightness (settings w3) <= 255) by lia.
  pose proof (brightness_step _ H3) as [Ha3 Hb3].
  rewrite <- select_brightness_any in Ha3, Hb3.
  set (w4 := select 2 w3) in *.
  assert (H4 : -255 <= brightness (settings w4) <= 255) by lia.
  pose proof (brightness_step _ H4) as [Ha4 Hb4].
  rewrite <- select_brightness_any in Ha4, Hb4.
  lia.
Qed.

Lemma X18_brightness_heals_witness :
  (- 2 ^ 31 <= brightness (settings dim_world) < 2 ^ 31 - 64 /\ (5 <= 5)%nat)
  /\ 0 <= brightness (settings (Nat.iter 5 (select 2) dim_world)) <= 255.
Proof.
  assert (H : - 2 ^ 31 <= brightness (settings dim_world) < 2 ^ 31 - 64
              /\ (5 <= 5)%nat)
    by (split; [vm_compute; split; [discriminate|reflexivity]|lia]).
  split; [exact H|].
  destruct H as (Hb & Hn).
  exact (proj2 (X18_brightness_heals dim_world 5 Hb Hn)).
Defined.

(** X19: the steps of the emissivity modal make progress.  On a staged
    value of the band, a [+] below the maximum gives a strictly larger
    value and a [-] above the minimum a strictly smaller one; and from any
    value of the band at most 36 presses of [+] reach exactly 1.00, and at
    most 36 presses of [-] reach exactly 0.65. *)
Theorem X19_steps_make_progress (t : spec_float) :
  F32.valid t = true -> in_band t = true ->
  (flt t EMISSIVITY_MAX = true -> flt t (step_up t) = true)
  /\ (fgt t EMISSIVITY_MIN = true -> flt (step_down t) t = true)
  /\ (exists n, (n <= 36)%nat /\ Nat.iter n press_up t = EMISSIVITY_MAX)
  /\ (exists n, (n <= 36)%nat /\ Nat.iter n press_down t = EMISSIVITY_MIN).
Proof.
  intros Hv Hb. pose proof Hb as Hb'.
  apply andb_true_iff in Hb' as [Hlo Hhi].
  split; [|split; [|split]].
  - intros Hlt. destruct (below_max_shape t Hv Hlo Hlt) as (m & -> & Hm).
    destruct (Z_lt_le_dec (Zpos m + 167772) 16777216) as [Hs|Hs].
    + rewrite step_up_low by lia. apply flt_finite. lia.
    + rewrite step_up_high by lia. apply flt_MAX_finite. lia.
  - intros Hgt.
    destruct (above_min_shape t Hv Hgt Hhi) as [->|(m & -> & Hm)];
      [vm_compute; reflexivity|].
    destruct (step_down_finite m Hm) as [Hlow Hhigh].
    destruct (Z_le_gt_dec (Zpos m - 167772) 10905190) as [Hs|Hs].
    + rewrite (Hlow Hs), EMISSIVITY_MIN_eq. apply flt_finite. lia.
    + destruct (Hhigh ltac:(lia)) as (k & -> & Hk). apply flt_finite. lia.
  - destruct (band_shape t Hv Hb) as [->|(m & -> & Hm)].
    + exists 0%nat. split; [lia|reflexivity].
    + destruct (reach_max 36 m ltac:(lia) ltac:(lia)) as (n & Hn & Hr).
      exists n. split; [lia|exact Hr].
  - destruct (band_shape t Hv Hb) as [->|(m & -> & Hm)].
    + assert (E : press_down EMISSIVITY_MAX
                  = S754_finite false 16609444 (-24))
        by (vm_compute; reflexivity).
      destruct (reach_min 35 16609444%positive ltac:(lia) ltac:(lia))
        as (n & Hn & Hr).
      exists (S n). split; [lia|]. rewrite Nat.iter_succ_r, E. exact Hr.
    + destruct (reach_min 36 m ltac:(lia) ltac:(lia)) as (n & Hn & Hr).
      exists n. split; [lia|exact Hr].
Qed.

Lemma X19_steps_make_progress_witness :
  (F32.valid Config.System.DEFAULT_EMISSIVITY = true
   /\ in_band Config.System.DEFAULT_EMISSIVITY = true
   /\ flt Config.System.DEFAULT_EMISSIVITY EMISSIVITY_MAX = true)
  /\ flt Config.System.DEFAULT_EMISSIVITY
       (step_up Config.System.DEFAULT_EMISSIVITY) = true.
Proof.
  assert (H : F32.valid Config.System.DEFAULT_EMISSIVITY = true
              /\ in_band Config.System.DEFAULT_EMISSIVITY = true
              /\ flt Config.System.DEFAULT_EMISSIVITY EMISSIVITY_MAX = true)
    by (vm_compute; repeat split).
  split; [exact H|].
  destruct H as (Hv & Hb & Hlt).
  exact (proj1 (X19_steps_make_progress _ Hv Hb) Hlt).
Defined.
